(** * hanks_tank_ml: the V4 time-aware stacking and tuning engine

    A shallow embedding of
      - src/train_v4_models.py   (module [V4Stacked]),
      - src/train_v4_tuned.py    (module [V4Tuned]),
      - src/predict_2026_games.py (module [Predict2026]),
    followed by the properties of the specification that concern them.

    Conventions.
      - A pandas data frame read from a parquet file written with
        [index=False] carries a RangeIndex: index labels are row positions,
        modelled as [nat].
      - A missing value (NaN) is [None]; every comparison with NaN is false.
      - Feature values are rationals ([Q]), years are integers ([Z]).
      - A Python exception is a value of type [exn]; a call that may raise
        returns [result A].
      - Third-party code (scikit-learn, XGBoost, LightGBM, Optuna) is not
        part of the repository: estimators, metrics, the stratified
        splitter and the study's sampler are section variables, and the
        few library rules the claims depend on are written out where they
        are used. *)

From Stdlib Require Import ZArith QArith List Bool String Lia Lqa Permutation Sorted.
From stdpp Require Import base option list strings gmap.

Set Default Proof Using "Type".
Local Open Scope string_scope.
Local Open Scope list_scope.
Local Open Scope Z_scope.

(* ===================================================================== *)
(** ** Exceptions and the error monad                                     *)
(* ===================================================================== *)

(** The exceptions the modelled code can meet, together with the two error
    kinds of the specification's taxonomy. *)
Inductive exn : Type :=
| KeyError (key : string)          (* dict / frame / series lookup *)
| IndexError                       (* array index out of bounds *)
| ValueError (msg : string)        (* numpy / sklearn / optuna argument errors *)
| LearnerError (code : Z)          (* raised inside a learner's fit or predict *)
| SchemaError                      (* specification taxonomy *)
| SchemaMismatchError.             (* specification taxonomy *)

Inductive result (A : Type) : Type :=
| Ok (a : A)
| Raise (e : exn).
Arguments Ok {A} a.
Arguments Raise {A} e.

Definition bind {A B : Type} (r : result A) (k : A -> result B) : result B :=
  match r with
  | Ok a => k a
  | Raise e => Raise e
  end.

Notation "'let*' p ':=' r 'in' k" := (bind r (fun p => k))
  (at level 10, p pattern, r at level 100, k at level 200).

(** [for x in xs: ...] over a body that may raise, collecting the results. *)
Fixpoint mapM {A B : Type} (f : A -> result B) (xs : list A) : result (list B) :=
  match xs with
  | [] => Ok []
  | x :: rest => let* y := f x in let* ys := mapM f rest in Ok (y :: ys)
  end.

(* ===================================================================== *)
(** ** Data frames                                                        *)
(* ===================================================================== *)

Inductive column : Type :=
| NumCol (cells : list (option Q))   (* numeric dtype, NaN as None *)
| ObjCol (cells : list string).      (* object dtype *)

(** A training frame.  The temporal key and the label have their own typed
    fields; [cols] are the remaining columns in frame order.  Both 'year'
    and 'home_won' are in the exclusion list of the loader, so where they
    stand among the columns has no effect on the selected features.  Text
    cells stand for values that are not numbers. *)
Record DataFrame : Type := mkDataFrame {
  nrows : nat;                        (* len(df) *)
  year : option (list (option Z));   (* the 'year' column, if the frame has one *)
  home_won : option (list Z);         (* the 'home_won' label column, if any *)
  cols : list (string * column)
}.

(** A feature matrix: one row per frame row. *)
Abbreviation row := (list (option Q)).
Abbreviation matrix := (list (list (option Q))).

(** A Python dict with string keys, in insertion order: [d[k]] and
    [d[k] = v] (an existing key keeps its place, a new one is appended).
    Frame columns are accessed the same way. *)
Definition dict_get {V : Type} (k : string) (d : list (string * V)) : option V :=
  snd <$> List.find (fun kv => String.eqb (fst kv) k) d.

Fixpoint dict_set {V : Type} (k : string) (v : V) (d : list (string * V))
  : list (string * V) :=
  match d with
  | [] => [(k, v)]
  | (k0, v0) :: t =>
      if String.eqb k0 k then (k0, v) :: t else (k0, v0) :: dict_set k v t
  end.

Definition is_numeric_dtype (c : column) : bool :=
  match c with
  | NumCol _ => true
  | ObjCol _ => false
  end.

(** Hyperparameter values and learner descriptions (constructor + kwargs). *)
Inductive pvalue : Type :=
| PInt (z : Z)
| PFloat (q : Q)
| PStr (s : string).

Inductive family : Type :=
| ScaledLogistic        (* Pipeline(StandardScaler, LogisticRegression) *)
| Logistic              (* LogisticRegression *)
| XGBClassifier
| LGBMClassifier.

Record learner : Type := mkLearner {
  fam : family;
  kwargs : list (string * pvalue)
}.

(* --------------------------------------------------------------------- *)
(** *** Generic helpers: sorting, unique, boolean masks                    *)
(* --------------------------------------------------------------------- *)

Section Sorting.
Context {A : Type} (leb : A -> A -> bool).

Fixpoint insert_sorted (x : A) (l : list A) : list A :=
  match l with
  | [] => [x]
  | y :: t => if leb x y then x :: y :: t else y :: insert_sorted x t
  end.

(** Python's [sorted]: ascending and stable. *)
Fixpoint sorted (l : list A) : list A :=
  match l with
  | [] => []
  | x :: t => insert_sorted x (sorted t)
  end.
End Sorting.

(** [Series.dropna()] *)
Definition dropna {A : Type} (s : list (option A)) : list A := omap id s.

(** [Series.unique()]: distinct values in order of first appearance. *)
Fixpoint unique_from (seen : list Z) (l : list Z) : list Z :=
  match l with
  | [] => []
  | x :: t =>
      if existsb (Z.eqb x) seen then unique_from seen t
      else x :: unique_from (x :: seen) t
  end.
Definition unique (l : list Z) : list Z := unique_from [] l.

(** [df.index[mask].to_numpy()] on a RangeIndex: the positions where the
    boolean mask holds, ascending. *)
Fixpoint index_where_from (i : nat) (mask : list bool) : list nat :=
  match mask with
  | [] => []
  | b :: t => if b then i :: index_where_from (S i) t else index_where_from (S i) t
  end.
Definition index_where (mask : list bool) : list nat := index_where_from 0 mask.

(** [df["year"] < y] and [df["year"] == y]: elementwise, false on NaN. *)
Definition series_lt (s : list (option Z)) (y : Z) : list bool :=
  map (fun c => match c with Some v => v <? y | None => false end) s.
Definition series_eq (s : list (option Z)) (y : Z) : list bool :=
  map (fun c => match c with Some v => v =? y | None => false end) s.

(** numpy fancy indexing [a[idx]] with an integer index array. *)
Definition fancy_index {A : Type} (a : list A) (idx : list nat) : result (list A) :=
  mapM (fun i => match a !! i with Some x => Ok x | None => Raise IndexError end) idx.

(** numpy fancy assignment [a[idx] = vals]. *)
Fixpoint assign_pairs (a : list (option Q)) (ivs : list (nat * Q))
  : result (list (option Q)) :=
  match ivs with
  | [] => Ok a
  | (i, v) :: rest =>
      if (i <? length a)%nat then assign_pairs (<[i := Some v]> a) rest
      else Raise IndexError
  end.

Definition assign (a : list (option Q)) (idx : list nat) (vals : list Q)
  : result (list (option Q)) :=
  if (length idx =? length vals)%nat then assign_pairs a (combine idx vals)
  else Raise (ValueError "shape mismatch").

(** Boolean-mask indexing [a[mask]]. *)
Definition mask_select {A : Type} (a : list A) (mask : list bool) : result (list A) :=
  if (length a =? length mask)%nat
  then Ok (map fst (List.filter (fun xb => snd xb) (combine a mask)))
  else Raise IndexError.

(** [np.column_stack] of equally long 1-d arrays: the rows of the matrix. *)
Definition column_stack {A : Type} (columns : list (list A)) : result (list (list A)) :=
  match columns with
  | [] => Raise (ValueError "need at least one array to concatenate")
  | c0 :: _ =>
      if forallb (fun c => (length c =? length c0)%nat) columns
      then Ok (map (fun i => omap (fun c => c !! i) columns) (seq 0 (length c0)))
      else Raise (ValueError "all the input array dimensions must match")
  end.

(** pandas [Series.median()]: NaN are skipped; NaN when nothing is left. *)
Definition median (cells : list (option Q)) : option Q :=
  let vs := sorted Qle_bool (dropna cells) in
  let n := length vs in
  if Nat.odd n then vs !! (n / 2)%nat
  else match vs !! (n / 2 - 1)%nat, vs !! (n / 2)%nat with
       | Some a, Some b => Some (Qred ((a + b) / 2))
       | _, _ => None
       end.

(** [a < b] on rationals, as a boolean. *)
Definition Qlt_bool (a b : Q) : bool := negb (Qle_bool b a).

(** pandas [Series.fillna(v)]; filling with NaN changes nothing. *)
Definition fillna (fill : option Q) (cells : list (option Q)) : list (option Q) :=
  map (fun c => match c with Some v => Some v | None => fill end) cells.

(* ===================================================================== *)
(** ** The loader steps                                                   *)
(* ===================================================================== *)
(** Column selection and imputation are textually the same in
    [select_features] (train_v4_models.py, lines 46-74) and [prepare_data]
    (train_v4_tuned.py, lines 47-74). *)

Definition exclude_cols : list string :=
  ["home_won"; "game_pk"; "game_date"; "year"; "home_team_id"; "away_team_id";
   "home_team"; "away_team"; "home_team_name"; "away_team_name"; "season"].

Definition numeric_cols (cs : list (string * column)) : list string :=
  map fst (List.filter (fun nc => is_numeric_dtype (snd nc)) cs).

Definition select_cols (cs : list (string * column)) : list string :=
  List.filter (fun c => negb (bool_decide (c ∈ exclude_cols))) (numeric_cols cs).

(** The state the imputation loop (lines 65-69) updates in place. *)
Record imputed : Type := mkImputed {
  im_fill : gmap string (option Q);
  im_train : list (string * column);
  im_val : list (string * column)
}.

(** [Series.fillna(v)] on a column of either dtype; text cells are never
    missing, so a text column is left as it is. *)
Definition column_fillna (fill : option Q) (c : column) : column :=
  match c with
  | NumCol cells => NumCol (fillna fill cells)
  | ObjCol cells => ObjCol cells
  end.

Definition impute_col (st : imputed) (col : string) : result imputed :=
  match dict_get col (im_train st) with
  | None => Raise (KeyError col)
  | Some (ObjCol _) => Raise (ValueError "could not convert string to numeric")
  | Some (NumCol cells) =>
      let fill_val := median cells in
      let fill' := <[col := fill_val]> (im_fill st) in
      let train' := dict_set col (NumCol (fillna fill_val cells)) (im_train st) in
      match dict_get col (im_val st) with
      | None => Raise (KeyError col)
      | Some vcol =>
          Ok {| im_fill := fill'; im_train := train';
                im_val := dict_set col (column_fillna fill_val vcol) (im_val st) |}
      end
  end.

Fixpoint impute_loop (st : imputed) (columns : list string) : result imputed :=
  match columns with
  | [] => Ok st
  | col :: rest => let* st' := impute_col st col in impute_loop st' rest
  end.

(** [df[names].values.astype(float)] *)
Definition values_float (n : nat) (cs : list (string * column)) (names : list string)
  : result matrix :=
  let* columns :=
    mapM (fun name =>
            match dict_get name cs with
            | None => Raise (KeyError name)
            | Some (NumCol cells) => Ok cells
            | Some (ObjCol _) => Raise (ValueError "could not convert string to float")
            end) names in
  Ok (map (fun i => map (fun cells => default None (cells !! i)) columns) (seq 0 n)).

(** [df["home_won"].values.astype(int)] *)
Definition labels (df : DataFrame) : result (list Z) :=
  match home_won df with
  | None => Raise (KeyError "home_won")
  | Some hw => Ok hw
  end.

(* ===================================================================== *)
(** ** src/train_v4_models.py                                             *)
(* ===================================================================== *)

Module V4Stacked.

(** A fold as [time_folds] emits it: (train_idx, val_idx, year). *)
Definition fold : Type := (list nat * list nat * Z)%type.

(** The loop of lines 126-130. *)
Fixpoint emit_folds (years_col : list (option Z)) (fold_years : list Z) : list fold :=
  match fold_years with
  | [] => []
  | y :: rest =>
      let train_idx := index_where (series_lt years_col y) in
      let val_idx := index_where (series_eq years_col y) in
      if (0 <? length train_idx)%nat && (0 <? length val_idx)%nat
      then (train_idx, val_idx, y) :: emit_folds years_col rest
      else emit_folds years_col rest
  end.

Definition start_index : nat := 3.

(** [time_folds] (lines 113-131); Python's [None] is [None]. *)
Definition time_folds (df : DataFrame) : option (list fold) :=
  match year df with
  | None => None
  | Some years_col =>
      let years := sorted Z.leb (unique (dropna years_col)) in
      if (length years <? 5)%nat then None
      else Some (emit_folds years_col (drop start_index years))
  end.

(* ------------------------------------------------------------------- *)
(** *** select_features (lines 44-76)                                    *)
(* ------------------------------------------------------------------- *)

(** The trainer object: [self.feature_cols] and [self.fill_values]. *)
Record trainer : Type := mkTrainer {
  feature_cols : list string;
  fill_values : gmap string (option Q)
}.

Definition init : trainer := {| feature_cols := []; fill_values := ∅ |}.

Record selected : Type := mkSelected {
  sel_self : trainer;            (* the trainer after the call *)
  sel_train_df : DataFrame;      (* train_df, imputed in place *)
  sel_val_df : DataFrame;        (* val_df, imputed in place *)
  X_train : matrix;
  y_train : list Z;
  X_val : matrix;
  y_val : list Z
}.

Definition select_features (self : trainer) (train_df val_df : DataFrame)
  : result selected :=
  let fcols := select_cols (cols train_df) in
  let* st := impute_loop {| im_fill := fill_values self;
                            im_train := cols train_df;
                            im_val := cols val_df |} fcols in
  let* Xt := values_float (nrows train_df) (im_train st) fcols in
  let* yt := labels train_df in
  let* Xv := values_float (nrows val_df) (im_val st) fcols in
  let* yv := labels val_df in
  Ok {| sel_self := {| feature_cols := fcols; fill_values := im_fill st |};
        sel_train_df := {| nrows := nrows train_df; year := year train_df;
                           home_won := home_won train_df; cols := im_train st |};
        sel_val_df := {| nrows := nrows val_df; year := year val_df;
                         home_won := home_won val_df; cols := im_val st |};
        X_train := Xt; y_train := yt; X_val := Xv; y_val := yv |}.

(* ------------------------------------------------------------------- *)
(** *** build_base_models (lines 78-111)                                 *)
(* ------------------------------------------------------------------- *)

Definition lr : learner :=
  {| fam := ScaledLogistic;
     kwargs := [("max_iter", PInt 2000); ("C", PFloat 1); ("solver", PStr "liblinear");
                ("random_state", PInt 42)] |}.

Definition xgb_model : learner :=
  {| fam := XGBClassifier;
     kwargs := [("n_estimators", PInt 500); ("learning_rate", PFloat (5 # 100));
                ("max_depth", PInt 5); ("subsample", PFloat (8 # 10));
                ("colsample_bytree", PFloat (8 # 10)); ("min_child_weight", PInt 2);
                ("reg_lambda", PFloat 1); ("reg_alpha", PFloat 0);
                ("eval_metric", PStr "logloss"); ("random_state", PInt 42)] |}.

Definition lgbm : learner :=
  {| fam := LGBMClassifier;
     kwargs := [("n_estimators", PInt 500); ("learning_rate", PFloat (5 # 100));
                ("num_leaves", PInt 31); ("subsample", PFloat (8 # 10));
                ("colsample_bytree", PFloat (8 # 10)); ("min_child_samples", PInt 40);
                ("random_state", PInt 42)] |}.

Definition meta_learner : learner :=
  {| fam := Logistic;
     kwargs := [("max_iter", PInt 2000); ("solver", PStr "liblinear");
                ("random_state", PInt 42)] |}.

Section Learners.
(** The third-party estimators.  [fit] is a function of the learner's
    description and the data: every learner carries a fixed
    [random_state], and fitting again discards the previous fit. *)
Variable fitted : Type.
Variable fit : learner -> matrix -> list Z -> result fitted.
(** [model.predict_proba(X)[:, 1]] *)
Variable predict_proba : fitted -> matrix -> result (list Q).
(** [sklearn.metrics.roc_auc_score]: a number, or, when [y] has a single
    class, an exception (scikit-learn before 1.6) or NaN (from 1.6 on). *)
Variable roc_auc_score : list Z -> list Q -> result (option Q).
(** [StratifiedKFold(n_splits, shuffle, random_state).split(X, y)] *)
Variable skf_split :
  nat -> bool -> Z -> matrix -> list Z -> result (list (list nat * list nat)).

(** A model object: its description and the result of its last [fit]. *)
Record model_obj : Type := mkModel {
  spec : learner;
  state : option fitted
}.

Definition model_fit (m : model_obj) (X : matrix) (y : list Z) : result model_obj :=
  let* f := fit (spec m) X y in Ok {| spec := spec m; state := Some f |}.

Definition model_predict_proba (m : model_obj) (X : matrix) : result (list Q) :=
  match state m with
  | None => Raise (ValueError "this instance is not fitted yet")
  | Some f => predict_proba f X
  end.

Definition build_base_models : list (string * model_obj) :=
  [("lr", {| spec := lr; state := None |});
   ("xgb", {| spec := xgb_model; state := None |});
   ("lgbm", {| spec := lgbm; state := None |})].

(** [accuracy_score(y, (probs >= 0.5).astype(int))] *)
Definition accuracy_score (y : list Z) (probs : list Q) : Q :=
  let hits := List.filter (fun yp => (fst yp =? (if Qle_bool (1 # 2) (snd yp) then 1 else 0)))
                          (combine y probs) in
  Qred (inject_Z (Z.of_nat (length hits)) / inject_Z (Z.of_nat (length y))).

(** A fold as the out-of-fold loop sees it: the year is [None] for a
    stratified fold. *)
Definition cv_fold : Type := (list nat * list nat * option Z)%type.

(** Lines 137-140. *)
Definition cv_folds (X : matrix) (y : list Z) (train_df : DataFrame)
  : result (list cv_fold) :=
  match time_folds train_df with
  | Some folds => Ok (map (fun f => (f.1.1, f.1.2, Some f.2)) folds)
  | None =>
      let* sk := skf_split 5%nat true 42 X y in
      Ok (map (fun tv => (tv.1, tv.2, None)) sk)
  end.

(** What the two loops of lines 142-158 update: the out-of-fold arrays,
    the model objects, and (ghost) the cells assigned at line 154, in
    program order. *)
Record oof_state : Type := mkOof {
  oof_preds : list (string * list (option Q));
  models : list (string * model_obj);
  writes : list (string * nat)
}.

(** The body of the inner loop (lines 152-158) for one base model. *)
Definition oof_model_step (X_tr : matrix) (y_tr : list Z) (X_va : matrix)
    (y_va : list Z) (val_idx : list nat) (st : oof_state) (name : string)
  : result oof_state :=
  match dict_get name (models st) with
  | None => Raise (KeyError name)
  | Some model =>
      let* model' := model_fit model X_tr y_tr in
      let* probs := model_predict_proba model' X_va in
      match dict_get name (oof_preds st) with
      | None => Raise (KeyError name)
      | Some arr =>
          let* arr' := assign arr val_idx probs in
          let* auc := roc_auc_score y_va probs in
          Ok {| oof_preds := dict_set name arr' (oof_preds st);
                models := dict_set name model' (models st);
                writes := writes st ++ map (pair name) val_idx |}
      end
  end.

Fixpoint oof_model_loop (X_tr : matrix) (y_tr : list Z) (X_va : matrix)
    (y_va : list Z) (val_idx : list nat) (st : oof_state) (names : list string)
  : result oof_state :=
  match names with
  | [] => Ok st
  | name :: rest =>
      let* st' := oof_model_step X_tr y_tr X_va y_va val_idx st name in
      oof_model_loop X_tr y_tr X_va y_va val_idx st' rest
  end.

(** The outer loop (lines 142-158). *)
Fixpoint oof_fold_loop (X : matrix) (y : list Z) (st : oof_state)
    (folds : list cv_fold) : result oof_state :=
  match folds with
  | [] => Ok st
  | (train_idx, val_idx, _) :: rest =>
      let* X_tr := fancy_index X train_idx in
      let* y_tr := fancy_index y train_idx in
      let* X_va := fancy_index X val_idx in
      let* y_va := fancy_index y val_idx in
      let* st' := oof_model_loop X_tr y_tr X_va y_va val_idx st (map fst (models st)) in
      oof_fold_loop X y st' rest
  end.

(** [get_oof_predictions] (lines 133-160). *)
Definition get_oof_predictions (X : matrix) (y : list Z) (train_df : DataFrame)
    (base_models : list (string * model_obj)) : result oof_state :=
  let oof0 := map (fun nm => (fst nm, replicate (length y) (@None Q))) base_models in
  let* folds := cv_folds X y train_df in
  oof_fold_loop X y {| oof_preds := oof0; models := base_models; writes := [] |} folds.

(** Lines 163-167 of [train_meta_model]: the meta-learner's training set. *)
Definition meta_training_set (oof : list (string * list (option Q))) (y : list Z)
  : result (matrix * list Z) :=
  let names := sorted String.leb (map fst oof) in
  let* columns :=
    mapM (fun name => match dict_get name oof with
                      | Some arr => Ok arr
                      | None => Raise (KeyError name)
                      end) names in
  let* oof_matrix := column_stack columns in
  let valid_rows := map (forallb (fun c => bool_decide (is_Some c))) oof_matrix in
  let* X_meta := mask_select oof_matrix valid_rows in
  let* y_meta := mask_select y valid_rows in
  Ok (X_meta, y_meta).

(** [train_meta_model] (lines 162-173). *)
Definition train_meta_model (oof : list (string * list (option Q))) (y : list Z)
  : result (fitted * list string) :=
  let* Xy := meta_training_set oof y in
  let* meta := fit meta_learner Xy.1 Xy.2 in
  Ok (meta, sorted String.leb (map fst oof)).

(** [evaluate_single_model] (lines 175-180). *)
Definition evaluate_single_model (model : model_obj) (X_v : matrix) (y_v : list Z)
  : result (Q * option Q) :=
  let* probs := model_predict_proba model X_v in
  let acc := accuracy_score y_v probs in
  let* auc := roc_auc_score y_v probs in
  Ok (acc, auc).

(** Lines 197-198: every base model is fit again, on the full history. *)
Definition refit_all (base_models : list (string * model_obj)) (X : matrix)
    (y : list Z) : result (list (string * model_obj)) :=
  mapM (fun nm => let* m' := model_fit (snd nm) X y in Ok (fst nm, m')) base_models.

(** Line 210: the meta-learner's input at holdout time. *)
Definition stacked_inputs (base_models : list (string * model_obj))
    (meta_order : list string) (X_v : matrix) : result matrix :=
  let* columns :=
    mapM (fun name => match dict_get name base_models with
                      | None => Raise (KeyError name)
                      | Some m => model_predict_proba m X_v
                      end) meta_order in
  let* rows := column_stack columns in
  Ok (map (map Some) rows).

Record metrics : Type := mkMetrics {
  stacked : Q * option Q;            (* accuracy, auc *)
  base : list (string * (Q * option Q))
}.

(** Line 229: [int(val_df["year"].unique()[0]) if "year" in val_df.columns
    else None]. *)
Definition val_year (val_df : DataFrame) : result (option Z) :=
  match year val_df with
  | None => Ok None
  | Some [] => Raise IndexError
  | Some (None :: _) => Raise (ValueError "cannot convert float NaN to integer")
  | Some (Some y :: _) => Ok (Some y)
  end.

(** The pickled artifact (lines 217-230), without its time stamp and its
    list of training years (neither can raise). *)
Record artifact : Type := mkArtifact {
  art_base_models : list (string * model_obj);
  art_meta_model : fitted;
  art_meta_order : list string;
  art_feature_cols : list string;
  art_fill_values : gmap string (option Q);
  art_metrics : metrics;
  art_val_year : option Z
}.

(** [run] (lines 182-237), from the two loaded frames on. *)
Definition run (self : trainer) (train_df val_df : DataFrame) : result artifact :=
  let* sel := select_features self train_df val_df in
  let base_models := build_base_models in
  let* oof := get_oof_predictions (X_train sel) (y_train sel) (sel_train_df sel)
                                  base_models in
  let* mm := train_meta_model (oof_preds oof) (y_train sel) in
  let* base_models := refit_all (models oof) (X_train sel) (y_train sel) in
  let* base_metrics :=
    mapM (fun nm => let* m := evaluate_single_model (snd nm) (X_val sel) (y_val sel) in
                    Ok (fst nm, m)) base_models in
  let* val_matrix := stacked_inputs base_models mm.2 (X_val sel) in
  let* stacked_probs := predict_proba mm.1 val_matrix in
  let stacked_acc := accuracy_score (y_val sel) stacked_probs in
  let* stacked_auc := roc_auc_score (y_val sel) stacked_probs in
  let* vy := val_year (sel_val_df sel) in
  Ok {| art_base_models := base_models;
        art_meta_model := mm.1;
        art_meta_order := mm.2;
        art_feature_cols := feature_cols (sel_self sel);
        art_fill_values := fill_values (sel_self sel);
        art_metrics := {| stacked := (stacked_acc, stacked_auc);
                          base := base_metrics |};
        art_val_year := vy |}.
End Learners.

End V4Stacked.

(* ===================================================================== *)
(** ** src/train_v4_tuned.py                                              *)
(* ===================================================================== *)

Module V4Tuned.

(** A fold as this file's [time_folds] emits it: (train_idx, val_idx). *)
Definition fold : Type := (list nat * list nat)%type.

(** The loop of lines 35-39. *)
Fixpoint emit_folds (years_col : list (option Z)) (fold_years : list Z) : list fold :=
  match fold_years with
  | [] => []
  | y :: rest =>
      let train_idx := index_where (series_lt years_col y) in
      let val_idx := index_where (series_eq years_col y) in
      if (0 <? length train_idx)%nat && (0 <? length val_idx)%nat
      then (train_idx, val_idx) :: emit_folds years_col rest
      else emit_folds years_col rest
  end.

Definition start_index : nat := 3.

(** [time_folds] (lines 26-40). *)
Definition time_folds (df : DataFrame) : option (list fold) :=
  match year df with
  | None => None
  | Some years_col =>
      let years := sorted Z.leb (unique (dropna years_col)) in
      if (length years <? 5)%nat then None
      else Some (emit_folds years_col (drop start_index years))
  end.

(** What [prepare_data] returns (line 76). *)
Record prepared : Type := mkPrepared {
  train_df : DataFrame;
  X_train : matrix;
  y_train : list Z;
  X_val : matrix;
  y_val : list Z;
  feature_cols : list string;
  fill_values : gmap string (option Q)
}.

(** [prepare_data] (lines 43-76), from the two loaded frames on. *)
Definition prepare_data (train val_df : DataFrame) : result prepared :=
  let fcols := select_cols (cols train) in
  let* st := impute_loop {| im_fill := ∅; im_train := cols train;
                            im_val := cols val_df |} fcols in
  let* Xt := values_float (nrows train) (im_train st) fcols in
  let* yt := labels train in
  let* Xv := values_float (nrows val_df) (im_val st) fcols in
  let* yv := labels val_df in
  Ok {| train_df := {| nrows := nrows train; year := year train;
                       home_won := home_won train; cols := im_train st |};
        X_train := Xt; y_train := yt; X_val := Xv; y_val := yv;
        feature_cols := fcols; fill_values := im_fill st |}.

(** [float(np.mean(xs))]; the mean of nothing is NaN. *)
Definition mean (xs : list Q) : option Q :=
  match xs with
  | [] => None
  | _ => Some (Qred (fold_right Qplus 0%Q xs / inject_Z (Z.of_nat (length xs))))
  end.

(** The numbers of a list of floats, when none of them is NaN. *)
Fixpoint numbers (xs : list (option Q)) : option (list Q) :=
  match xs with
  | [] => Some []
  | None :: _ => None
  | Some v :: rest =>
      match numbers rest with
      | Some vs => Some (v :: vs)
      | None => None
      end
  end.

(** [float(np.mean(xs))] on floats: NaN as soon as one of them is NaN. *)
Definition mean_floats (xs : list (option Q)) : option Q :=
  match numbers xs with
  | Some vs => mean vs
  | None => None
  end.

(** [accuracy_score(y, preds)] *)
Definition accuracy_score (y preds : list Z) : Q :=
  let hits := List.filter (fun yp => fst yp =? snd yp) (combine y preds) in
  Qred (inject_Z (Z.of_nat (length hits)) / inject_Z (Z.of_nat (length y))).

(** The search space of one [suggest_*] call. *)
Inductive distribution : Type :=
| IntRange (lo hi : Z)                   (* suggest_int(name, lo, hi) *)
| FloatRange (lo hi : Q) (log : bool).   (* suggest_float(name, lo, hi, log=...) *)

(** A finished trial as the study stores it: the suggested parameters and
    the objective value; [None] when the trial state is FAIL. *)
Record frozen_trial : Type := mkTrial {
  params : list (string * pvalue);
  value : option Q
}.

Section Tuning.
(** The third-party estimators, as in [V4Stacked]. *)
Variable fitted : Type.
Variable fit : learner -> matrix -> list Z -> result fitted.
Variable predict_proba : fitted -> matrix -> result (list Q).
Variable predict : fitted -> matrix -> result (list Z).
Variable roc_auc_score : list Z -> list Q -> result (option Q).
Variable skf_split :
  nat -> bool -> Z -> matrix -> list Z -> result (list (list nat * list nat)).

(** The study's sampler.  [optuna.create_study(direction=...)] is called
    without a sampler, so the study builds its default one with no seed:
    its initial state comes from the operating system and is an input of
    every tuning run.  A suggestion depends on that state and on the
    trials finished so far. *)
Variable sampler_state : Type.
Variable suggest :
  sampler_state -> list frozen_trial -> string -> distribution ->
  pvalue * sampler_state.

(** Lines 80-83 and 95-98. *)
Definition cv_folds (X : matrix) (y : list Z) (df : DataFrame) : result (list fold) :=
  match time_folds df with
  | Some folds => Ok folds
  | None => skf_split 5%nat true 42 X y
  end.

(** [cv_score_auc] (lines 79-91); the builder is the learner description. *)
Definition cv_score_auc (model_builder : learner) (X : matrix) (y : list Z)
    (df : DataFrame) : result (option Q) :=
  let* folds := cv_folds X y df in
  let* aucs :=
    mapM (fun tv : fold =>
            let* X_tr := fancy_index X tv.1 in
            let* y_tr := fancy_index y tv.1 in
            let* model := fit model_builder X_tr y_tr in
            let* X_va := fancy_index X tv.2 in
            let* probs := predict_proba model X_va in
            let* y_va := fancy_index y tv.2 in
            roc_auc_score y_va probs) folds in
  Ok (mean_floats aucs).

(** [cv_score_accuracy] (lines 94-106). *)
Definition cv_score_accuracy (model_builder : learner) (X : matrix) (y : list Z)
    (df : DataFrame) : result (option Q) :=
  let* folds := cv_folds X y df in
  let* accs :=
    mapM (fun tv : fold =>
            let* X_tr := fancy_index X tv.1 in
            let* y_tr := fancy_index y tv.1 in
            let* model := fit model_builder X_tr y_tr in
            let* X_va := fancy_index X tv.2 in
            let* preds := predict model X_va in
            let* y_va := fancy_index y tv.2 in
            Ok (accuracy_score y_va preds)) folds in
  Ok (mean accs).

(** The [trial.suggest_*] calls of an objective, in source order. *)
Definition xgb_space : list (string * distribution) :=
  [("n_estimators", IntRange 200 800);
   ("max_depth", IntRange 3 8);
   ("learning_rate", FloatRange (1 # 100) (2 # 10) true);
   ("subsample", FloatRange (6 # 10) 1 false);
   ("colsample_bytree", FloatRange (6 # 10) 1 false);
   ("min_child_weight", IntRange 1 8);
   ("reg_lambda", FloatRange (1 # 10) 10 true);
   ("reg_alpha", FloatRange 0 5 false)].

Definition lgbm_space : list (string * distribution) :=
  [("n_estimators", IntRange 200 800);
   ("learning_rate", FloatRange (1 # 100) (2 # 10) true);
   ("num_leaves", IntRange 16 64);
   ("min_child_samples", IntRange 20 80);
   ("subsample", FloatRange (6 # 10) 1 false);
   ("colsample_bytree", FloatRange (6 # 10) 1 false);
   ("reg_lambda", FloatRange (1 # 10) 10 true)].

Fixpoint suggest_all (space : list (string * distribution)) (st : sampler_state)
    (finished : list frozen_trial) : list (string * pvalue) * sampler_state :=
  match space with
  | [] => ([], st)
  | (name, d) :: rest =>
      let '(v, st1) := suggest st finished name d in
      let '(ps, st2) := suggest_all rest st1 finished in
      ((name, v) :: ps, st2)
  end.

(** The learner an objective builds from the suggested parameters
    (lines 113-127 and 144-156). *)
Definition xgb_builder (suggested : list (string * pvalue)) : learner :=
  {| fam := XGBClassifier;
     kwargs := suggested ++ [("eval_metric", PStr "auc"); ("random_state", PInt 42)] |}.

Definition lgbm_builder (suggested : list (string * pvalue)) : learner :=
  {| fam := LGBMClassifier;
     kwargs := suggested ++ [("random_state", PInt 42)] |}.

(** The tail of an objective (lines 129-131, 158-160). *)
Definition score (metric : string) (builder : learner) (X : matrix) (y : list Z)
    (df : DataFrame) : result (option Q) :=
  if String.eqb metric "accuracy" then cv_score_accuracy builder X y df
  else cv_score_auc builder X y df.

(** [study.optimize(objective, n_trials=n)] with the default [catch=()]:
    an exception of the objective marks the trial FAIL and is raised
    again, which ends the loop; a NaN value marks the trial FAIL and the
    loop goes on. *)
Fixpoint optimize (space : list (string * distribution))
    (objective : list (string * pvalue) -> result (option Q))
    (n : nat) (st : sampler_state) (finished : list frozen_trial)
  : result (list frozen_trial) :=
  match n with
  | O => Ok finished
  | S n' =>
      let '(ps, st') := suggest_all space st finished in
      let* v := objective ps in
      optimize space objective n' st' (finished ++ [{| params := ps; value := v |}])
  end.

(** [study.best_trial] for direction "maximize": the first finished trial
    whose value no other exceeds. *)
Fixpoint best_trial_from (best : frozen_trial) (bv : Q) (rest : list frozen_trial)
  : frozen_trial :=
  match rest with
  | [] => best
  | t :: rest' =>
      match value t with
      | Some v => if Qlt_bool bv v then best_trial_from t v rest'
                  else best_trial_from best bv rest'
      | None => best_trial_from best bv rest'
      end
  end.

Fixpoint best_trial (trials : list frozen_trial) : result frozen_trial :=
  match trials with
  | [] => Raise (ValueError "No trials are completed yet.")
  | t :: rest =>
      match value t with
      | Some v => Ok (best_trial_from t v rest)
      | None => best_trial rest
      end
  end.

(** [study.best_params] *)
Definition best_params (trials : list frozen_trial) : result (list (string * pvalue)) :=
  let* t := best_trial trials in Ok (params t).

(** [tune_xgb] (lines 109-137); [entropy] is the unseeded sampler's
    initial state. *)
Definition tune_xgb (entropy : sampler_state) (df : DataFrame) (X : matrix)
    (y : list Z) (n_trials : nat) (metric : string)
  : result (list (string * pvalue)) :=
  let objective := fun ps => score metric (xgb_builder ps) X y df in
  let* trials := optimize xgb_space objective n_trials entropy [] in
  best_params trials.

(** [tune_lgbm] (lines 140-166). *)
Definition tune_lgbm (entropy : sampler_state) (df : DataFrame) (X : matrix)
    (y : list Z) (n_trials : nat) (metric : string)
  : result (list (string * pvalue)) :=
  let objective := fun ps => score metric (lgbm_builder ps) X y df in
  let* trials := optimize lgbm_space objective n_trials entropy [] in
  best_params trials.
(** [a >= b] on floats: false as soon as one of them is NaN. *)
Definition float_ge (a b : option Q) : bool :=
  match a, b with
  | Some x, Some y => Qle_bool y x
  | _, _ => false
  end.

(** [(probs >= 0.5).astype(int)] *)
Definition threshold (probs : list Q) : list Z :=
  map (fun p => if Qle_bool (1 # 2) p then 1 else 0) probs.

(** [evaluate_on_holdout] (lines 169-174): accuracy and AUC of a fitted
    model on the holdout. *)
Definition evaluate_on_holdout (model : fitted) (X_v : matrix) (y_v : list Z)
  : result (Q * option Q) :=
  let* probs := predict_proba model X_v in
  let acc := accuracy_score y_v (threshold probs) in
  let* auc := roc_auc_score y_v probs in
  Ok (acc, auc).

(** [{**best_params, "eval_metric": "auc", "random_state": 42}] and
    [{**best_params, "random_state": 42}] (lines 187-188, 217-218). *)
Definition final_xgb (best : list (string * pvalue)) : learner :=
  {| fam := XGBClassifier;
     kwargs := dict_set "random_state" (PInt 42) (dict_set "eval_metric" (PStr "auc") best) |}.

Definition final_lgbm (best : list (string * pvalue)) : learner :=
  {| fam := LGBMClassifier;
     kwargs := dict_set "random_state" (PInt 42) best |}.

(** One entry of [artifact["accuracy_tuned"]]. *)
Record tuned_entry : Type := mkTunedEntry {
  te_params : list (string * pvalue);
  te_metrics : Q * option Q            (* accuracy, auc *)
}.

(** The pickled artifact of [main] (lines 198-235), without its time stamp. *)
Record tuned_artifact : Type := mkTunedArtifact {
  ta_model_type : string;
  ta_model : fitted;
  ta_metrics : Q * option Q;           (* accuracy, auc *)
  ta_feature_cols : list string;
  ta_fill_values : gmap string (option Q);
  ta_xgb_params : list (string * pvalue);
  ta_lgbm_params : list (string * pvalue);
  ta_accuracy_tuned_xgb : tuned_entry;
  ta_accuracy_tuned_lgbm : tuned_entry
}.

(** [main] (lines 177-242), from the two loaded frames on.  Each of the four
    studies has a sampler of its own, hence four initial sampler states. *)
Definition main (e1 e2 e3 e4 : sampler_state) (train val_df : DataFrame)
  : result tuned_artifact :=
  let* d := prepare_data train val_df in
  let* best_xgb_params := tune_xgb e1 (train_df d) (X_train d) (y_train d) 25 "auc" in
  let* best_lgbm_params := tune_lgbm e2 (train_df d) (X_train d) (y_train d) 25 "auc" in
  let* xgb_model := fit (final_xgb best_xgb_params) (X_train d) (y_train d) in
  let* lgbm_model := fit (final_lgbm best_lgbm_params) (X_train d) (y_train d) in
  let* xgb_m := evaluate_on_holdout xgb_model (X_val d) (y_val d) in
  let* lgbm_m := evaluate_on_holdout lgbm_model (X_val d) (y_val d) in
  let best_model :=
    if float_ge xgb_m.2 lgbm_m.2 then ("xgb", xgb_model, xgb_m)
    else ("lgbm", lgbm_model, lgbm_m) in
  let* best_xgb_params_acc :=
    tune_xgb e3 (train_df d) (X_train d) (y_train d) 20 "accuracy" in
  let* best_lgbm_params_acc :=
    tune_lgbm e4 (train_df d) (X_train d) (y_train d) 20 "accuracy" in
  let* xgb_model_acc := fit (final_xgb best_xgb_params_acc) (X_train d) (y_train d) in
  let* lgbm_model_acc := fit (final_lgbm best_lgbm_params_acc) (X_train d) (y_train d) in
  let* xgb_m_acc := evaluate_on_holdout xgb_model_acc (X_val d) (y_val d) in
  let* lgbm_m_acc := evaluate_on_holdout lgbm_model_acc (X_val d) (y_val d) in
  Ok {| ta_model_type := best_model.1.1;
        ta_model := best_model.1.2;
        ta_metrics := best_model.2;
        ta_feature_cols := feature_cols d;
        ta_fill_values := fill_values d;
        ta_xgb_params := best_xgb_params;
        ta_lgbm_params := best_lgbm_params;
        ta_accuracy_tuned_xgb := {| te_params := best_xgb_params_acc;
                                    te_metrics := xgb_m_acc |};
        ta_accuracy_tuned_lgbm := {| te_params := best_lgbm_params_acc;
                                     te_metrics := lgbm_m_acc |} |}.
End Tuning.

End V4Tuned.

(* ===================================================================== *)
(** ** src/predict_2026_games.py                                          *)
(* ===================================================================== *)

Module Predict2026.

(** A cell of a game row or of the feature dict; [VMissing] is a missing
    value (NaN, NA, None), as a NULL of the schedule query gives. *)
Inductive value : Type :=
| VNum (q : Q)
| VStr (s : string)
| VMissing.

(** The frame of scheduled games: its column labels and, row by row, one
    cell per column.  Every row has the columns of the frame; a value that
    is absent is a [VMissing] cell, not an absent key. *)
Record games_frame : Type := mkGames {
  gf_columns : list string;
  gf_rows : list (list value)
}.

(** [games_df.iterrows()]: each row as a Series indexed by the frame's
    columns. *)
Definition iterrows (games_df : games_frame) : list (list (string * value)) :=
  map (fun cells => combine (gf_columns games_df) cells) (gf_rows games_df).

Section Predictor.
Variable model : Type.
Variable scaler : Type.
(** [scaler.transform], [model.predict]: third-party. *)
Variable transform : scaler -> list value -> result row.
Variable predict : model -> row -> result Z.
Variable predict_proba : model -> row -> result Q.

(** The unpickled dict [model_data]: a key may be absent. *)
Record model_data : Type := mkModelData {
  md_model : option model;
  md_scaler : option scaler;
  md_features : option (list string);
  md_model_name : option string
}.

Record GamePredictor : Type := mkPredictor {
  gp_model : model;
  gp_scaler : scaler;
  features : list string;
  model_name : string
}.

(** [__init__] (lines 41-61), from the unpickled dict on; the BigQuery
    client it also creates plays no part in what follows. *)
Definition init (md : model_data) : result GamePredictor :=
  match md_model md with
  | None => Raise (KeyError "model")
  | Some m =>
      match md_scaler md with
      | None => Raise (KeyError "scaler")
      | Some s =>
          match md_features md with
          | None => Raise (KeyError "features")
          | Some fs =>
              Ok {| gp_model := m; gp_scaler := s; features := fs;
                    model_name := default "Unknown" (md_model_name md) |}
          end
      end
  end.

(** [game_row[key]] on a pandas Series. *)
Definition row_get (game_row : list (string * value)) (key : string) : result value :=
  match dict_get key game_row with
  | Some v => Ok v
  | None => Raise (KeyError key)
  end.

(** [compute_team_recent_form] (lines 92-96): the constant baseline. *)
Definition compute_team_recent_form (team_id reference_date : value) : value :=
  VNum (54 # 100).

(** The body of the loop of [prepare_features_for_game] (lines 102-119). *)
Definition feature_value (game_row : list (string * value)) (feature : string)
  : result value :=
  if String.eqb feature "home_win_pct_10d" then
    let* team := row_get game_row "home_team_id" in
    let* date := row_get game_row "game_date" in
    Ok (compute_team_recent_form team date)
  else if String.eqb feature "away_win_pct_10d" then
    let* team := row_get game_row "away_team_id" in
    let* date := row_get game_row "game_date" in
    Ok (compute_team_recent_form team date)
  else if String.eqb feature "month" then row_get game_row "month"
  else if String.eqb feature "day_of_week" then row_get game_row "day_of_week"
  else if String.eqb feature "is_home" then Ok (VNum 1)
  else Ok (VNum 0).

Fixpoint features_loop (game_row : list (string * value)) (fs : list string)
    (features_dict : list (string * value)) : result (list (string * value)) :=
  match fs with
  | [] => Ok features_dict
  | f :: rest =>
      let* v := feature_value game_row f in
      features_loop game_row rest (dict_set f v features_dict)
  end.

(** [prepare_features_for_game] (lines 98-121). *)
Definition prepare_features_for_game (self : GamePredictor)
    (game_row : list (string * value)) : result (list (string * value)) :=
  features_loop game_row (features self) [].

(** Line 129: [[features_dict[f] for f in self.features]]. *)
Definition input_vector (self : GamePredictor) (game_row : list (string * value))
  : result (list value) :=
  let* features_dict := prepare_features_for_game self game_row in
  mapM (fun f => match dict_get f features_dict with
                 | Some v => Ok v
                 | None => Raise (KeyError f)
                 end) (features self).

(** [predict_game] (lines 123-138). *)
Definition predict_game (self : GamePredictor) (game_row : list (string * value))
  : result (Z * Q) :=
  let* X := input_vector self game_row in
  let* X_scaled := transform (gp_scaler self) X in
  let* prediction := predict (gp_model self) X_scaled in
  let* probability := predict_proba (gp_model self) X_scaled in
  Ok (prediction, probability).
(** One row of the frame [predict_all_games] returns (lines 149-162),
    without its time stamp. *)
Record prediction : Type := mkPrediction {
  game_pk : value;
  game_date : value;
  home_team_id : value;
  away_team_id : value;
  home_team_name : value;
  away_team_name : value;
  home_predicted : Z;
  home_win_probability : Q;
  away_win_probability : Q;
  prediction_confidence : Q;
  pr_model_name : string
}.

(** Python's [max(a, b)]: the second argument only when it is greater. *)
Definition py_max (a b : Q) : Q := if Qlt_bool a b then b else a.

(** The body of the loop of [predict_all_games] (lines 146-162). *)
Definition predict_row (self : GamePredictor) (game_row : list (string * value))
  : result prediction :=
  let* pp := predict_game self game_row in
  let* pk := row_get game_row "game_pk" in
  let* date := row_get game_row "game_date" in
  let* home := row_get game_row "home_team_id" in
  let* away := row_get game_row "away_team_id" in
  let* home_name := row_get game_row "home_team_name" in
  let* away_name := row_get game_row "away_team_name" in
  Ok {| game_pk := pk; game_date := date;
        home_team_id := home; away_team_id := away;
        home_team_name := home_name; away_team_name := away_name;
        home_predicted := pp.1;
        home_win_probability := pp.2;
        away_win_probability := (1 - pp.2)%Q;
        prediction_confidence := py_max pp.2 (1 - pp.2)%Q;
        pr_model_name := model_name self |}.

(** [predict_all_games] (lines 140-164). *)
Definition predict_all_games (self : GamePredictor) (games_df : games_frame)
  : result (list prediction) :=
  mapM (predict_row self) (iterrows games_df).
End Predictor.

End Predict2026.

(* ===================================================================== *)
(** ** Vocabulary of the specification                                    *)
(* ===================================================================== *)

(** The temporal key of row [i]: [None] when the row has no year (NaN), the
    frame has no 'year' column, or there is no such row. *)
Definition temporal_key (df : DataFrame) (i : nat) : option Z :=
  match year df with
  | Some years_col => default None (years_col !! i)
  | None => None
  end.

(** The distinct bucket values of the history frame, ascending. *)
Definition distinct_years (df : DataFrame) : list Z :=
  match year df with
  | Some years_col => sorted Z.leb (unique (dropna years_col))
  | None => []
  end.

(** In how many of the folds row [i] is a validation row. *)
Definition validations (folds : list V4Stacked.fold) (i : nat) : nat :=
  length (List.filter (fun f : V4Stacked.fold => existsb (Nat.eqb i) f.1.2) folds).

(** A fold of train_v4_models.py without its year is a fold of
    train_v4_tuned.py. *)
Definition untag (f : V4Stacked.fold) : V4Tuned.fold := (f.1.1, f.1.2).

(** The cells the loops of [get_oof_predictions] assign, in program order,
    for given folds and model names. *)
Definition cells_of_folds (names : list string) (folds : list (list nat * list nat * option Z))
  : list (string * nat) :=
  flat_map (fun f => flat_map (fun n => map (pair n) f.1.2) names) folds.

(** A time fold as the out-of-fold loop receives it. *)
Definition tag (f : V4Stacked.fold) : list nat * list nat * option Z :=
  (f.1.1, f.1.2, Some f.2).

Section OofVocabulary.
Context {fitted : Type}.

(** What a stretch of the loops leaves alone: the keys of both dicts, the
    description of every model object, the length of every out-of-fold
    array, and every cell outside [touched]. *)
Definition oof_frame (touched : nat -> Prop) (st st' : V4Stacked.oof_state fitted) : Prop :=
  map fst (V4Stacked.oof_preds fitted st') = map fst (V4Stacked.oof_preds fitted st) /\
  map fst (V4Stacked.models fitted st') = map fst (V4Stacked.models fitted st) /\
  (forall n m', dict_get n (V4Stacked.models fitted st') = Some m' ->
     exists m, dict_get n (V4Stacked.models fitted st) = Some m /\
               V4Stacked.spec fitted m' = V4Stacked.spec fitted m) /\
  forall n arr', dict_get n (V4Stacked.oof_preds fitted st') = Some arr' ->
    exists arr, dict_get n (V4Stacked.oof_preds fitted st) = Some arr /\
                length arr' = length arr /\
                forall i, ~ touched i -> arr' !! i = arr !! i.
End OofVocabulary.

(** The value [prepare_data] returns for what [select_features] returns. *)
Definition as_prepared (sel : V4Stacked.selected) : V4Tuned.prepared :=
  {| V4Tuned.train_df := V4Stacked.sel_train_df sel;
     V4Tuned.X_train := V4Stacked.X_train sel;
     V4Tuned.y_train := V4Stacked.y_train sel;
     V4Tuned.X_val := V4Stacked.X_val sel;
     V4Tuned.y_val := V4Stacked.y_val sel;
     V4Tuned.feature_cols := V4Stacked.feature_cols (V4Stacked.sel_self sel);
     V4Tuned.fill_values := V4Stacked.fill_values (V4Stacked.sel_self sel) |}.

(** [~np.isnan(row).any()] *)
Definition filled (r : row) : bool := forallb (fun c => bool_decide (is_Some c)) r.

(** Row [i] of the out-of-fold matrix, with its columns in [order]. *)
Definition oof_row (oof : list (string * list (option Q))) (order : list string)
    (i : nat) (r : row) : Prop :=
  Forall2 (fun name c => exists arr, dict_get name oof = Some arr /\ arr !! i = Some c)
          order r.

Section TunerVocabulary.
Context {sampler_state : Type}.
Variable suggest :
  sampler_state -> list V4Tuned.frozen_trial -> string -> V4Tuned.distribution ->
  pvalue * sampler_state.
Variable space : list (string * V4Tuned.distribution).
Variable objective : list (string * pvalue) -> result (option Q).

(** The trials of a study in the order they are run: each proposed
    configuration with what its objective returned or raised.  The list
    ends with the first trial whose objective raises. *)
Fixpoint trial_log (n : nat) (st : sampler_state) (finished : list V4Tuned.frozen_trial)
  : list (list (string * pvalue) * result (option Q)) :=
  match n with
  | O => []
  | S n' =>
      let '(ps, st') := V4Tuned.suggest_all sampler_state suggest space st finished in
      match objective ps with
      | Ok v => (ps, Ok v) ::
                trial_log n' st' (finished ++ [{| V4Tuned.params := ps; V4Tuned.value := v |}])
      | Raise e => [(ps, Raise e)]
      end
  end.

(** What [study.optimize] leaves in the study, read off the log. *)
Fixpoint study_of_log (finished : list V4Tuned.frozen_trial)
    (log : list (list (string * pvalue) * result (option Q)))
  : result (list V4Tuned.frozen_trial) :=
  match log with
  | [] => Ok finished
  | (ps, Ok v) :: rest =>
      study_of_log (finished ++ [{| V4Tuned.params := ps; V4Tuned.value := v |}]) rest
  | (ps, Raise e) :: _ => Raise e
  end.
End TunerVocabulary.

Section TuningVocabulary.
Context {fitted sampler_state : Type}.
Variable fit : learner -> matrix -> list Z -> result fitted.
Variable predict_proba : fitted -> matrix -> result (list Q).
Variable predict : fitted -> matrix -> result (list Z).
Variable roc_auc_score : list Z -> list Q -> result (option Q).
Variable skf_split :
  nat -> bool -> Z -> matrix -> list Z -> result (list (list nat * list nat)).
Variable suggest :
  sampler_state -> list V4Tuned.frozen_trial -> string -> V4Tuned.distribution ->
  pvalue * sampler_state.

(** The trials of one [tune_xgb] / [tune_lgbm] run, for the sampler state
    [entropy] the run happens to start from. *)
Definition xgb_log (entropy : sampler_state) (df : DataFrame) (X : matrix) (y : list Z)
    (n_trials : nat) (metric : string) :=
  trial_log suggest V4Tuned.xgb_space
    (fun ps => V4Tuned.score fitted fit predict_proba predict roc_auc_score skf_split
                 metric (V4Tuned.xgb_builder ps) X y df)
    n_trials entropy [].

Definition lgbm_log (entropy : sampler_state) (df : DataFrame) (X : matrix) (y : list Z)
    (n_trials : nat) (metric : string) :=
  trial_log suggest V4Tuned.lgbm_space
    (fun ps => V4Tuned.score fitted fit predict_proba predict roc_auc_score skf_split
                 metric (V4Tuned.lgbm_builder ps) X y df)
    n_trials entropy [].
End TuningVocabulary.

(** The feature names [prepare_features_for_game] knows. *)
Definition known_features : list string :=
  ["home_win_pct_10d"; "away_win_pct_10d"; "month"; "day_of_week"; "is_home"].

(* ===================================================================== *)
(** ** Concrete data and stand-ins for the third-party code               *)
(* ===================================================================== *)

(** A five-season history with one row of unknown year, used below. *)
Definition history5 : DataFrame :=
  {| nrows := 7;
     year := Some [Some 2015; Some 2016; Some 2017; Some 2018; None; Some 2019; Some 2018];
     home_won := Some [1; 0; 1; 0; 1; 1; 0];
     cols := [("game_pk", NumCol [Some 1; Some 2; Some 3; Some 4; Some 5; Some 6; Some 7]%Q);
              ("home_team", ObjCol ["ATL"; "NYM"; "ATL"; "BOS"; "ATL"; "NYM"; "BOS"]);
              ("home_elo", NumCol [Some 1500; None; Some 1520; Some 1490; None; Some 1510;
                                   Some 1530]%Q);
              ("away_elo", NumCol [Some 1480; Some 1505; None; Some 1500; Some 1470;
                                   Some 1495; Some 1515]%Q)] |}.

Definition history5_folds : list V4Stacked.fold :=
  [([0; 1; 2]%nat, [3; 6]%nat, 2018); ([0; 1; 2; 3; 6]%nat, [5]%nat, 2019)].

(** Stand-ins for the third-party estimators, used to run the model on
    concrete data: a fit remembers how many rows it saw, and predicts
    rows/(rows+1) for every row. *)
Definition toy_fit (l : learner) (X : matrix) (y : list Z) : result nat :=
  Ok (length X).
Definition toy_predict_proba (f : nat) (X : matrix) : result (list Q) :=
  Ok (map (fun _ => (Z.of_nat f # Pos.of_nat (S f))%Q) X).
Definition toy_roc_auc_score (y : list Z) (probs : list Q) : result (option Q) :=
  Ok (Some (1 # 2)%Q).
Definition toy_skf_split (n_splits : nat) (shuffle : bool) (random_state : Z)
    (X : matrix) (y : list Z) : result (list (list nat * list nat)) :=
  Ok [].

Definition history5_X : matrix := replicate 7 [Some 1%Q].
Definition history5_y : list Z := [1; 0; 1; 0; 1; 1; 0].

Definition history5_oof : V4Stacked.oof_state nat :=
  Eval vm_compute in
    match V4Stacked.get_oof_predictions nat toy_fit toy_predict_proba toy_roc_auc_score
            toy_skf_split history5_X history5_y history5 (V4Stacked.build_base_models nat)
    with
    | Ok st => st
    | Raise _ => {| V4Stacked.oof_preds := []; V4Stacked.models := [];
                    V4Stacked.writes := [] |}
    end.

(** The 2025 holdout frame that goes with [history5]. *)
Definition future1 : DataFrame :=
  {| nrows := 2;
     year := Some [Some 2020; Some 2020];
     home_won := Some [1; 0];
     cols := [("game_pk", NumCol [Some 8; Some 9]%Q);
              ("home_team", ObjCol ["ATL"; "BOS"]);
              ("home_elo", NumCol [None; Some 1505]%Q);
              ("away_elo", NumCol [Some 1500; None]%Q)] |}.

(** Two frames whose only columns are identifiers, text and the label. *)
Definition bare_history : DataFrame :=
  {| nrows := 3;
     year := Some [Some 2023; Some 2024; Some 2024];
     home_won := Some [1; 0; 1];
     cols := [("game_pk", NumCol [Some 11; Some 12; Some 13]%Q);
              ("home_team", ObjCol ["ATL"; "NYM"; "BOS"]);
              ("venue", ObjCol ["Truist Park"; "Citi Field"; "Fenway Park"])] |}.

Definition bare_future : DataFrame :=
  {| nrows := 1;
     year := Some [Some 2025];
     home_won := Some [1];
     cols := [("game_pk", NumCol [Some 14]%Q);
              ("home_team", ObjCol ["ATL"]);
              ("venue", ObjCol ["Truist Park"])] |}.

(** A stand-in sampler: a suggestion depends on the number of finished
    trials and on the parity of the sampler's state.  The stand-in learner
    of the tuner fails for one value of [n_estimators]. *)
Definition toy_suggest (st : Z) (finished : list V4Tuned.frozen_trial) (name : string)
    (d : V4Tuned.distribution) : pvalue * Z :=
  let k := Z.of_nat (length finished) + st mod 2 in
  match d with
  | V4Tuned.IntRange lo hi => (PInt (Z.min hi (lo + k)), st + 2)
  | V4Tuned.FloatRange lo hi _ => (PFloat lo, st + 2)
  end.

Definition toy_tuner_fit (l : learner) (X : matrix) (y : list Z) : result nat :=
  match dict_get "n_estimators" (kwargs l) with
  | Some (PInt 202) => Raise (LearnerError 202)
  | _ => Ok (length X)
  end.

Definition toy_predict (f : nat) (X : matrix) : result (list Z) :=
  Ok (map (fun _ => 1) X).

Definition toy_tune_xgb (entropy : Z) (n_trials : nat) : result (list (string * pvalue)) :=
  V4Tuned.tune_xgb nat toy_tuner_fit toy_predict_proba toy_predict toy_roc_auc_score
    toy_skf_split Z toy_suggest entropy history5 history5_X history5_y n_trials "auc".


Definition toy_xgb_log (entropy : Z) (n_trials : nat) :=
  xgb_log toy_tuner_fit toy_predict_proba toy_predict toy_roc_auc_score toy_skf_split
    toy_suggest entropy history5 history5_X history5_y n_trials "auc".


(** The third configuration the stand-in sampler proposes from state 0. *)
Definition third_xgb_config : list (string * pvalue) :=
  [("n_estimators", PInt 202); ("max_depth", PInt 5); ("learning_rate", PFloat (1 # 100));
   ("subsample", PFloat (6 # 10)); ("colsample_bytree", PFloat (6 # 10));
   ("min_child_weight", PInt 3); ("reg_lambda", PFloat (1 # 10)); ("reg_alpha", PFloat 0)].

(** A pickled artifact whose recorded features are the five the training
    script of that model writes, followed by one the prediction script does
    not know; and a game row of the schedule query, with the day of week
    before the month, and no column for the sixth feature. *)
Definition toy_artifact : Predict2026.model_data unit unit :=
  {| Predict2026.md_model := Some tt;
     Predict2026.md_scaler := Some tt;
     Predict2026.md_features :=
       Some ["home_win_pct_10d"; "away_win_pct_10d"; "month"; "day_of_week"; "is_home";
             "home_rolling_runs"];
     Predict2026.md_model_name := Some "LogisticRegression" |}.

Definition toy_predictor : Predict2026.GamePredictor unit unit :=
  {| Predict2026.gp_model := tt;
     Predict2026.gp_scaler := tt;
     Predict2026.features :=
       ["home_win_pct_10d"; "away_win_pct_10d"; "month"; "day_of_week"; "is_home";
        "home_rolling_runs"];
     Predict2026.model_name := "LogisticRegression" |}.

Definition toy_game_row : list (string * Predict2026.value) :=
  [("game_pk", Predict2026.VNum 746001);
   ("game_date", Predict2026.VStr "2026-04-01");
   ("home_team_id", Predict2026.VNum 144);
   ("away_team_id", Predict2026.VNum 121);
   ("home_team_name", Predict2026.VStr "Atlanta Braves");
   ("away_team_name", Predict2026.VStr "New York Mets");
   ("venue_name", Predict2026.VStr "Truist Park");
   ("day_of_week", Predict2026.VNum 4);
   ("month", Predict2026.VNum 4)].

Definition toy_game_row_reordered : list (string * Predict2026.value) :=
  [("home_team_id", Predict2026.VNum 144);
   ("away_team_id", Predict2026.VNum 121);
   ("home_team_name", Predict2026.VStr "Atlanta Braves");
   ("away_team_name", Predict2026.VStr "New York Mets");
   ("venue_name", Predict2026.VStr "Truist Park");
   ("day_of_week", Predict2026.VNum 4);
   ("month", Predict2026.VNum 4);
   ("game_pk", Predict2026.VNum 746001);
   ("game_date", Predict2026.VStr "2026-04-01")].

Definition toy_transform (s : unit) (X : list Predict2026.value) : result row :=
  Ok (map (fun v => match v with
                    | Predict2026.VNum q => Some q
                    | Predict2026.VStr _ => None
                    | Predict2026.VMissing => None
                    end) X).
Definition toy_model_predict (m : unit) (x : row) : result Z := Ok 1.
Definition toy_model_predict_proba (m : unit) (x : row) : result Q := Ok (54 # 100)%Q.

(* ===================================================================== *)
(** ** Vocabulary of the further properties                               *)
(* ===================================================================== *)

(** The validation rows of two folds do not meet. *)
Definition disjoint_validation (f1 f2 : list nat * list nat * option Z) : Prop :=
  forall i, In i f1.1.2 -> ~ In i f2.1.2.

Section OofProvenance.
Context {fitted : Type}.
Variable fit : learner -> matrix -> list Z -> result fitted.
Variable predict_proba : fitted -> matrix -> result (list Q).

(** [probs] are the probabilities that the learner [s], fit on the training
    rows of fold [f] only, gives to the validation rows of [f]. *)
Definition fold_predictions (X : matrix) (y : list Z) (s : learner)
    (f : list nat * list nat * option Z) (probs : list Q) : Prop :=
  exists X_tr y_tr X_va m,
    fancy_index X f.1.1 = Ok X_tr /\ fancy_index y f.1.1 = Ok y_tr /\
    fancy_index X f.1.2 = Ok X_va /\
    fit s X_tr y_tr = Ok m /\ predict_proba m X_va = Ok probs.
End OofProvenance.

(** The array [arr] holds, at the positions [idx], the values [probs] in
    the same order. *)
Definition cells_hold (arr : list (option Q)) (idx : list nat) (probs : list Q) : Prop :=
  length probs = length idx /\
  forall k i, idx !! k = Some i -> exists p, probs !! k = Some p /\ arr !! i = Some (Some p).

(** The positions, among the [n] rows of the history, of the rows that are
    validation rows of some fold, ascending. *)
Definition validated_rows (folds : list V4Stacked.fold) (n : nat) : list nat :=
  List.filter (fun i => negb (validations folds i =? 0)%nat) (seq 0 n).

(** The labels of the rows that are validation rows of some fold, in row
    order. *)
Definition validated_labels (folds : list V4Stacked.fold) (y : list Z) : list Z :=
  map snd (List.filter (fun iy : nat * Z => negb (validations folds iy.1 =? 0)%nat)
                       (combine (seq 0 (length y)) y)).

Section FoldScores.
Context {fitted : Type}.
Variable fit : learner -> matrix -> list Z -> result fitted.
Variable predict_proba : fitted -> matrix -> result (list Q).
Variable roc_auc_score : list Z -> list Q -> result (option Q).

(** [a] is the AUC that the learner [builder], fit on the training rows of
    the fold [f], reaches on the validation rows of [f]. *)
Definition fold_auc (builder : learner) (X : matrix) (y : list Z) (f : V4Tuned.fold)
    (a : option Q) : Prop :=
  exists X_tr y_tr model X_va probs y_va,
    fancy_index X f.1 = Ok X_tr /\ fancy_index y f.1 = Ok y_tr /\
    fit builder X_tr y_tr = Ok model /\
    fancy_index X f.2 = Ok X_va /\ predict_proba model X_va = Ok probs /\
    fancy_index y f.2 = Ok y_va /\
    roc_auc_score y_va probs = Ok a.
End FoldScores.

(** A stand-in for the AUC of scikit-learn 1.6 and later: NaN when the
    labels are of one class. *)
Definition nan_roc_auc_score (y : list Z) (probs : list Q) : result (option Q) :=
  if forallb (Z.eqb 1) y || forallb (Z.eqb 0) y then Ok None else Ok (Some (1 # 2)%Q).

(** A history whose two validation folds (2018, 2019) each hold both
    classes, and a holdout frame of one class. *)
Definition history7 : DataFrame :=
  {| nrows := 7;
     year := Some [Some 2015; Some 2016; Some 2017; Some 2018; Some 2018; Some 2019;
                   Some 2019];
     home_won := Some [1; 0; 1; 0; 1; 1; 0];
     cols := cols history5 |}.

Definition future_one_class : DataFrame :=
  {| nrows := 2;
     year := Some [Some 2020; Some 2020];
     home_won := Some [1; 1];
     cols := cols future1 |}.

(** The columns of the schedule query (lines 66-80), two scheduled games
    (the venue of the second is not known), and the same frame without the
    column 'month'. *)
Definition schedule_columns : list string :=
  ["game_pk"; "game_date"; "home_team_id"; "away_team_id"; "home_team_name";
   "away_team_name"; "venue_name"; "month"; "day_of_week"].

Definition toy_games_frame : Predict2026.games_frame :=
  {| Predict2026.gf_columns := schedule_columns;
     Predict2026.gf_rows :=
       [[Predict2026.VNum 746001; Predict2026.VStr "2026-04-01"; Predict2026.VNum 144;
         Predict2026.VNum 121; Predict2026.VStr "Atlanta Braves";
         Predict2026.VStr "New York Mets"; Predict2026.VStr "Truist Park";
         Predict2026.VNum 4; Predict2026.VNum 4];
        [Predict2026.VNum 746002; Predict2026.VStr "2026-04-01"; Predict2026.VNum 111;
         Predict2026.VNum 147; Predict2026.VStr "Boston Red Sox";
         Predict2026.VStr "New York Yankees"; Predict2026.VMissing;
         Predict2026.VNum 4; Predict2026.VNum 4]] |}.

Definition toy_games_frame_no_month : Predict2026.games_frame :=
  {| Predict2026.gf_columns :=
       ["game_pk"; "game_date"; "home_team_id"; "away_team_id"; "home_team_name";
        "away_team_name"; "venue_name"; "day_of_week"];
     Predict2026.gf_rows :=
       [[Predict2026.VNum 746001; Predict2026.VStr "2026-04-01"; Predict2026.VNum 144;
         Predict2026.VNum 121; Predict2026.VStr "Atlanta Braves";
         Predict2026.VStr "New York Mets"; Predict2026.VStr "Truist Park";
         Predict2026.VNum 4];
        [Predict2026.VNum 746002; Predict2026.VStr "2026-04-01"; Predict2026.VNum 111;
         Predict2026.VNum 147; Predict2026.VStr "Boston Red Sox";
         Predict2026.VStr "New York Yankees"; Predict2026.VMissing;
         Predict2026.VNum 4]] |}.

(** A stand-in classifier without class predictions: [predict] raises,
    [predict_proba] works. *)
Definition toy_predict_unavailable (f : nat) (X : matrix) : result (list Z) :=
  Raise (LearnerError 1).

(** The columns of a game row that [prepare_features_for_game] may read. *)
Definition row_keys_read : list string :=
  ["home_team_id"; "away_team_id"; "game_date"; "month"; "day_of_week"].

(** A second game row, without a month. *)
Definition toy_game_row_no_month : list (string * Predict2026.value) :=
  [("game_pk", Predict2026.VNum 746002);
   ("game_date", Predict2026.VStr "2026-04-02");
   ("home_team_id", Predict2026.VNum 121);
   ("away_team_id", Predict2026.VNum 144);
   ("home_team_name", Predict2026.VStr "New York Mets");
   ("away_team_name", Predict2026.VStr "Atlanta Braves");
   ("day_of_week", Predict2026.VNum 5)].

(** The history and holdout matrices and fill table of [history5] and
    [future1], as [prepare_data] returns them. *)
Definition history5_prepared : V4Tuned.prepared :=
  Eval vm_compute in
    match V4Tuned.prepare_data history5 future1 with
    | Ok d => d
    | Raise _ => {| V4Tuned.train_df := history5; V4Tuned.X_train := [];
                    V4Tuned.y_train := []; V4Tuned.X_val := []; V4Tuned.y_val := [];
                    V4Tuned.feature_cols := []; V4Tuned.fill_values := ∅ |}
    end.

(** A history whose column 'park_factor' was never observed, and the
    holdout frame that goes with it. *)
Definition unobserved_history : DataFrame :=
  {| nrows := 2;
     year := Some [Some 2023; Some 2024];
     home_won := Some [1; 0];
     cols := [("game_pk", NumCol [Some 21; Some 22]%Q);
              ("home_elo", NumCol [Some 1500; None]%Q);
              ("park_factor", NumCol [None; None])] |}.

Definition unobserved_future : DataFrame :=
  {| nrows := 1;
     year := Some [Some 2025];
     home_won := Some [1];
     cols := [("game_pk", NumCol [Some 23]%Q);
              ("home_elo", NumCol [None]);
              ("park_factor", NumCol [None])] |}.

(** A holdout frame for [history5] without the column 'away_elo', and one
    whose first row has no year. *)
Definition future_without_away_elo : DataFrame :=
  {| nrows := 1;
     year := Some [Some 2020];
     home_won := Some [1];
     cols := [("game_pk", NumCol [Some 8]%Q);
              ("home_team", ObjCol ["ATL"]);
              ("home_elo", NumCol [Some 1505]%Q)] |}.


(** The return game of [toy_game_row]: the teams swapped, a week later, so
    in the same month and on the same day of the week. *)
Definition toy_game_row_swapped : list (string * Predict2026.value) :=
  [("game_pk", Predict2026.VNum 746009);
   ("game_date", Predict2026.VStr "2026-04-08");
   ("home_team_id", Predict2026.VNum 121);
   ("away_team_id", Predict2026.VNum 144);
   ("home_team_name", Predict2026.VStr "New York Mets");
   ("away_team_name", Predict2026.VStr "Atlanta Braves");
   ("venue_name", Predict2026.VStr "Citi Field");
   ("day_of_week", Predict2026.VNum 4);
   ("month", Predict2026.VNum 4)].

(* ===================================================================== *)
(** ** Lists: lookups, masks, sorting, unique                             *)
(* ===================================================================== *)

Lemma lookup_map {A B : Type} (f : A -> B) (l : list A) (i : nat) :
  map f l !! i = f <$> (l !! i).
Proof.
  revert i; induction l as [|a l IH]; intros [|i]; simpl; auto.
Qed.

Lemma index_where_from_In (k : nat) (mask : list bool) (i : nat) :
  In i (index_where_from k mask) <-> (k <= i)%nat /\ mask !! (i - k)%nat = Some true.
Proof.
  revert k; induction mask as [|b mask IH]; intros k; simpl.
  - split; [tauto | intros [_ H]; discriminate].
  - assert (Hstep : In i (index_where_from (S k) mask) <->
                    (k < i)%nat /\ (b :: mask) !! (i - k)%nat = Some true).
    { rewrite IH. split.
      - intros [Hle Hm]. split; [lia|].
        replace (i - k)%nat with (S (i - S k)) by lia. exact Hm.
      - intros [Hlt Hm]. split; [lia|].
        replace (i - k)%nat with (S (i - S k)) in Hm by lia. exact Hm. }
    destruct b; simpl; rewrite Hstep.
    + split.
      * intros [->|[Hlt Hm]]; [|split; [lia | exact Hm]].
        split; [lia|]. now rewrite Nat.sub_diag.
      * intros [Hle Hm].
        destruct (decide (k = i)) as [->|Hne]; [now left | right].
        split; [lia | exact Hm].
    + split.
      * intros [Hlt Hm]. split; [lia | exact Hm].
      * intros [Hle Hm]. split; [|exact Hm].
        destruct (decide (k = i)) as [->|Hne]; [|lia].
        rewrite Nat.sub_diag in Hm. discriminate.
Qed.

Lemma index_where_In (mask : list bool) (i : nat) :
  In i (index_where mask) <-> mask !! i = Some true.
Proof.
  unfold index_where. rewrite index_where_from_In, Nat.sub_0_r.
  split; [tauto | intros H; split; [lia | exact H]].
Qed.

Lemma series_lt_In (s : list (option Z)) (y : Z) (i : nat) :
  In i (index_where (series_lt s y)) <-> exists v, s !! i = Some (Some v) /\ v < y.
Proof.
  rewrite index_where_In. unfold series_lt. rewrite lookup_map.
  destruct (s !! i) as [[v|]|]; simpl.
  - split.
    + intros H. exists v. split; [reflexivity|]. apply Z.ltb_lt. congruence.
    + intros (w & Hw & Hlt). f_equal. apply Z.ltb_lt. congruence.
  - split; [discriminate | intros (w & Hw & _); discriminate].
  - split; [discriminate | intros (w & Hw & _); discriminate].
Qed.

Lemma series_eq_In (s : list (option Z)) (y : Z) (i : nat) :
  In i (index_where (series_eq s y)) <-> s !! i = Some (Some y).
Proof.
  rewrite index_where_In. unfold series_eq. rewrite lookup_map.
  destruct (s !! i) as [[v|]|]; simpl.
  - split.
    + intros H. do 2 f_equal. apply Z.eqb_eq. congruence.
    + intros H. f_equal. apply Z.eqb_eq. congruence.
  - split; discriminate.
  - split; discriminate.
Qed.

Lemma dropna_In {A : Type} (s : list (option A)) (v : A) :
  In v (dropna s) <-> exists i, s !! i = Some (Some v).
Proof.
  unfold dropna. rewrite <- list_elem_of_In, list_elem_of_omap.
  split.
  - intros (o & Ho & Heq). simpl in Heq. subst o.
    apply list_elem_of_lookup in Ho. exact Ho.
  - intros [i Hi]. exists (Some v). split; [|reflexivity].
    apply list_elem_of_lookup. eauto.
Qed.

Lemma unique_from_In (seen l : list Z) (x : Z) :
  In x (unique_from seen l) <-> In x l /\ ~ In x seen.
Proof.
  revert seen; induction l as [|a l IH]; intros seen; simpl; [tauto|].
  destruct (existsb (Z.eqb a) seen) eqn:E.
  - apply existsb_exists in E. destruct E as (b & Hb & Hab).
    apply Z.eqb_eq in Hab. subst b. rewrite IH.
    split; [tauto|]. intros [[->|H] Hn]; [contradiction | tauto].
  - assert (Ha : ~ In a seen).
    { intros Hin. apply not_true_iff_false in E. apply E.
      apply existsb_exists. exists a. split; [exact Hin | apply Z.eqb_refl]. }
    simpl. rewrite IH. simpl. split.
    + intros [->|[H Hn]]; [tauto|]. split; [tauto|]. intros Hs. apply Hn. now right.
    + intros [[->|H] Hn]; [now left|].
      destruct (decide (a = x)) as [->|Hne]; [now left | right].
      split; [exact H|]. intros [?|?]; [congruence | contradiction].
Qed.

Lemma unique_from_NoDup (seen l : list Z) : List.NoDup (unique_from seen l).
Proof.
  revert seen; induction l as [|a l IH]; intros seen; simpl; [constructor|].
  destruct (existsb (Z.eqb a) seen); [apply IH|].
  constructor; [|apply IH].
  rewrite unique_from_In. intros [_ Hn]. apply Hn. now left.
Qed.

Lemma unique_In (l : list Z) (x : Z) : In x (unique l) <-> In x l.
Proof. unfold unique. rewrite unique_from_In. simpl. tauto. Qed.

Lemma unique_NoDup (l : list Z) : List.NoDup (unique l).
Proof. apply unique_from_NoDup. Qed.

Section SortingFacts.
Context {A : Type} (leb : A -> A -> bool).

Lemma insert_sorted_perm (x : A) (l : list A) :
  Permutation (insert_sorted leb x l) (x :: l).
Proof.
  induction l as [|y t IH]; simpl; [reflexivity|].
  destruct (leb x y); [reflexivity|].
  rewrite IH. apply perm_swap.
Qed.

Lemma sorted_perm (l : list A) : Permutation (sorted leb l) l.
Proof.
  induction l as [|x t IH]; simpl; [reflexivity|].
  rewrite insert_sorted_perm. now apply perm_skip.
Qed.

Lemma sorted_In (l : list A) (x : A) : In x (sorted leb l) <-> In x l.
Proof.
  split; apply Permutation_in; [|symmetry]; apply sorted_perm.
Qed.

Lemma sorted_length (l : list A) : length (sorted leb l) = length l.
Proof. apply Permutation_length, sorted_perm. Qed.

Lemma sorted_NoDup (l : list A) : List.NoDup l -> List.NoDup (sorted leb l).
Proof.
  intros H. eapply Permutation_NoDup; [symmetry; apply sorted_perm | exact H].
Qed.
End SortingFacts.

Lemma insert_sorted_Z_sorted (x : Z) (l : list Z) :
  StronglySorted Z.le l -> StronglySorted Z.le (insert_sorted Z.leb x l).
Proof.
  induction 1 as [|y t Hs IH Hall]; simpl.
  - constructor; constructor.
  - destruct (Z.leb x y) eqn:E.
    + apply Z.leb_le in E. constructor; [now constructor|].
      constructor; [exact E|].
      eapply List.Forall_impl; [|exact Hall]. simpl. intros; lia.
    + apply Z.leb_gt in E. constructor; [exact IH|].
      apply List.Forall_forall. intros z Hz.
      apply (Permutation_in _ (insert_sorted_perm Z.leb x t)) in Hz.
      destruct Hz as [->|Hz]; [lia|].
      rewrite List.Forall_forall in Hall. now apply Hall.
Qed.

Lemma sorted_Z_sorted (l : list Z) : StronglySorted Z.le (sorted Z.leb l).
Proof.
  induction l as [|x t IH]; simpl; [constructor|].
  now apply insert_sorted_Z_sorted.
Qed.

Lemma sorted_NoDup_strict (l : list Z) :
  StronglySorted Z.le l -> List.NoDup l -> StronglySorted Z.lt l.
Proof.
  induction 1 as [|y t Hs IH Hall]; intros Hnd; [constructor|].
  inversion Hnd as [|? ? Hnotin Hnd']; subst.
  constructor; [now apply IH|].
  rewrite List.Forall_forall in *. intros z Hz.
  specialize (Hall z Hz). assert (y <> z) by (intros ->; contradiction). lia.
Qed.

Lemma NoDup_app_parts {A : Type} (l1 l2 : list A) :
  List.NoDup (l1 ++ l2) ->
  List.NoDup l2 /\ (forall x, In x l1 -> ~ In x l2).
Proof.
  induction l1 as [|a l1 IH]; simpl; intros H.
  - split; [exact H | tauto].
  - inversion H as [|? ? Hnotin Hnd]; subst.
    destruct (IH Hnd) as [H2 Hdis]. split; [exact H2|].
    intros x [->|Hx] Hin; [|now apply (Hdis x)].
    apply Hnotin, in_or_app. now right.
Qed.

Lemma In_drop {A : Type} (n : nat) (l : list A) (x : A) : In x (drop n l) -> In x l.
Proof.
  intros H. rewrite <- (firstn_skipn n l). apply in_or_app. now right.
Qed.

(* ===================================================================== *)
(** ** The Temporal Fold Generator                                        *)
(* ===================================================================== *)

Lemma temporal_key_lookup (df : DataFrame) (years_col : list (option Z)) (i : nat) (y : Z) :
  year df = Some years_col ->
  (temporal_key df i = Some y <-> years_col !! i = Some (Some y)).
Proof.
  intros Hy. unfold temporal_key. rewrite Hy.
  destruct (years_col !! i) as [[v|]|]; simpl; split; congruence.
Qed.

Lemma distinct_years_In (df : DataFrame) (years_col : list (option Z)) (y : Z) :
  year df = Some years_col ->
  (In y (distinct_years df) <-> exists i, years_col !! i = Some (Some y)).
Proof.
  intros Hy. unfold distinct_years. rewrite Hy.
  rewrite sorted_In, unique_In. apply dropna_In.
Qed.

Lemma distinct_years_NoDup (df : DataFrame) : List.NoDup (distinct_years df).
Proof.
  unfold distinct_years. destruct (year df); [|constructor].
  apply sorted_NoDup, unique_NoDup.
Qed.

Lemma distinct_years_ascending (df : DataFrame) : StronglySorted Z.lt (distinct_years df).
Proof.
  apply sorted_NoDup_strict; [|apply distinct_years_NoDup].
  unfold distinct_years. destruct (year df); [apply sorted_Z_sorted | constructor].
Qed.

Lemma nonempty_ltb {A : Type} (l : list A) : (0 <? length l)%nat = true <-> l <> [].
Proof.
  destruct l; simpl; split; try congruence; intros H; reflexivity || discriminate.
Qed.

Lemma emit_folds_In (years_col : list (option Z)) (ys : list Z)
    (tr va : list nat) (y : Z) :
  In (tr, va, y) (V4Stacked.emit_folds years_col ys) <->
  In y ys /\ tr = index_where (series_lt years_col y) /\
  va = index_where (series_eq years_col y) /\ tr <> [] /\ va <> [].
Proof.
  induction ys as [|y0 ys IH]; simpl; [tauto|].
  destruct ((0 <? length (index_where (series_lt years_col y0)))%nat &&
            (0 <? length (index_where (series_eq years_col y0)))%nat) eqn:E.
  - apply andb_true_iff in E. destruct E as [E1 E2].
    apply nonempty_ltb in E1, E2. simpl. rewrite IH. split.
    + intros [Heq|H]; [|tauto]. inversion Heq; subst tr va y. tauto.
    + intros ([->|Hin] & -> & -> & Hn1 & Hn2); [now left | right; tauto].
  - rewrite IH. split; [tauto|].
    intros ([->|Hin] & -> & -> & Hn1 & Hn2); [|tauto].
    exfalso. apply nonempty_ltb in Hn1, Hn2. rewrite Hn1, Hn2 in E. discriminate.
Qed.

Lemma time_folds_Some (df : DataFrame) (folds : list V4Stacked.fold) :
  V4Stacked.time_folds df = Some folds <->
  exists years_col, year df = Some years_col /\
    (5 <= length (distinct_years df))%nat /\
    folds = V4Stacked.emit_folds years_col (drop 3 (distinct_years df)).
Proof.
  unfold V4Stacked.time_folds, distinct_years, V4Stacked.start_index.
  destruct (year df) as [years_col|].
  - destruct (length _ <? 5)%nat eqn:E.
    + apply Nat.ltb_lt in E. split; [discriminate|].
      intros (c & Hc & Hlen & _). lia.
    + apply Nat.ltb_ge in E. split.
      * intros H. exists years_col. repeat split; [exact E | congruence].
      * intros (c & Hc & _ & ->). congruence.
  - split; [discriminate | intros (c & Hc & _); discriminate].
Qed.

Lemma time_folds_None (df : DataFrame) :
  V4Stacked.time_folds df = None <->
  year df = None \/ (length (distinct_years df) < 5)%nat.
Proof.
  unfold V4Stacked.time_folds, distinct_years.
  destruct (year df) as [years_col|].
  - destruct (length _ <? 5)%nat eqn:E.
    + apply Nat.ltb_lt in E. split; [now right | reflexivity].
    + apply Nat.ltb_ge in E. split; [discriminate|].
      intros [H|H]; [discriminate | lia].
  - split; [now left | reflexivity].
Qed.

Lemma tuned_emit_folds (years_col : list (option Z)) (ys : list Z) :
  V4Tuned.emit_folds years_col ys = map untag (V4Stacked.emit_folds years_col ys).
Proof.
  induction ys as [|y ys IH]; simpl; [reflexivity|].
  destruct (_ && _); simpl; now rewrite IH.
Qed.

Lemma tuned_time_folds (df : DataFrame) :
  V4Tuned.time_folds df = map untag <$> V4Stacked.time_folds df.
Proof.
  unfold V4Tuned.time_folds, V4Stacked.time_folds.
  destruct (year df); [|reflexivity].
  destruct (_ <? _)%nat; [reflexivity|].
  simpl. now rewrite tuned_emit_folds.
Qed.

(** The rows of an emitted fold, in terms of their temporal keys. *)
Lemma fold_rows (df : DataFrame) (folds : list V4Stacked.fold)
    (tr va : list nat) (y : Z) :
  V4Stacked.time_folds df = Some folds -> In (tr, va, y) folds ->
  In y (drop 3 (distinct_years df)) /\
  (forall i, In i va <-> temporal_key df i = Some y) /\
  (forall j, In j tr <-> exists yj, temporal_key df j = Some yj /\ yj < y).
Proof.
  intros Hf Hin. apply time_folds_Some in Hf.
  destruct Hf as (years_col & Hy & _ & ->).
  apply emit_folds_In in Hin. destruct Hin as (Hin & -> & -> & _ & _).
  split; [exact Hin|]. split.
  - intros i. rewrite series_eq_In. symmetry. now apply temporal_key_lookup.
  - intros j. rewrite series_lt_In. split.
    + intros (v & Hv & Hlt). exists v. split; [|exact Hlt].
      now apply (temporal_key_lookup df years_col).
    + intros (v & Hv & Hlt). exists v. split; [|exact Hlt].
      now apply (temporal_key_lookup df years_col).
Qed.

Lemma existsb_eqb_In (i : nat) (l : list nat) : existsb (Nat.eqb i) l = true <-> In i l.
Proof.
  rewrite existsb_exists. split.
  - intros (x & Hx & Heq). apply Nat.eqb_eq in Heq. now subst.
  - intros H. exists i. split; [exact H | apply Nat.eqb_refl].
Qed.

Lemma validations_cons (f : V4Stacked.fold) (folds : list V4Stacked.fold) (i : nat) :
  validations (f :: folds) i =
  ((if existsb (Nat.eqb i) f.1.2 then 1 else 0) + validations folds i)%nat.
Proof. unfold validations. simpl. now destruct (existsb _ _). Qed.

Lemma validations_zero (folds : list V4Stacked.fold) (i : nat) :
  validations folds i = 0%nat <-> (forall tr va y, In (tr, va, y) folds -> ~ In i va).
Proof.
  induction folds as [|[[tr0 va0] y0] folds IH].
  - split; [intros _ tr va y [] | reflexivity].
  - rewrite validations_cons. simpl. split.
    + intros H tr va y [Heq|Hin].
      * inversion Heq; subst. intros Hi. apply existsb_eqb_In in Hi.
        rewrite Hi in H. discriminate.
      * apply (proj1 IH) with (tr := tr) (y := y); [|exact Hin].
        destruct (existsb _ _); simpl in H; lia.
    + intros H. destruct (existsb (Nat.eqb i) va0) eqn:E.
      * apply existsb_eqb_In in E. exfalso. apply (H tr0 va0 y0); auto.
      * simpl. apply IH. intros tr va y Hin. apply (H tr va y). now right.
Qed.

Lemma validations_emit_none (years_col : list (option Z)) (ys : list Z) (i : nat) :
  (forall y, In y ys -> years_col !! i <> Some (Some y)) ->
  validations (V4Stacked.emit_folds years_col ys) i = 0%nat.
Proof.
  intros H. apply validations_zero. intros tr va y Hin Hi.
  apply emit_folds_In in Hin. destruct Hin as (Hy & _ & -> & _ & _).
  apply series_eq_In in Hi. now apply (H y).
Qed.

Lemma validations_emit_one (years_col : list (option Z)) (ys : list Z) (i : nat) (y : Z) :
  List.NoDup ys -> In y ys -> years_col !! i = Some (Some y) ->
  index_where (series_lt years_col y) <> [] ->
  validations (V4Stacked.emit_folds years_col ys) i = 1%nat.
Proof.
  intros Hnd. induction Hnd as [|y0 ys Hnotin Hnd IH]; intros Hin Hi Htr; [destruct Hin|].
  simpl. destruct Hin as [->|Hin].
  - assert (Hva : In i (index_where (series_eq years_col y))) by now apply series_eq_In.
    apply nonempty_ltb in Htr. rewrite Htr. simpl.
    replace (0 <? length (index_where (series_eq years_col y)))%nat with true.
    2:{ symmetry. apply nonempty_ltb. intros Hnil. rewrite Hnil in Hva. destruct Hva. }
    rewrite validations_cons. simpl.
    apply existsb_eqb_In in Hva. rewrite Hva.
    rewrite validations_emit_none; [reflexivity|].
    intros y' Hy' Heq. rewrite Hi in Heq. congruence.
  - assert (Hne : y0 <> y) by (intros ->; contradiction).
    assert (Hva : existsb (Nat.eqb i) (index_where (series_eq years_col y0)) = false).
    { apply not_true_iff_false. rewrite existsb_eqb_In, series_eq_In. congruence. }
    destruct (_ && _).
    + rewrite validations_cons. simpl. rewrite Hva. simpl. now apply IH.
    + now apply IH.
Qed.

(** From the fourth distinct year on, there is a row before the bucket. *)
Lemma train_rows_exist (df : DataFrame) (years_col : list (option Z)) (y : Z) :
  year df = Some years_col ->
  In y (drop 3 (distinct_years df)) ->
  index_where (series_lt years_col y) <> [].
Proof.
  intros Hy Hin.
  pose proof (distinct_years_ascending df) as Hs.
  pose proof (distinct_years_In df years_col) as Hmem.
  destruct (distinct_years df) as [|y0 rest]; [destruct Hin|].
  assert (Hy0 : exists j, years_col !! j = Some (Some y0)).
  { apply (Hmem y0 Hy). now left. }
  destruct Hy0 as [j Hj].
  assert (Hlt : y0 < y).
  { inversion Hs as [|? ? _ Hall]; subst. rewrite List.Forall_forall in Hall.
    apply Hall. simpl in Hin. now apply In_drop in Hin. }
  assert (Hjin : In j (index_where (series_lt years_col y))).
  { apply series_lt_In. eauto. }
  intros Hnil. rewrite Hnil in Hjin. destruct Hjin.
Qed.

Example time_folds_history5 : V4Stacked.time_folds history5 = Some history5_folds.
Proof. reflexivity. Qed.

Example time_folds_two_years : V4Stacked.time_folds bare_history = None.
Proof. reflexivity. Qed.

Example distinct_years_history5 : distinct_years history5 = [2015; 2016; 2017; 2018; 2019].
Proof. reflexivity. Qed.

(** C1.  No leakage: in every fold [time_folds] emits, each validation row
    has the fold's held-out year as its temporal key, and each training row
    has a strictly smaller one; the folds of train_v4_tuned.py are the same
    index pairs. *)
Theorem time_folds_no_leakage (df : DataFrame) (folds : list V4Stacked.fold)
    (tr va : list nat) (y : Z) :
  V4Stacked.time_folds df = Some folds ->
  In (tr, va, y) folds ->
  (forall i, In i va -> temporal_key df i = Some y) /\
  (forall j, In j tr -> exists yj, temporal_key df j = Some yj /\ yj < y) /\
  (forall i j, In i va -> In j tr ->
     exists yi yj, temporal_key df i = Some yi /\ temporal_key df j = Some yj /\ yj < yi) /\
  V4Tuned.time_folds df = Some (map untag folds).
Proof.
  intros Hf Hin. destruct (fold_rows df folds tr va y Hf Hin) as (_ & Hva & Htr).
  repeat split.
  - intros i Hi. now apply Hva.
  - intros j Hj. now apply Htr.
  - intros i j Hi Hj. apply Htr in Hj. destruct Hj as (yj & Hj & Hlt).
    exists y, yj. repeat split; [now apply Hva | exact Hj | exact Hlt].
  - rewrite tuned_time_folds, Hf. reflexivity.
Qed.

Lemma time_folds_no_leakage_witness :
  (forall i, In i [3%nat; 6%nat] -> temporal_key history5 i = Some 2018) /\
  (forall j, In j [0%nat; 1%nat; 2%nat] ->
     exists yj, temporal_key history5 j = Some yj /\ yj < 2018) /\
  (forall i j, In i [3%nat; 6%nat] -> In j [0%nat; 1%nat; 2%nat] ->
     exists yi yj, temporal_key history5 i = Some yi /\
                   temporal_key history5 j = Some yj /\ yj < yi) /\
  V4Tuned.time_folds history5 = Some (map untag history5_folds).
Proof.
  apply (time_folds_no_leakage history5 history5_folds [0; 1; 2]%nat [3; 6]%nat 2018).
  - reflexivity.
  - simpl. left. reflexivity.
Defined.

(* ===================================================================== *)
(** ** Dicts, fancy assignment, the error monad                           *)
(* ===================================================================== *)

Lemma bind_Ok {A B : Type} (r : result A) (k : A -> result B) (b : B) :
  bind r k = Ok b <-> exists a, r = Ok a /\ k a = Ok b.
Proof.
  destruct r as [a|e]; simpl; split.
  - intros H. now exists a.
  - intros (a' & Ha & Hk). congruence.
  - discriminate.
  - intros (a' & Ha & _). discriminate.
Qed.

Ltac inv_bind H :=
  let x := fresh "x" in
  let Hx := fresh "Hx" in
  apply bind_Ok in H; destruct H as (x & Hx & H).

Tactic Notation "bind_inv" hyp(H) "as" ident(x) ident(Hx) :=
  apply bind_Ok in H; destruct H as (x & Hx & H).

Lemma dict_get_set_eq {V : Type} (k : string) (v : V) (d : list (string * V)) :
  dict_get k (dict_set k v d) = Some v.
Proof.
  unfold dict_get. induction d as [|[k0 v0] d IH]; simpl.
  - now rewrite String.eqb_refl.
  - destruct (String.eqb k0 k) eqn:E; simpl; rewrite E; [reflexivity | exact IH].
Qed.

Lemma dict_get_set_ne {V : Type} (k k' : string) (v : V) (d : list (string * V)) :
  k <> k' -> dict_get k' (dict_set k v d) = dict_get k' d.
Proof.
  intros Hne. unfold dict_get. induction d as [|[k0 v0] d IH]; simpl.
  - apply String.eqb_neq in Hne. now rewrite Hne.
  - destruct (String.eqb k0 k) eqn:E; simpl.
    + apply String.eqb_eq in E. subst k0.
      apply String.eqb_neq in Hne. now rewrite Hne.
    + destruct (String.eqb k0 k'); [reflexivity | exact IH].
Qed.

Lemma dict_get_In {V : Type} (k : string) (v : V) (d : list (string * V)) :
  dict_get k d = Some v -> In (k, v) d.
Proof.
  unfold dict_get. induction d as [|[k0 v0] d IH]; simpl; [discriminate|].
  destruct (String.eqb k0 k) eqn:E; simpl.
  - apply String.eqb_eq in E. intros H. left. congruence.
  - intros H. right. now apply IH.
Qed.

Lemma dict_get_keys {V : Type} (k : string) (d : list (string * V)) :
  is_Some (dict_get k d) <-> In k (map fst d).
Proof.
  unfold dict_get. induction d as [|[k0 v0] d IH]; simpl.
  - split; [intros [? ?]; discriminate | tauto].
  - destruct (String.eqb k0 k) eqn:E; simpl.
    + apply String.eqb_eq in E. split; [now left | eauto].
    + apply String.eqb_neq in E. rewrite IH. tauto.
Qed.

Lemma dict_set_keys {V : Type} (k : string) (v : V) (d : list (string * V)) :
  In k (map fst d) -> map fst (dict_set k v d) = map fst d.
Proof.
  induction d as [|[k0 v0] d IH]; simpl; [tauto|].
  destruct (String.eqb k0 k) eqn:E; simpl; [reflexivity|].
  apply String.eqb_neq in E. intros [?|H]; [contradiction|]. now rewrite IH.
Qed.

Lemma dict_get_NoDup_In {V : Type} (k : string) (v : V) (d : list (string * V)) :
  List.NoDup (map fst d) -> In (k, v) d -> dict_get k d = Some v.
Proof.
  unfold dict_get. induction d as [|[k0 v0] d IH]; simpl; [tauto|].
  intros Hnd [Heq|Hin]; inversion Hnd as [|? ? Hnotin Hnd']; subst.
  - inversion Heq; subst. now rewrite String.eqb_refl.
  - destruct (String.eqb k0 k) eqn:E; [|now apply IH].
    apply String.eqb_eq in E. subst k0. exfalso. apply Hnotin.
    apply in_map_iff. now exists (k, v).
Qed.

Lemma assign_pairs_frame (a a' : list (option Q)) (ivs : list (nat * Q)) :
  assign_pairs a ivs = Ok a' ->
  length a' = length a /\ (forall i, ~ In i (map fst ivs) -> a' !! i = a !! i).
Proof.
  revert a; induction ivs as [|[j v] ivs IH]; intros a; simpl.
  - intros H. inversion H; subst. tauto.
  - destruct (j <? length a)%nat eqn:E; [|discriminate].
    intros H. apply IH in H. destruct H as [Hlen Hfr].
    rewrite length_insert in Hlen. split; [exact Hlen|].
    intros i Hi. rewrite Hfr by tauto.
    apply list_lookup_insert_ne. intros ->. tauto.
Qed.

Lemma assign_frame (a a' : list (option Q)) (idx : list nat) (vals : list Q) :
  assign a idx vals = Ok a' ->
  length a' = length a /\ (forall i, ~ In i idx -> a' !! i = a !! i).
Proof.
  unfold assign. destruct (_ =? _)%nat; [|discriminate].
  intros H. apply assign_pairs_frame in H. destruct H as [Hlen Hfr].
  split; [exact Hlen|]. intros i Hi. apply Hfr. intros Hin. apply Hi.
  apply in_map_iff in Hin. destruct Hin as ([j v] & <- & Hjv).
  simpl. eapply in_combine_l; eauto.
Qed.

Lemma index_where_from_NoDup (k : nat) (mask : list bool) :
  List.NoDup (index_where_from k mask).
Proof.
  revert k; induction mask as [|b mask IH]; intros k; simpl; [constructor|].
  destruct b; [|apply IH]. constructor; [|apply IH].
  rewrite index_where_from_In. lia.
Qed.

Lemma NoDup_app_intro {A : Type} (l1 l2 : list A) :
  List.NoDup l1 -> List.NoDup l2 -> (forall x, In x l1 -> ~ In x l2) ->
  List.NoDup (l1 ++ l2).
Proof.
  induction 1 as [|a l1 Hnotin Hnd IH]; simpl; intros H2 Hdis; [exact H2|].
  constructor.
  - intros Hin. apply in_app_or in Hin. destruct Hin as [Hin|Hin]; [contradiction|].
    apply (Hdis a); auto.
  - apply IH; [exact H2|]. intros x Hx. apply Hdis. now right.
Qed.

Lemma NoDup_flat_map {A B : Type} (f : A -> list B) (l : list A) :
  List.NoDup l ->
  (forall x, In x l -> List.NoDup (f x)) ->
  (forall x x' b, In x l -> In x' l -> In b (f x) -> In b (f x') -> x = x') ->
  List.NoDup (flat_map f l).
Proof.
  induction 1 as [|a l Hnotin Hnd IH]; simpl; intros Hf Hdis; [constructor|].
  apply NoDup_app_intro.
  - apply Hf. now left.
  - apply IH.
    + intros x Hx. apply Hf. now right.
    + intros x x' b Hx Hx'. apply Hdis; now right.
  - intros b Hb Hin. apply in_flat_map in Hin. destruct Hin as (x & Hx & Hbx).
    assert (a = x) by (apply (Hdis a x b); auto). subst x. contradiction.
Qed.

(* ===================================================================== *)
(** ** The Out-of-Fold Predictor                                          *)
(* ===================================================================== *)

Lemma cells_of_folds_In (names : list string) folds (n : string) (i : nat) :
  In (n, i) (cells_of_folds names folds) <->
  In n names /\ exists f, In f folds /\ In i f.1.2.
Proof.
  unfold cells_of_folds. rewrite in_flat_map. split.
  - intros (f & Hf & Hin). apply in_flat_map in Hin.
    destruct Hin as (n' & Hn' & Hin). apply in_map_iff in Hin.
    destruct Hin as (j & Heq & Hj). inversion Heq; subst. eauto.
  - intros (Hn & f & Hf & Hi). exists f. split; [exact Hf|].
    apply in_flat_map. exists n. split; [exact Hn|].
    apply in_map_iff. eauto.
Qed.

Lemma cells_one_fold_NoDup (names : list string) (va : list nat) :
  List.NoDup names -> List.NoDup va ->
  List.NoDup (flat_map (fun n => map (pair n) va) names).
Proof.
  intros Hn Hva. apply NoDup_flat_map; [exact Hn | |].
  - intros n _. clear Hn. induction Hva as [|j va Hnotin Hnd IH]; simpl; constructor.
    + intros Hin. apply in_map_iff in Hin. destruct Hin as (j' & Heq & Hj').
      inversion Heq; subst. contradiction.
    + exact IH.
  - intros n n' [m j] _ _ H1 H2.
    apply in_map_iff in H1. destruct H1 as (? & Heq1 & _).
    apply in_map_iff in H2. destruct H2 as (? & Heq2 & _). congruence.
Qed.

Lemma cells_of_emit_folds_NoDup (names : list string) (years_col : list (option Z))
    (ys : list Z) :
  List.NoDup names -> List.NoDup ys ->
  List.NoDup (cells_of_folds names (map tag (V4Stacked.emit_folds years_col ys))).
Proof.
  intros Hn Hys. induction Hys as [|y0 ys Hnotin Hnd IH]; simpl; [constructor|].
  destruct (_ && _); [|exact IH].
  simpl. apply NoDup_app_intro; [| exact IH |].
  - apply cells_one_fold_NoDup; [exact Hn | apply index_where_from_NoDup].
  - intros [n i] Hin1 Hin2.
    apply in_flat_map in Hin1. destruct Hin1 as (n' & _ & Hin1).
    apply in_map_iff in Hin1. destruct Hin1 as (j & Heq & Hj). inversion Heq; subst n' j.
    apply series_eq_In in Hj.
    apply cells_of_folds_In in Hin2. destruct Hin2 as (_ & f & Hf & Hi).
    apply in_map_iff in Hf. destruct Hf as ([[tr va] y] & <- & Hf).
    apply emit_folds_In in Hf. destruct Hf as (Hy & _ & -> & _ & _).
    simpl in Hi. apply series_eq_In in Hi.
    assert (y0 = y) by congruence. subst y. contradiction.
Qed.

Section OofFacts.
Context {fitted : Type}.
Variable fit : learner -> matrix -> list Z -> result fitted.
Variable predict_proba : fitted -> matrix -> result (list Q).
Variable roc_auc_score : list Z -> list Q -> result (option Q).
Variable skf_split :
  nat -> bool -> Z -> matrix -> list Z -> result (list (list nat * list nat)).

Local Abbreviation oof_state := (V4Stacked.oof_state fitted).
Local Abbreviation oof_preds := (V4Stacked.oof_preds fitted).
Local Abbreviation models := (V4Stacked.models fitted).
Local Abbreviation writes := (V4Stacked.writes fitted).
Local Abbreviation model_step :=
  (V4Stacked.oof_model_step fitted fit predict_proba roc_auc_score).
Local Abbreviation model_loop :=
  (V4Stacked.oof_model_loop fitted fit predict_proba roc_auc_score).
Local Abbreviation fold_loop :=
  (V4Stacked.oof_fold_loop fitted fit predict_proba roc_auc_score).

Lemma oof_frame_refl (touched : nat -> Prop) (st : oof_state) : oof_frame touched st st.
Proof.
  repeat split.
  - intros n m' H. exists m'. auto.
  - intros n arr' H. exists arr'. auto.
Qed.

Lemma oof_frame_trans (t1 t2 t : nat -> Prop) (st1 st2 st3 : oof_state) :
  (forall i, t1 i -> t i) -> (forall i, t2 i -> t i) ->
  oof_frame t1 st1 st2 -> oof_frame t2 st2 st3 -> oof_frame t st1 st3.
Proof.
  intros H1 H2 (Ha & Hb & Hs & Hc) (Ha' & Hb' & Hs' & Hc').
  repeat split; [congruence.. | |].
  - intros n m3 H3. destruct (Hs' n m3 H3) as (m2 & Hg2 & He2).
    destruct (Hs n m2 Hg2) as (m1 & Hg1 & He1). exists m1. split; congruence.
  - intros n arr3 H3. destruct (Hc' n arr3 H3) as (arr2 & Hg2 & Hl2 & Hf2).
    destruct (Hc n arr2 Hg2) as (arr1 & Hg1 & Hl1 & Hf1).
    exists arr1. repeat split; [exact Hg1 | congruence |].
    intros i Hi. rewrite Hf2, Hf1; auto.
Qed.

Lemma oof_model_step_frame X_tr y_tr X_va y_va val_idx (st st' : oof_state) name :
  model_step X_tr y_tr X_va y_va val_idx st name = Ok st' ->
  oof_frame (fun i => In i val_idx) st st' /\
  writes st' = writes st ++ map (pair name) val_idx.
Proof.
  unfold V4Stacked.oof_model_step.
  destruct (dict_get name (models st)) as [model|] eqn:Hm; [|discriminate].
  intros H. bind_inv H as model' Hfit. bind_inv H as probs Hp.
  destruct (dict_get name (oof_preds st)) as [arr|] eqn:Ha; [|discriminate].
  bind_inv H as arr1 Hassign. bind_inv H as auc Hauc.
  inversion H; subst st'; clear H. simpl.
  split; [|reflexivity]. repeat split; simpl.
  - apply dict_set_keys, dict_get_keys. eauto.
  - apply dict_set_keys, dict_get_keys. eauto.
  - intros n m' Hn. destruct (decide (name = n)) as [->|Hne].
    + rewrite dict_get_set_eq in Hn. inversion Hn; subst m'.
      exists model. split; [exact Hm|].
      unfold V4Stacked.model_fit in Hfit. bind_inv Hfit as f Hf.
      inversion Hfit; subst model'. reflexivity.
    + rewrite dict_get_set_ne in Hn by exact Hne. exists m'. auto.
  - intros n arr' Hn. destruct (decide (name = n)) as [->|Hne].
    + rewrite dict_get_set_eq in Hn. inversion Hn; subst arr'.
      exists arr. split; [exact Ha|]. now apply assign_frame with (vals := probs).
    + rewrite dict_get_set_ne in Hn by exact Hne. exists arr'. auto.
Qed.

Lemma oof_model_loop_frame X_tr y_tr X_va y_va val_idx names (st st' : oof_state) :
  model_loop X_tr y_tr X_va y_va val_idx st names = Ok st' ->
  oof_frame (fun i => In i val_idx) st st' /\
  writes st' = writes st ++ flat_map (fun n => map (pair n) val_idx) names.
Proof.
  revert st; induction names as [|name names IH]; intros st; simpl.
  - intros H. inversion H; subst. split; [apply oof_frame_refl|].
    now rewrite app_nil_r.
  - intros H. inv_bind H. apply oof_model_step_frame in Hx. destruct Hx as [Hf Hw].
    apply IH in H. destruct H as [Hf' Hw']. split.
    + eapply oof_frame_trans; [| | exact Hf | exact Hf']; auto.
    + rewrite Hw', Hw, <- app_assoc. reflexivity.
Qed.

Lemma oof_fold_loop_frame X y folds (st st' : oof_state) :
  fold_loop X y st folds = Ok st' ->
  oof_frame (fun i => exists f, In f folds /\ In i f.1.2) st st' /\
  writes st' = writes st ++ cells_of_folds (map fst (models st)) folds.
Proof.
  revert st; induction folds as [|[[tr va] yr] folds IH]; intros st; simpl.
  - intros H. inversion H; subst. split; [apply oof_frame_refl|].
    now rewrite app_nil_r.
  - intros H. do 4 inv_bind H. inv_bind H.
    apply oof_model_loop_frame in Hx3. destruct Hx3 as [Hf Hw].
    apply IH in H. destruct H as [Hf' Hw']. split.
    + eapply oof_frame_trans; [| | exact Hf | exact Hf'].
      * intros i Hi. exists (tr, va, yr). split; [now left | exact Hi].
      * intros i (f & Hin & Hi). exists f. split; [now right | exact Hi].
    + rewrite Hw', Hw, <- app_assoc. f_equal.
      destruct Hf as (_ & Hk & _). rewrite Hk. reflexivity.
Qed.

(** In time-based mode: which cells [get_oof_predictions] assigns, and what
    it leaves unset. *)
Lemma get_oof_predictions_time X y df base_models folds (st : oof_state) :
  V4Stacked.time_folds df = Some folds ->
  V4Stacked.get_oof_predictions fitted fit predict_proba roc_auc_score skf_split
    X y df base_models = Ok st ->
  writes st = cells_of_folds (map fst base_models) (map tag folds) /\
  map fst (oof_preds st) = map fst base_models /\
  forall n arr, dict_get n (oof_preds st) = Some arr ->
    length arr = length y /\
    forall i, (i < length y)%nat -> validations folds i = 0%nat -> arr !! i = Some None.
Proof.
  intros Hf H. unfold V4Stacked.get_oof_predictions, V4Stacked.cv_folds in H.
  rewrite Hf in H. simpl in H.
  apply oof_fold_loop_frame in H. simpl in H. destruct H as [(Hk & _ & _ & Hfr) Hw].
  split; [exact Hw|]. split.
  { rewrite Hk. clear. induction base_models as [|nm l IH]; simpl in *; [reflexivity|].
    f_equal. exact IH. }
  intros n arr Hn. destruct (Hfr n arr Hn) as (arr0 & Hg0 & Hlen & Hsame).
  apply dict_get_In, in_map_iff in Hg0. destruct Hg0 as ([n' m] & Heq & _).
  inversion Heq; subst n arr0. rewrite length_replicate in Hlen.
  split; [exact Hlen|]. intros i Hi Hv. rewrite Hsame.
  - now apply lookup_replicate_2.
  - intros (f & Hin & Hiva). apply in_map_iff in Hin.
    destruct Hin as ([[tr va] yr] & <- & Hin). simpl in Hiva.
    revert Hiva. now apply (proj1 (validations_zero folds i) Hv tr va yr).
Qed.
End OofFacts.


(** C2.  Full coverage, single assignment.  In one time-based pass, a row
    whose year is one of the distinct years from index 3 on is a validation
    row of exactly one fold, a row of an earlier year of none; the cells
    [get_oof_predictions] assigns are pairwise distinct, and a row that is
    never validated keeps NaN in every out-of-fold array. *)
Theorem single_validation_assignment {fitted : Type}
    (fit : learner -> matrix -> list Z -> result fitted)
    (predict_proba : fitted -> matrix -> result (list Q))
    (roc_auc_score : list Z -> list Q -> result (option Q))
    (skf_split : nat -> bool -> Z -> matrix -> list Z -> result (list (list nat * list nat)))
    (X : matrix) (y : list Z) (df : DataFrame)
    (base_models : list (string * V4Stacked.model_obj fitted))
    (folds : list V4Stacked.fold) (st : V4Stacked.oof_state fitted) :
  V4Stacked.time_folds df = Some folds ->
  List.NoDup (map fst base_models) ->
  V4Stacked.get_oof_predictions fitted fit predict_proba roc_auc_score skf_split
    X y df base_models = Ok st ->
  (forall i yi, temporal_key df i = Some yi ->
     (In yi (drop 3 (distinct_years df)) -> validations folds i = 1%nat) /\
     (In yi (take 3 (distinct_years df)) -> validations folds i = 0%nat)) /\
  List.NoDup (V4Stacked.writes fitted st) /\
  (forall n i, In (n, i) (V4Stacked.writes fitted st) ->
     In n (map fst base_models) /\ validations folds i <> 0%nat) /\
  (forall n arr i, dict_get n (V4Stacked.oof_preds fitted st) = Some arr ->
     (i < length y)%nat -> validations folds i = 0%nat -> arr !! i = Some None).
Proof.
  intros Hf Hnames Hoof.
  destruct (get_oof_predictions_time fit predict_proba roc_auc_score skf_split
              X y df base_models folds st Hf Hoof) as (Hw & _ & Harr).
  pose proof Hf as Hf'. apply time_folds_Some in Hf'.
  destruct Hf' as (years_col & Hy & _ & Hfolds).
  pose proof (distinct_years_NoDup df) as Hnd.
  rewrite <- (firstn_skipn 3 (distinct_years df)) in Hnd.
  apply NoDup_app_parts in Hnd. destruct Hnd as [Hnd Hdis].
  split; [|split; [|split]].
  - intros i yi Hkey. apply (temporal_key_lookup df years_col) in Hkey; [|exact Hy].
    subst folds. split.
    + intros Hin. apply (validations_emit_one years_col _ i yi); auto.
      now apply (train_rows_exist df).
    + intros Hin. apply validations_emit_none. intros y' Hy' Heq.
      assert (y' = yi) by congruence. subst y'. now apply (Hdis yi).
  - rewrite Hw. subst folds. now apply cells_of_emit_folds_NoDup.
  - intros n i Hin. rewrite Hw in Hin. apply cells_of_folds_In in Hin.
    destruct Hin as (Hn & f & Hfin & Hi). split; [exact Hn|].
    apply in_map_iff in Hfin. destruct Hfin as ([[tr va] yr] & <- & Hfin).
    intros Hz. revert Hi. simpl.
    now apply (proj1 (validations_zero folds i) Hz tr va yr).
  - intros n arr i Hn Hi Hz. now apply (Harr n arr Hn).
Qed.

Lemma single_validation_assignment_witness :
  (forall i yi, temporal_key history5 i = Some yi ->
     (In yi (drop 3 (distinct_years history5)) -> validations history5_folds i = 1%nat) /\
     (In yi (take 3 (distinct_years history5)) -> validations history5_folds i = 0%nat)) /\
  List.NoDup (V4Stacked.writes nat history5_oof) /\
  (forall n i, In (n, i) (V4Stacked.writes nat history5_oof) ->
     In n (map fst (V4Stacked.build_base_models nat)) /\
     validations history5_folds i <> 0%nat) /\
  (forall n arr i, dict_get n (V4Stacked.oof_preds nat history5_oof) = Some arr ->
     (i < length history5_y)%nat -> validations history5_folds i = 0%nat ->
     arr !! i = Some None).
Proof.
  apply (single_validation_assignment toy_fit toy_predict_proba toy_roc_auc_score
           toy_skf_split history5_X history5_y history5 (V4Stacked.build_base_models nat)
           history5_folds history5_oof).
  - reflexivity.
  - simpl. repeat constructor; simpl; intuition discriminate.
  - vm_compute. reflexivity.
Defined.

(** C3.  Fold-strategy selection.  Whether the frame lacks a 'year' column or
    has fewer than five distinct years decides the strategy: then both
    scripts take the five stratified folds with shuffling and seed 42, and
    otherwise only the expanding-window folds of [time_folds]; the loop never
    emits a fold without training rows (or without validation rows). *)
Theorem fold_strategy_selection
    (skf_split : nat -> bool -> Z -> matrix -> list Z -> result (list (list nat * list nat)))
    (X : matrix) (y : list Z) (df : DataFrame) :
  (year df = None \/ (length (distinct_years df) < 5)%nat ->
     V4Stacked.time_folds df = None /\
     V4Tuned.time_folds df = None /\
     V4Stacked.cv_folds skf_split X y df =
       bind (skf_split 5%nat true 42 X y)
            (fun sk => Ok (map (fun tv => (tv.1, tv.2, None)) sk)) /\
     V4Tuned.cv_folds skf_split X y df = skf_split 5%nat true 42 X y) /\
  (~ (year df = None \/ (length (distinct_years df) < 5)%nat) ->
     exists years_col folds,
       year df = Some years_col /\
       folds = V4Stacked.emit_folds years_col (drop 3 (distinct_years df)) /\
       V4Stacked.time_folds df = Some folds /\
       V4Tuned.time_folds df = Some (map untag folds) /\
       V4Stacked.cv_folds skf_split X y df = Ok (map tag folds) /\
       V4Tuned.cv_folds skf_split X y df = Ok (map untag folds) /\
       map (fun f : V4Stacked.fold => f.2) folds = drop 3 (distinct_years df)) /\
  (forall years_col fold_years tr va yr,
     In (tr, va, yr) (V4Stacked.emit_folds years_col fold_years) ->
     tr <> [] /\ va <> []).
Proof.
  split; [|split].
  - intros H. apply time_folds_None in H.
    unfold V4Stacked.cv_folds, V4Tuned.cv_folds.
    rewrite tuned_time_folds, H. simpl. auto.
  - intros H.
    destruct (V4Stacked.time_folds df) as [folds|] eqn:Hf.
    2:{ exfalso. apply H. now apply time_folds_None. }
    pose proof Hf as Hf'. apply time_folds_Some in Hf'.
    destruct Hf' as (years_col & Hy & Hlen & Hfolds).
    exists years_col, folds.
    unfold V4Stacked.cv_folds, V4Tuned.cv_folds.
    rewrite tuned_time_folds, Hf. simpl.
    repeat split; auto.
    subst folds. clear Hf H Hlen.
    assert (Hall : forall yr, In yr (drop 3 (distinct_years df)) ->
                     index_where (series_lt years_col yr) <> [] /\
                     index_where (series_eq years_col yr) <> []).
    { intros yr Hin. split; [now apply (train_rows_exist df)|].
      assert (Hin' : In yr (distinct_years df)) by now apply In_drop in Hin.
      apply (distinct_years_In df years_col yr Hy) in Hin'. destruct Hin' as [i Hi].
      apply series_eq_In in Hi. intros Hnil. rewrite Hnil in Hi. destruct Hi. }
    induction (drop 3 (distinct_years df)) as [|y0 ys IH]; simpl; [reflexivity|].
    destruct (Hall y0 (or_introl eq_refl)) as [H1 H2].
    apply nonempty_ltb in H1, H2. rewrite H1, H2. simpl. f_equal.
    apply IH. intros yr Hin. apply Hall. now right.
  - intros years_col fold_years tr va yr Hin.
    apply emit_folds_In in Hin. tauto.
Qed.

Lemma fold_strategy_selection_witness :
  exists years_col folds,
    year history5 = Some years_col /\
    folds = V4Stacked.emit_folds years_col (drop 3 (distinct_years history5)) /\
    V4Stacked.time_folds history5 = Some folds /\
    V4Tuned.time_folds history5 = Some (map untag folds) /\
    V4Stacked.cv_folds toy_skf_split history5_X history5_y history5 = Ok (map tag folds) /\
    V4Tuned.cv_folds toy_skf_split history5_X history5_y history5 = Ok (map untag folds) /\
    map (fun f : V4Stacked.fold => f.2) folds = drop 3 (distinct_years history5).
Proof.
  destruct (fold_strategy_selection toy_skf_split history5_X history5_y history5)
    as (_ & H & _).
  apply H. intros [Hy|Hlen]; [discriminate|]. vm_compute in Hlen. lia.
Defined.

(* ===================================================================== *)
(** ** The Feature Table Loader                                           *)
(* ===================================================================== *)

Lemma mapM_Ok_In {A B : Type} (f : A -> result B) (xs : list A) (ys : list B) (x : A) :
  mapM f xs = Ok ys -> In x xs -> exists y, f x = Ok y /\ In y ys.
Proof.
  revert ys; induction xs as [|a xs IH]; intros ys; simpl; [tauto|].
  intros H. do 2 inv_bind H. inversion H; subst ys.
  intros [->|Hin]; [exists x0; simpl; auto|].
  destruct (IH x1 Hx0 Hin) as (y' & Hy' & Hin'). exists y'. simpl. auto.
Qed.

Lemma fillna_lookup_missing (fill : option Q) (cells : list (option Q)) (i : nat) :
  cells !! i = Some None -> fillna fill cells !! i = Some fill.
Proof. intros H. unfold fillna. now rewrite lookup_map, H. Qed.

Lemma fillna_lookup_present (fill : option Q) (cells : list (option Q)) (i : nat) (v : Q) :
  cells !! i = Some (Some v) -> fillna fill cells !! i = Some (Some v).
Proof. intros H. unfold fillna. now rewrite lookup_map, H. Qed.

Lemma numeric_cols_NoDup (cs : list (string * column)) :
  List.NoDup (map fst cs) -> List.NoDup (numeric_cols cs).
Proof.
  unfold numeric_cols. induction cs as [|[n c] cs IH]; simpl; [constructor|].
  intros H. inversion H as [|? ? Hnotin Hnd]; subst.
  destruct (is_numeric_dtype c); simpl; [|now apply IH].
  constructor; [|now apply IH]. intros Hin. apply Hnotin.
  apply in_map_iff in Hin. destruct Hin as (nc & Heq & Hin).
  apply filter_In in Hin. apply in_map_iff. exists nc. tauto.
Qed.

Lemma select_cols_NoDup (cs : list (string * column)) :
  List.NoDup (map fst cs) -> List.NoDup (select_cols cs).
Proof.
  intros H. unfold select_cols. apply List.NoDup_filter. now apply numeric_cols_NoDup.
Qed.

Lemma impute_col_Ok (st st' : imputed) (col : string) :
  impute_col st col = Ok st' ->
  exists cells vcol,
    dict_get col (im_train st) = Some (NumCol cells) /\
    dict_get col (im_val st) = Some vcol /\
    st' = {| im_fill := <[col := median cells]> (im_fill st);
             im_train := dict_set col (NumCol (fillna (median cells) cells)) (im_train st);
             im_val := dict_set col (column_fillna (median cells) vcol) (im_val st) |}.
Proof.
  unfold impute_col.
  destruct (dict_get col (im_train st)) as [[cells|?]|]; try discriminate.
  destruct (dict_get col (im_val st)) as [vcol|]; [|discriminate].
  intros H. inversion H. eauto.
Qed.

(** The imputation loop over distinct columns: a processed column is filled
    with the median of the history column as it was, everything else is
    left alone. *)
Lemma impute_loop_spec (columns : list string) (st st' : imputed) :
  List.NoDup columns ->
  impute_loop st columns = Ok st' ->
  (forall c, ~ In c columns ->
     dict_get c (im_train st') = dict_get c (im_train st) /\
     dict_get c (im_val st') = dict_get c (im_val st) /\
     im_fill st' !! c = im_fill st !! c) /\
  (forall c, In c columns ->
     exists cells vcol,
       dict_get c (im_train st) = Some (NumCol cells) /\
       dict_get c (im_val st) = Some vcol /\
       dict_get c (im_train st') = Some (NumCol (fillna (median cells) cells)) /\
       dict_get c (im_val st') = Some (column_fillna (median cells) vcol) /\
       im_fill st' !! c = Some (median cells)).
Proof.
  intros Hnd. revert st. induction Hnd as [|c0 columns Hnotin Hnd IH]; intros st; simpl.
  - intros H. inversion H; subst. split; [auto | intros c []].
  - intros H. inv_bind H. apply impute_col_Ok in Hx.
    destruct Hx as (cells & vcol & Ht & Hv & ->).
    destruct (IH _ H) as [Hout Hin]. simpl in *. split.
    + intros c Hc. destruct (Hout c) as (H1 & H2 & H3); [tauto|].
      assert (c0 <> c) by tauto.
      rewrite H1, H2, H3, !dict_get_set_ne, lookup_insert_ne by assumption. auto.
    + intros c [->|Hc].
      * exists cells, vcol. destruct (Hout c Hnotin) as (H1 & H2 & H3).
        rewrite H1, H2, H3, !dict_get_set_eq, lookup_insert_eq. auto.
      * assert (c0 <> c) by (intros ->; contradiction).
        destruct (Hin c Hc) as (cells' & vcol' & H1 & H2 & H3 & H4 & H5).
        rewrite !dict_get_set_ne in H1, H2 by assumption.
        exists cells', vcol'. auto.
Qed.

Lemma values_float_numeric (n : nat) (cs : list (string * column)) (names : list string)
    (M : matrix) (c : string) :
  values_float n cs names = Ok M -> In c names ->
  exists cells, dict_get c cs = Some (NumCol cells).
Proof.
  unfold values_float. intros H Hin. inv_bind H.
  destruct (mapM_Ok_In _ _ _ c Hx Hin) as (cells & Hc & _).
  destruct (dict_get c cs) as [[cells'|?]|]; try discriminate. eauto.
Qed.

Lemma prepare_data_select_features (train val : DataFrame) :
  V4Tuned.prepare_data train val =
  bind (V4Stacked.select_features V4Stacked.init train val) (fun sel => Ok (as_prepared sel)).
Proof.
  unfold V4Tuned.prepare_data, V4Stacked.select_features. simpl.
  destruct (impute_loop _ _) as [st|e]; simpl; [|reflexivity].
  destruct (values_float (nrows train) _ _) as [Xt|e]; simpl; [|reflexivity].
  destruct (labels train) as [yt|e]; simpl; [|reflexivity].
  destruct (values_float (nrows val) _ _) as [Xv|e]; simpl; [|reflexivity].
  destruct (labels val) as [yv|e]; simpl; reflexivity.
Qed.

Example median_odd : median [Some 3; None; Some 1; Some 2]%Q = Some 2%Q.
Proof. reflexivity. Qed.

Example median_even : median [Some 4; Some 1; None; Some 2; Some 3]%Q = Some (5 # 2)%Q.
Proof. reflexivity. Qed.

Example median_all_missing : median [None; None] = None.
Proof. reflexivity. Qed.

Example select_cols_history5 : select_cols (cols history5) = ["home_elo"; "away_elo"].
Proof. reflexivity. Qed.

(** C8.  For every selected feature column the fill value is the median of
    the history column; after loading, a cell that was missing in that
    column, in the history or in the future frame, holds exactly that
    value and the other cells are unchanged; the fill table does not
    depend on the future frame; [prepare_data] does the same. *)
Theorem imputation_from_history (self : V4Stacked.trainer) (train val : DataFrame)
    (sel : V4Stacked.selected) :
  List.NoDup (map fst (cols train)) ->
  V4Stacked.select_features self train val = Ok sel ->
  (forall c, In c (V4Stacked.feature_cols (V4Stacked.sel_self sel)) ->
     exists cells vcells cells' vcells',
       dict_get c (cols train) = Some (NumCol cells) /\
       dict_get c (cols val) = Some (NumCol vcells) /\
       V4Stacked.fill_values (V4Stacked.sel_self sel) !! c = Some (median cells) /\
       dict_get c (cols (V4Stacked.sel_train_df sel)) = Some (NumCol cells') /\
       dict_get c (cols (V4Stacked.sel_val_df sel)) = Some (NumCol vcells') /\
       (forall i, cells !! i = Some None -> cells' !! i = Some (median cells)) /\
       (forall i v, cells !! i = Some (Some v) -> cells' !! i = Some (Some v)) /\
       (forall i, vcells !! i = Some None -> vcells' !! i = Some (median cells)) /\
       (forall i v, vcells !! i = Some (Some v) -> vcells' !! i = Some (Some v))) /\
  (forall val2 sel2, V4Stacked.select_features self train val2 = Ok sel2 ->
     V4Stacked.fill_values (V4Stacked.sel_self sel2) =
     V4Stacked.fill_values (V4Stacked.sel_self sel)) /\
  (self = V4Stacked.init -> V4Tuned.prepare_data train val = Ok (as_prepared sel)).
Proof.
  intros Hnd Hsel. pose proof Hsel as Hsel0.
  unfold V4Stacked.select_features in Hsel.
  bind_inv Hsel as st Hloop. bind_inv Hsel as Xt HXt. bind_inv Hsel as yt Hyt.
  bind_inv Hsel as Xv Hval. bind_inv Hsel as yv Hyv.
  inversion Hsel; subst sel; clear Hsel. simpl.
  pose proof (select_cols_NoDup _ Hnd) as Hnd'.
  destruct (impute_loop_spec _ _ _ Hnd' Hloop) as [Hout Hin]. simpl in *.
  split; [|split].
  - intros c Hc. destruct (Hin c Hc) as (cells & vcol & H1 & H2 & H3 & H4 & H5).
    destruct (values_float_numeric _ _ _ _ c Hval Hc) as (vcells' & Hv').
    rewrite H4 in Hv'. destruct vcol as [vcells|?]; simpl in Hv'; [|discriminate].
    inversion Hv'; subst vcells'.
    exists cells, vcells, (fillna (median cells) cells), (fillna (median cells) vcells).
    repeat split; auto using fillna_lookup_missing, fillna_lookup_present.
  - intros val2 sel2 Hsel2. unfold V4Stacked.select_features in Hsel2.
    bind_inv Hsel2 as st2 Hloop2.
    do 4 inv_bind Hsel2. inversion Hsel2; subst sel2; clear Hsel2. simpl.
    destruct (impute_loop_spec _ _ _ Hnd' Hloop2) as [Hout2 Hin2]. simpl in *.
    apply map_eq. intros c.
    destruct (in_dec string_dec c (select_cols (cols train))) as [Hc|Hc].
    + destruct (Hin c Hc) as (cells & ? & H1 & _ & _ & _ & H5).
      destruct (Hin2 c Hc) as (cells2 & ? & H1' & _ & _ & _ & H5').
      rewrite H5, H5'. congruence.
    + destruct (Hout c Hc) as (_ & _ & H3). destruct (Hout2 c Hc) as (_ & _ & H3').
      congruence.
  - intros ->. rewrite prepare_data_select_features, Hsel0. reflexivity.
Qed.

Lemma imputation_from_history_witness :
  exists sel,
    V4Stacked.select_features V4Stacked.init history5 future1 = Ok sel /\
    (forall c, In c (V4Stacked.feature_cols (V4Stacked.sel_self sel)) ->
       exists cells vcells cells' vcells',
         dict_get c (cols history5) = Some (NumCol cells) /\
         dict_get c (cols future1) = Some (NumCol vcells) /\
         V4Stacked.fill_values (V4Stacked.sel_self sel) !! c = Some (median cells) /\
         dict_get c (cols (V4Stacked.sel_train_df sel)) = Some (NumCol cells') /\
         dict_get c (cols (V4Stacked.sel_val_df sel)) = Some (NumCol vcells') /\
         (forall i, cells !! i = Some None -> cells' !! i = Some (median cells)) /\
         (forall i v, cells !! i = Some (Some v) -> cells' !! i = Some (Some v)) /\
         (forall i, vcells !! i = Some None -> vcells' !! i = Some (median cells)) /\
         (forall i v, vcells !! i = Some (Some v) -> vcells' !! i = Some (Some v))) /\
    (forall val2 sel2, V4Stacked.select_features V4Stacked.init history5 val2 = Ok sel2 ->
       V4Stacked.fill_values (V4Stacked.sel_self sel2) =
       V4Stacked.fill_values (V4Stacked.sel_self sel)) /\
    (V4Stacked.init = V4Stacked.init ->
     V4Tuned.prepare_data history5 future1 = Ok (as_prepared sel)).
Proof.
  destruct (V4Stacked.select_features V4Stacked.init history5 future1) as [sel|e] eqn:E.
  - exists sel. split; [reflexivity|].
    apply (imputation_from_history V4Stacked.init history5 future1 sel).
    + simpl. repeat constructor; simpl; intuition discriminate.
    + exact E.
  - exfalso. vm_compute in E. discriminate.
Defined.

Lemma mapM_Raise {A B : Type} (f : A -> result B) (xs : list A) (e : exn) :
  mapM f xs = Raise e -> exists x, In x xs /\ f x = Raise e.
Proof.
  induction xs as [|a xs IH]; simpl; [discriminate|].
  destruct (f a) as [y|e'] eqn:Ha; simpl.
  - destruct (mapM f xs) as [ys|e'']; simpl; [discriminate|].
    intros H. inversion H; subst. destruct (IH eq_refl) as (x & Hx & Hfx). eauto.
  - intros H. inversion H; subst. eauto.
Qed.

Lemma impute_loop_raises (columns : list string) (st : imputed) (e : exn) :
  impute_loop st columns = Raise e -> e <> SchemaError.
Proof.
  revert st; induction columns as [|c columns IH]; intros st; simpl; [discriminate|].
  destruct (impute_col st c) as [st'|e'] eqn:Hc; simpl; [apply IH|].
  intros H. inversion H; subst e'. unfold impute_col in Hc.
  destruct (dict_get c (im_train st)) as [[?|?]|]; try (inversion Hc; discriminate).
  destruct (dict_get c (im_val st)); inversion Hc; discriminate.
Qed.

Lemma values_float_raises (n : nat) (cs : list (string * column)) (names : list string)
    (e : exn) :
  values_float n cs names = Raise e -> e <> SchemaError.
Proof.
  unfold values_float. destruct (mapM _ names) as [M|e'] eqn:Hm; simpl; [discriminate|].
  intros H. inversion H; subst e'. apply mapM_Raise in Hm.
  destruct Hm as (c & _ & Hc).
  destruct (dict_get c cs) as [[?|?]|]; inversion Hc; discriminate.
Qed.

Lemma select_features_raises (self : V4Stacked.trainer) (train val : DataFrame) (e : exn) :
  V4Stacked.select_features self train val = Raise e -> e <> SchemaError.
Proof.
  unfold V4Stacked.select_features.
  destruct (impute_loop _ _) as [st|e1] eqn:H1; simpl.
  2:{ intros H. inversion H; subst. eapply impute_loop_raises; eauto. }
  destruct (values_float (nrows train) _ _) as [Xt|e2] eqn:H2; simpl.
  2:{ intros H. inversion H; subst. eapply values_float_raises; eauto. }
  unfold labels.
  destruct (home_won train); simpl; [|intros H; inversion H; discriminate].
  destruct (values_float (nrows val) _ _) as [Xv|e3] eqn:H3; simpl.
  2:{ intros H. inversion H; subst. eapply values_float_raises; eauto. }
  destruct (home_won val); simpl; [discriminate | intros H; inversion H; discriminate].
Qed.

Lemma values_float_no_columns (n : nat) (cs : list (string * column)) :
  values_float n cs [] = Ok (replicate n []).
Proof.
  unfold values_float. simpl. f_equal.
  generalize 0%nat. induction n as [|n IH]; intros k; simpl; [reflexivity|].
  f_equal. apply IH.
Qed.

(** C6, as the specification states it, fails: a history frame without any
    usable feature column is loaded without a SchemaError. *)
Lemma loader_schema_error_counterexample :
  select_cols (cols bare_history) = [] /\
  V4Stacked.select_features V4Stacked.init bare_history bare_future <> Raise SchemaError /\
  V4Tuned.prepare_data bare_history bare_future <> Raise SchemaError /\
  exists sel,
    V4Stacked.select_features V4Stacked.init bare_history bare_future = Ok sel /\
    V4Stacked.feature_cols (V4Stacked.sel_self sel) = [].
Proof.
  split; [reflexivity|]. split; [vm_compute; discriminate|].
  split; [vm_compute; discriminate|].
  eexists. split; [vm_compute; reflexivity | reflexivity].
Qed.

(** C6, amended.  When no usable feature column remains the loader raises no
    SchemaError (it never raises one): with the label column in both frames
    it returns an empty feature list, the fill table it started with and
    feature matrices without columns, and fold generation sees the history
    frame's years unchanged; the only possible failure is the KeyError of a
    missing label column. *)
Theorem loader_without_features (self : V4Stacked.trainer) (train val : DataFrame) :
  select_cols (cols train) = [] ->
  (forall e, V4Stacked.select_features self train val = Raise e ->
     e = KeyError "home_won") /\
  (forall e, V4Tuned.prepare_data train val = Raise e -> e = KeyError "home_won") /\
  (forall yt yv, home_won train = Some yt -> home_won val = Some yv ->
     exists sel,
       V4Stacked.select_features self train val = Ok sel /\
       V4Tuned.prepare_data train val =
         Ok (as_prepared {| V4Stacked.sel_self :=
                              {| V4Stacked.feature_cols := [];
                                 V4Stacked.fill_values := ∅ |};
                            V4Stacked.sel_train_df := V4Stacked.sel_train_df sel;
                            V4Stacked.sel_val_df := V4Stacked.sel_val_df sel;
                            V4Stacked.X_train := V4Stacked.X_train sel;
                            V4Stacked.y_train := V4Stacked.y_train sel;
                            V4Stacked.X_val := V4Stacked.X_val sel;
                            V4Stacked.y_val := V4Stacked.y_val sel |}) /\
       V4Stacked.feature_cols (V4Stacked.sel_self sel) = [] /\
       V4Stacked.fill_values (V4Stacked.sel_self sel) = V4Stacked.fill_values self /\
       V4Stacked.X_train sel = replicate (nrows train) [] /\
       V4Stacked.X_val sel = replicate (nrows val) [] /\
       V4Stacked.y_train sel = yt /\ V4Stacked.y_val sel = yv /\
       cols (V4Stacked.sel_train_df sel) = cols train /\
       V4Stacked.time_folds (V4Stacked.sel_train_df sel) = V4Stacked.time_folds train).
Proof.
  intros Hnone.
  assert (Hsf : forall self0,
            V4Stacked.select_features self0 train val =
            bind (labels train) (fun yt => bind (labels val) (fun yv =>
              Ok {| V4Stacked.sel_self :=
                      {| V4Stacked.feature_cols := [];
                         V4Stacked.fill_values := V4Stacked.fill_values self0 |};
                    V4Stacked.sel_train_df :=
                      {| nrows := nrows train; year := year train;
                         home_won := home_won train; cols := cols train |};
                    V4Stacked.sel_val_df :=
                      {| nrows := nrows val; year := year val;
                         home_won := home_won val; cols := cols val |};
                    V4Stacked.X_train := replicate (nrows train) [];
                    V4Stacked.y_train := yt;
                    V4Stacked.X_val := replicate (nrows val) [];
                    V4Stacked.y_val := yv |}))).
  { intros self0. unfold V4Stacked.select_features. rewrite Hnone.
    cbn [impute_loop bind]. rewrite !values_float_no_columns. reflexivity. }
  split; [|split].
  - intros e. rewrite Hsf. unfold labels.
    destruct (home_won train); simpl; [|congruence].
    destruct (home_won val); simpl; [discriminate | congruence].
  - intros e. rewrite prepare_data_select_features, Hsf. unfold labels.
    destruct (home_won train); simpl; [|congruence].
    destruct (home_won val); simpl; [discriminate | congruence].
  - intros yt yv Ht Hv. eexists. split.
    + rewrite Hsf. unfold labels. rewrite Ht, Hv. simpl. reflexivity.
    + simpl. split.
      * rewrite prepare_data_select_features, Hsf. unfold labels.
        rewrite Ht, Hv. simpl. reflexivity.
      * repeat split; reflexivity.
Qed.

Lemma loader_without_features_witness :
  (forall e, V4Stacked.select_features V4Stacked.init bare_history bare_future = Raise e ->
     e = KeyError "home_won") /\
  (forall e, V4Tuned.prepare_data bare_history bare_future = Raise e ->
     e = KeyError "home_won") /\
  (forall yt yv, home_won bare_history = Some yt -> home_won bare_future = Some yv ->
     exists sel,
       V4Stacked.select_features V4Stacked.init bare_history bare_future = Ok sel /\
       V4Tuned.prepare_data bare_history bare_future =
         Ok (as_prepared {| V4Stacked.sel_self :=
                              {| V4Stacked.feature_cols := [];
                                 V4Stacked.fill_values := ∅ |};
                            V4Stacked.sel_train_df := V4Stacked.sel_train_df sel;
                            V4Stacked.sel_val_df := V4Stacked.sel_val_df sel;
                            V4Stacked.X_train := V4Stacked.X_train sel;
                            V4Stacked.y_train := V4Stacked.y_train sel;
                            V4Stacked.X_val := V4Stacked.X_val sel;
                            V4Stacked.y_val := V4Stacked.y_val sel |}) /\
       V4Stacked.feature_cols (V4Stacked.sel_self sel) = [] /\
       V4Stacked.fill_values (V4Stacked.sel_self sel) =
         V4Stacked.fill_values V4Stacked.init /\
       V4Stacked.X_train sel = replicate (nrows bare_history) [] /\
       V4Stacked.X_val sel = replicate (nrows bare_future) [] /\
       V4Stacked.y_train sel = yt /\ V4Stacked.y_val sel = yv /\
       cols (V4Stacked.sel_train_df sel) = cols bare_history /\
       V4Stacked.time_folds (V4Stacked.sel_train_df sel) =
         V4Stacked.time_folds bare_history).
Proof.
  apply (loader_without_features V4Stacked.init bare_history bare_future).
  reflexivity.
Defined.

(* ===================================================================== *)
(** ** The Stacking Meta-Learner                                          *)
(* ===================================================================== *)

Lemma mapM_Forall2 {A B : Type} (f : A -> result B) (xs : list A) (ys : list B) :
  mapM f xs = Ok ys -> Forall2 (fun x y => f x = Ok y) xs ys.
Proof.
  revert ys; induction xs as [|a xs IH]; intros ys; simpl.
  - intros H. inversion H. constructor.
  - intros H. bind_inv H as y0 Hy0. bind_inv H as ys0 Hys0. inversion H; subst ys.
    constructor; auto.
Qed.

Lemma mask_select_self {A : Type} (p : A -> bool) (l : list A) :
  mask_select l (map p l) = Ok (List.filter p l).
Proof.
  unfold mask_select. rewrite length_map, Nat.eqb_refl. f_equal.
  induction l as [|a l IH]; simpl; [reflexivity|].
  destruct (p a); simpl; now rewrite IH.
Qed.

Lemma mask_select_along {A B : Type} (p : A -> bool) (l : list A) (ys ys' : list B) :
  mask_select ys (map p l) = Ok ys' ->
  length ys = length l /\
  ys' = map snd (List.filter (fun ry => p ry.1) (combine l ys)).
Proof.
  unfold mask_select. rewrite length_map.
  destruct (length ys =? length l)%nat eqn:E; [|discriminate].
  apply Nat.eqb_eq in E. intros H. inversion H; subst ys'; clear H.
  split; [exact E|]. revert ys E.
  induction l as [|a l IH]; intros [|y ys] E; simpl in *; try discriminate; auto.
  destruct (p a); simpl; f_equal; apply IH; lia.
Qed.

Lemma column_stack_rows {A : Type} (columns : list (list A)) (M : list (list A)) :
  column_stack columns = Ok M ->
  (forall c, In c columns -> length c = length M) /\
  (forall i r, M !! i = Some r -> Forall2 (fun c x => c !! i = Some x) columns r).
Proof.
  unfold column_stack. destruct columns as [|c0 columns]; [discriminate|].
  destruct (forallb _ _) eqn:E; [|discriminate].
  intros H. inversion H; subst M; clear H.
  rewrite forallb_forall in E.
  assert (Hlen : forall c, In c (c0 :: columns) -> length c = length c0).
  { intros c Hc. apply Nat.eqb_eq. now apply E. }
  split.
  - intros c Hc. rewrite length_map, length_seq. now apply Hlen.
  - intros i r Hr. rewrite lookup_map in Hr.
    destruct (seq 0 (length c0) !! i) as [j|] eqn:Hj; [|discriminate].
    apply lookup_seq in Hj. destruct Hj as [-> Hi]. simpl in Hr.
    inversion Hr; subst r; clear Hr E.
    assert (Hgen : forall cs : list (list A),
              (forall c, In c cs -> length c = length c0) ->
              Forall2 (fun c x => c !! i = Some x) cs (omap (fun c => c !! i) cs)).
    { induction cs as [|c cs IH]; intros Hcs; [constructor|].
      assert (Hc : is_Some (c !! i)).
      { apply lookup_lt_is_Some. rewrite (Hcs c); [exact Hi | now left]. }
      destruct Hc as [x Hx]. cbn [omap list_omap]. rewrite Hx.
      constructor; [exact Hx|]. apply IH. intros c' Hc'. apply Hcs. now right. }
    now apply Hgen.
Qed.

Lemma filled_spec (r : row) : filled r = true <-> Forall (fun c => is_Some c) r.
Proof.
  unfold filled. rewrite forallb_forall, List.Forall_forall. split.
  - intros H c Hc. specialize (H c Hc). now apply bool_decide_eq_true in H.
  - intros H c Hc. apply bool_decide_eq_true. now apply H.
Qed.

Section StackingFacts.
Context {fitted : Type}.
Variable fit : learner -> matrix -> list Z -> result fitted.
Variable predict_proba : fitted -> matrix -> result (list Q).
Variable roc_auc_score : list Z -> list Q -> result (option Q).
Variable skf_split :
  nat -> bool -> Z -> matrix -> list Z -> result (list (list nat * list nat)).

Local Abbreviation model_obj := (V4Stacked.model_obj fitted).
Local Abbreviation spec := (V4Stacked.spec fitted).
Local Abbreviation state := (V4Stacked.state fitted).

(** The meta-learner's training set: the rows of the out-of-fold matrix
    (columns by sorted name) that have no NaN, with their labels. *)
Lemma meta_training_set_spec (oof : list (string * list (option Q))) (y : list Z)
    (X_meta : matrix) (y_meta : list Z) :
  V4Stacked.meta_training_set oof y = Ok (X_meta, y_meta) ->
  exists M : matrix,
    length M = length y /\
    (forall i r, M !! i = Some r -> oof_row oof (sorted String.leb (map fst oof)) i r) /\
    X_meta = List.filter filled M /\
    y_meta = map snd (List.filter (fun ry => filled ry.1) (combine M y)).
Proof.
  unfold V4Stacked.meta_training_set. intros H.
  bind_inv H as columns Hcols. bind_inv H as M HM.
  change (map (forallb (fun c : option Q => bool_decide (is_Some c))) M)
    with (map filled M) in H.
  rewrite mask_select_self in H. simpl in H.
  bind_inv H as ym Hym. inversion H; subst X_meta y_meta; clear H.
  apply mask_select_along in Hym. destruct Hym as [Hlen ->].
  exists M. split; [congruence|]. split; [|split; reflexivity].
  intros i r Hr. apply column_stack_rows in HM. destruct HM as [_ HM].
  specialize (HM i r Hr). apply mapM_Forall2 in Hcols. unfold oof_row.
  clear Hr Hlen. revert r HM.
  induction Hcols as [|name arr names columns Hget _ IH]; intros r HM;
    inversion HM; subst; constructor.
  - destruct (dict_get name oof) as [arr'|]; [|discriminate].
    inversion Hget; subst. eauto.
  - now apply IH.
Qed.

Lemma refit_all_get (ms ms' : list (string * model_obj)) (X : matrix) (y : list Z) :
  V4Stacked.refit_all fitted fit ms X y = Ok ms' ->
  forall n m', dict_get n ms' = Some m' ->
    exists m f, dict_get n ms = Some m /\ fit (spec m) X y = Ok f /\
                m' = {| V4Stacked.spec := spec m; V4Stacked.state := Some f |}.
Proof.
  unfold V4Stacked.refit_all. revert ms'.
  induction ms as [|[n0 m0] ms IH]; intros ms'; simpl.
  - intros H. inversion H; subst. discriminate.
  - intros H. bind_inv H as nm Hnm. bind_inv H as rest Hrest. inversion H; subst ms'.
    unfold V4Stacked.model_fit in Hnm. bind_inv Hnm as m1 Hm1. bind_inv Hm1 as f Hf.
    inversion Hm1; subst m1. inversion Hnm; subst nm. clear Hm1 Hnm H.
    intros n m'. unfold dict_get. simpl.
    destruct (String.eqb n0 n); simpl.
    + intros H. inversion H; subst m'. exists m0, f. auto.
    + apply (IH rest Hrest).
Qed.

Lemma stacked_inputs_spec (ms : list (string * model_obj)) (order : list string)
    (X_v : matrix) (val_matrix : matrix) :
  V4Stacked.stacked_inputs fitted predict_proba ms order X_v = Ok val_matrix ->
  exists columns : list (list Q),
    Forall2 (fun name probs =>
               exists m, dict_get name ms = Some m /\
                         V4Stacked.model_predict_proba fitted predict_proba m X_v = Ok probs)
            order columns /\
    Forall (fun probs => length probs = length val_matrix) columns /\
    (forall k r, val_matrix !! k = Some r ->
       Forall2 (fun probs c => exists p, probs !! k = Some p /\ c = Some p) columns r).
Proof.
  unfold V4Stacked.stacked_inputs. intros H.
  bind_inv H as columns Hcols. bind_inv H as rows Hrows. inversion H; subst val_matrix.
  exists columns. split; [|split].
  - apply mapM_Forall2 in Hcols. eapply Forall2_impl; [exact Hcols|].
    intros name probs Hn. simpl in Hn.
    destruct (dict_get name ms) as [m|]; [eauto | discriminate].
  - apply column_stack_rows in Hrows. destruct Hrows as [Hlen _].
    apply List.Forall_forall. intros probs Hin. rewrite List.length_map. now apply Hlen.
  - intros k r Hr. rewrite lookup_map in Hr.
    destruct (rows !! k) as [r0|] eqn:Hr0; [|discriminate].
    inversion Hr; subst r; clear Hr.
    apply column_stack_rows in Hrows. destruct Hrows as [_ Hrows].
    specialize (Hrows k r0 Hr0). clear Hr0 Hcols.
    induction Hrows; simpl; constructor; eauto.
Qed.
End StackingFacts.

Section RunFacts.
Context {fitted : Type}.
Variable fit : learner -> matrix -> list Z -> result fitted.
Variable predict_proba : fitted -> matrix -> result (list Q).
Variable roc_auc_score : list Z -> list Q -> result (option Q).
Variable skf_split :
  nat -> bool -> Z -> matrix -> list Z -> result (list (list nat * list nat)).

(** Whatever the fold strategy, the out-of-fold pass keeps the model names
    and the models' descriptions. *)
Lemma get_oof_predictions_models X y df base_models (st : V4Stacked.oof_state fitted) :
  V4Stacked.get_oof_predictions fitted fit predict_proba roc_auc_score skf_split
    X y df base_models = Ok st ->
  map fst (V4Stacked.oof_preds fitted st) = map fst base_models /\
  forall n m', dict_get n (V4Stacked.models fitted st) = Some m' ->
    exists m, dict_get n base_models = Some m /\
              V4Stacked.spec fitted m' = V4Stacked.spec fitted m.
Proof.
  unfold V4Stacked.get_oof_predictions. intros H. bind_inv H as folds Hfolds.
  apply oof_fold_loop_frame in H. destruct H as [(Hk & _ & Hs & _) _]. simpl in *.
  split; [|exact Hs].
  rewrite Hk. clear. induction base_models as [|nm l IH]; simpl in *; [reflexivity|].
  f_equal. exact IH.
Qed.
End RunFacts.

(** C9.  In [run], the meta-learner is fit on the out-of-fold matrix with
    its columns in the order of the sorted base-learner names, restricted
    to the rows without NaN; the same order is recorded in the artifact, and
    the holdout input is the matrix that has one column per name in that
    order, holding the probabilities predicted by the base learner as refit
    on the whole history: it has as many rows as each of these columns has
    probabilities, and its row [k] is made of their [k]-th entries.  The
    stacked metrics of the artifact are those of the meta-learner's
    probabilities on that input. *)
Theorem stacking_column_order {fitted : Type}
    (fit : learner -> matrix -> list Z -> result fitted)
    (predict_proba : fitted -> matrix -> result (list Q))
    (roc_auc_score : list Z -> list Q -> result (option Q))
    (skf_split : nat -> bool -> Z -> matrix -> list Z -> result (list (list nat * list nat)))
    (self : V4Stacked.trainer) (train val : DataFrame) (art : V4Stacked.artifact fitted) :
  V4Stacked.run fitted fit predict_proba roc_auc_score skf_split self train val = Ok art ->
  exists (sel : V4Stacked.selected) (oof : V4Stacked.oof_state fitted)
         (M X_meta : matrix) (y_meta : list Z) (columns : list (list Q))
         (val_matrix : matrix) (stacked_probs : list Q) (stacked_auc : option Q),
    V4Stacked.select_features self train val = Ok sel /\
    V4Stacked.get_oof_predictions fitted fit predict_proba roc_auc_score skf_split
      (V4Stacked.X_train sel) (V4Stacked.y_train sel) (V4Stacked.sel_train_df sel)
      (V4Stacked.build_base_models fitted) = Ok oof /\
    V4Stacked.art_meta_order fitted art =
      sorted String.leb (map fst (V4Stacked.build_base_models fitted)) /\
    V4Stacked.art_meta_order fitted art = ["lgbm"; "lr"; "xgb"] /\
    length M = length (V4Stacked.y_train sel) /\
    (forall i r, M !! i = Some r ->
       oof_row (V4Stacked.oof_preds fitted oof) (V4Stacked.art_meta_order fitted art) i r) /\
    X_meta = List.filter filled M /\
    y_meta = map snd (List.filter (fun ry => filled ry.1)
                                  (combine M (V4Stacked.y_train sel))) /\
    fit V4Stacked.meta_learner X_meta y_meta = Ok (V4Stacked.art_meta_model fitted art) /\
    Forall2 (fun name probs =>
               exists m0 f,
                 dict_get name (V4Stacked.build_base_models fitted) = Some m0 /\
                 fit (V4Stacked.spec fitted m0) (V4Stacked.X_train sel)
                     (V4Stacked.y_train sel) = Ok f /\
                 dict_get name (V4Stacked.art_base_models fitted art) =
                   Some {| V4Stacked.spec := V4Stacked.spec fitted m0;
                           V4Stacked.state := Some f |} /\
                 predict_proba f (V4Stacked.X_val sel) = Ok probs)
            (V4Stacked.art_meta_order fitted art) columns /\
    V4Stacked.stacked_inputs fitted predict_proba (V4Stacked.art_base_models fitted art)
      (V4Stacked.art_meta_order fitted art) (V4Stacked.X_val sel) = Ok val_matrix /\
    Forall (fun probs => length probs = length val_matrix) columns /\
    (forall k r, val_matrix !! k = Some r ->
       Forall2 (fun probs c => exists p, probs !! k = Some p /\ c = Some p) columns r) /\
    predict_proba (V4Stacked.art_meta_model fitted art) val_matrix = Ok stacked_probs /\
    roc_auc_score (V4Stacked.y_val sel) stacked_probs = Ok stacked_auc /\
    V4Stacked.stacked (V4Stacked.art_metrics fitted art) =
      (V4Stacked.accuracy_score (V4Stacked.y_val sel) stacked_probs, stacked_auc).
Proof.
  unfold V4Stacked.run. intros H.
  bind_inv H as sel Hsel. bind_inv H as oof Hoof. bind_inv H as mm Hmm.
  bind_inv H as refit Hrefit. bind_inv H as base_metrics Hbm.
  bind_inv H as val_matrix Hvm. bind_inv H as stacked_probs Hsp.
  bind_inv H as stacked_auc Hauc. bind_inv H as vy Hvy.
  inversion H; subst art; clear H. simpl.
  unfold V4Stacked.train_meta_model in Hmm.
  bind_inv Hmm as Xy Hset. bind_inv Hmm as meta Hmeta. inversion Hmm; subst mm; clear Hmm.
  destruct Xy as [X_meta y_meta]. simpl in *.
  destruct (get_oof_predictions_models _ _ _ _ _ _ _ _ _ Hoof) as [Hkeys Hspecs].
  apply meta_training_set_spec in Hset.
  destruct Hset as (M & Hlen & Hrows & HX & Hy).
  pose proof Hvm as Hvm0.
  apply stacked_inputs_spec in Hvm. destruct Hvm as (columns & Hcols & Hvlen & Hvrows).
  exists sel, oof, M, X_meta, y_meta, columns, val_matrix, stacked_probs, stacked_auc.
  rewrite Hkeys in *.
  repeat (split; [assumption || reflexivity|]).
  split; [|repeat (split; [assumption|]); reflexivity].
  eapply Forall2_impl; [exact Hcols|]. simpl.
  intros name probs (m' & Hget & Hpred).
  destruct (refit_all_get fit _ _ _ _ Hrefit name m' Hget) as (m1 & f & Hg1 & Hfit & ->).
  destruct (Hspecs name m1 Hg1) as (m0 & Hg0 & Hspec).
  exists m0, f. rewrite <- Hspec. repeat split; auto.
Qed.

Lemma stacking_column_order_witness :
  exists (art : V4Stacked.artifact nat),
    V4Stacked.run nat toy_fit toy_predict_proba toy_roc_auc_score toy_skf_split
      V4Stacked.init history5 future1 = Ok art /\
    exists (sel : V4Stacked.selected) (oof : V4Stacked.oof_state nat)
           (M X_meta : matrix) (y_meta : list Z) (columns : list (list Q))
           (val_matrix : matrix) (stacked_probs : list Q) (stacked_auc : option Q),
      V4Stacked.select_features V4Stacked.init history5 future1 = Ok sel /\
      V4Stacked.get_oof_predictions nat toy_fit toy_predict_proba toy_roc_auc_score
        toy_skf_split (V4Stacked.X_train sel) (V4Stacked.y_train sel)
        (V4Stacked.sel_train_df sel) (V4Stacked.build_base_models nat) = Ok oof /\
      V4Stacked.art_meta_order nat art =
        sorted String.leb (map fst (V4Stacked.build_base_models nat)) /\
      V4Stacked.art_meta_order nat art = ["lgbm"; "lr"; "xgb"] /\
      length M = length (V4Stacked.y_train sel) /\
      (forall i r, M !! i = Some r ->
         oof_row (V4Stacked.oof_preds nat oof) (V4Stacked.art_meta_order nat art) i r) /\
      X_meta = List.filter filled M /\
      y_meta = map snd (List.filter (fun ry => filled ry.1)
                                    (combine M (V4Stacked.y_train sel))) /\
      toy_fit V4Stacked.meta_learner X_meta y_meta = Ok (V4Stacked.art_meta_model nat art) /\
      Forall2 (fun name probs =>
                 exists m0 f,
                   dict_get name (V4Stacked.build_base_models nat) = Some m0 /\
                   toy_fit (V4Stacked.spec nat m0) (V4Stacked.X_train sel)
                           (V4Stacked.y_train sel) = Ok f /\
                   dict_get name (V4Stacked.art_base_models nat art) =
                     Some {| V4Stacked.spec := V4Stacked.spec nat m0;
                             V4Stacked.state := Some f |} /\
                   toy_predict_proba f (V4Stacked.X_val sel) = Ok probs)
              (V4Stacked.art_meta_order nat art) columns /\
      V4Stacked.stacked_inputs nat toy_predict_proba (V4Stacked.art_base_models nat art)
        (V4Stacked.art_meta_order nat art) (V4Stacked.X_val sel) = Ok val_matrix /\
      Forall (fun probs => length probs = length val_matrix) columns /\
      (forall k r, val_matrix !! k = Some r ->
         Forall2 (fun probs c => exists p, probs !! k = Some p /\ c = Some p) columns r) /\
      toy_predict_proba (V4Stacked.art_meta_model nat art) val_matrix = Ok stacked_probs /\
      toy_roc_auc_score (V4Stacked.y_val sel) stacked_probs = Ok stacked_auc /\
      V4Stacked.stacked (V4Stacked.art_metrics nat art) =
        (V4Stacked.accuracy_score (V4Stacked.y_val sel) stacked_probs, stacked_auc).
Proof.
  destruct (V4Stacked.run nat toy_fit toy_predict_proba toy_roc_auc_score toy_skf_split
              V4Stacked.init history5 future1) as [art|e] eqn:E.
  - exists art. split; [reflexivity|].
    now apply (stacking_column_order toy_fit toy_predict_proba toy_roc_auc_score
                 toy_skf_split V4Stacked.init history5 future1 art).
  - exfalso. vm_compute in E. discriminate.
Defined.

Lemma values_float_length (n : nat) (cs : list (string * column)) (names : list string)
    (M : matrix) :
  values_float n cs names = Ok M -> length M = n.
Proof.
  unfold values_float. intros H. bind_inv H as columns Hc. inversion H; subst M.
  now rewrite length_map, length_seq.
Qed.



(* ===================================================================== *)
(** ** The Hyperparameter Tuner                                           *)
(* ===================================================================== *)

Section TunerFacts.
Context {sampler_state : Type}.
Variable suggest :
  sampler_state -> list V4Tuned.frozen_trial -> string -> V4Tuned.distribution ->
  pvalue * sampler_state.
Variable space : list (string * V4Tuned.distribution).
Variable objective : list (string * pvalue) -> result (option Q).

Local Abbreviation optimize := (V4Tuned.optimize sampler_state suggest space objective).
Local Abbreviation suggest_all := (V4Tuned.suggest_all sampler_state suggest space).

Lemma optimize_trial_log (n : nat) (st : sampler_state) (finished : list V4Tuned.frozen_trial) :
  optimize n st finished = study_of_log finished (trial_log suggest space objective n st finished).
Proof.
  revert st finished; induction n as [|n IH]; intros st finished; simpl; [reflexivity|].
  destruct (suggest_all st finished) as [ps st'].
  destruct (objective ps) as [v|e]; simpl; [apply IH | reflexivity].
Qed.

Lemma study_of_log_raises (finished : list V4Tuned.frozen_trial)
    (log : list (list (string * pvalue) * result (option Q)))
    (ps : list (string * pvalue)) (e : exn) :
  In (ps, Raise e) log ->
  (forall ps' e', In (ps', Raise e') log -> e' = e) ->
  study_of_log finished log = Raise e.
Proof.
  revert finished; induction log as [|[ps0 [v|e0]] log IH]; intros finished Hin Huniq.
  - destruct Hin.
  - simpl. apply IH.
    + destruct Hin as [Heq|Hin]; [discriminate | exact Hin].
    + intros ps' e' H. apply (Huniq ps' e'). now right.
  - simpl. f_equal. apply (Huniq ps0 e0). now left.
Qed.

Lemma trial_log_one_raise (n : nat) (st : sampler_state)
    (finished : list V4Tuned.frozen_trial) (ps ps' : list (string * pvalue)) (e e' : exn) :
  In (ps, Raise e) (trial_log suggest space objective n st finished) ->
  In (ps', Raise e') (trial_log suggest space objective n st finished) -> e' = e.
Proof.
  revert st finished; induction n as [|n IH]; intros st finished; simpl; [tauto|].
  destruct (suggest_all st finished) as [ps0 st'].
  destruct (objective ps0) as [v|e0]; simpl.
  - intros [H|H] [H'|H']; try discriminate. eapply IH; eauto.
  - intros [H|[]] [H'|[]]. congruence.
Qed.

Lemma trial_log_objective (n : nat) (st : sampler_state)
    (finished : list V4Tuned.frozen_trial) (ps : list (string * pvalue))
    (r : result (option Q)) :
  In (ps, r) (trial_log suggest space objective n st finished) -> objective ps = r.
Proof.
  revert st finished; induction n as [|n IH]; intros st finished; simpl; [tauto|].
  destruct (suggest_all st finished) as [ps0 st'].
  destruct (objective ps0) as [v|e0] eqn:E; simpl.
  - intros [H|H]; [congruence | eapply IH; eauto].
  - intros [H|[]]. congruence.
Qed.

Lemma trial_log_length (n : nat) (st : sampler_state) (finished : list V4Tuned.frozen_trial) :
  (length (trial_log suggest space objective n st finished) <= n)%nat.
Proof.
  revert st finished; induction n as [|n IH]; intros st finished; simpl; [lia|].
  destruct (suggest_all st finished) as [ps0 st'].
  destruct (objective ps0) as [v|e]; simpl; [|lia].
  specialize (IH st' (finished ++ [{| V4Tuned.params := ps0; V4Tuned.value := v |}])).
  lia.
Qed.

(** A study none of whose trials raises runs its whole budget. *)
Lemma optimize_complete (n : nat) (st : sampler_state) (finished : list V4Tuned.frozen_trial) :
  (forall ps e, ~ In (ps, Raise e) (trial_log suggest space objective n st finished)) ->
  exists trials, optimize n st finished = Ok trials /\
                 length trials = (length finished + n)%nat.
Proof.
  revert st finished; induction n as [|n IH]; intros st finished; simpl.
  - intros _. exists finished. split; [reflexivity | lia].
  - destruct (suggest_all st finished) as [ps0 st'].
    destruct (objective ps0) as [v|e0]; simpl; intros H.
    + destruct (IH st' (finished ++ [{| V4Tuned.params := ps0; V4Tuned.value := v |}]))
        as (trials & Ht & Hlen).
      { intros ps e Hin. apply (H ps e). now right. }
      exists trials. split; [exact Ht|]. rewrite Hlen, length_app. simpl. lia.
    + exfalso. apply (H ps0 e0). now left.
Qed.
End TunerFacts.

Section TuningRuns.
Context {fitted sampler_state : Type}.
Variable fit : learner -> matrix -> list Z -> result fitted.
Variable predict_proba : fitted -> matrix -> result (list Q).
Variable predict : fitted -> matrix -> result (list Z).
Variable roc_auc_score : list Z -> list Q -> result (option Q).
Variable skf_split :
  nat -> bool -> Z -> matrix -> list Z -> result (list (list nat * list nat)).
Variable suggest :
  sampler_state -> list V4Tuned.frozen_trial -> string -> V4Tuned.distribution ->
  pvalue * sampler_state.

Local Abbreviation score :=
  (V4Tuned.score fitted fit predict_proba predict roc_auc_score skf_split).
Local Abbreviation tune_xgb :=
  (V4Tuned.tune_xgb fitted fit predict_proba predict roc_auc_score skf_split
     sampler_state suggest).
Local Abbreviation tune_lgbm :=
  (V4Tuned.tune_lgbm fitted fit predict_proba predict roc_auc_score skf_split
     sampler_state suggest).
Local Abbreviation xgb_log_of :=
  (xgb_log fit predict_proba predict roc_auc_score skf_split suggest).
Local Abbreviation lgbm_log_of :=
  (lgbm_log fit predict_proba predict roc_auc_score skf_split suggest).

Lemma tune_xgb_log entropy df X y n_trials metric :
  tune_xgb entropy df X y n_trials metric =
  bind (study_of_log [] (xgb_log_of entropy df X y n_trials metric)) V4Tuned.best_params.
Proof.
  unfold V4Tuned.tune_xgb, xgb_log. now rewrite optimize_trial_log.
Qed.

Lemma tune_lgbm_log entropy df X y n_trials metric :
  tune_lgbm entropy df X y n_trials metric =
  bind (study_of_log [] (lgbm_log_of entropy df X y n_trials metric)) V4Tuned.best_params.
Proof.
  unfold V4Tuned.tune_lgbm, lgbm_log. now rewrite optimize_trial_log.
Qed.


(** C5, amended.  No trial failure is recovered: the study is run without
    [catch], so when the objective of a trial raises (a fit, a predict or a
    metric of one of its folds threw), [tune_xgb] and [tune_lgbm] raise
    that exception and return no configuration; a run in which no trial
    raises runs all its trials and returns [best_params] of them. *)
Theorem failing_trial_aborts_tuning (entropy : sampler_state) (df : DataFrame)
    (X : matrix) (y : list Z) (n_trials : nat) (metric : string) :
  (forall ps e, In (ps, Raise e) (xgb_log_of entropy df X y n_trials metric) ->
     score metric (V4Tuned.xgb_builder ps) X y df = Raise e /\
     tune_xgb entropy df X y n_trials metric = Raise e) /\
  (forall ps e, In (ps, Raise e) (lgbm_log_of entropy df X y n_trials metric) ->
     score metric (V4Tuned.lgbm_builder ps) X y df = Raise e /\
     tune_lgbm entropy df X y n_trials metric = Raise e) /\
  ((forall ps e, ~ In (ps, Raise e) (xgb_log_of entropy df X y n_trials metric)) ->
     exists trials,
       V4Tuned.optimize sampler_state suggest V4Tuned.xgb_space
         (fun ps => score metric (V4Tuned.xgb_builder ps) X y df) n_trials entropy []
         = Ok trials /\
       length trials = n_trials /\
       tune_xgb entropy df X y n_trials metric = V4Tuned.best_params trials) /\
  ((forall ps e, ~ In (ps, Raise e) (lgbm_log_of entropy df X y n_trials metric)) ->
     exists trials,
       V4Tuned.optimize sampler_state suggest V4Tuned.lgbm_space
         (fun ps => score metric (V4Tuned.lgbm_builder ps) X y df) n_trials entropy []
         = Ok trials /\
       length trials = n_trials /\
       tune_lgbm entropy df X y n_trials metric = V4Tuned.best_params trials).
Proof.
  split; [|split; [|split]].
  - intros ps e Hin. split; [now apply trial_log_objective in Hin|].
    rewrite tune_xgb_log. unfold xgb_log in *.
    erewrite study_of_log_raises; [reflexivity | exact Hin |].
    intros ps' e' Hin'. eapply trial_log_one_raise; eauto.
  - intros ps e Hin. split; [now apply trial_log_objective in Hin|].
    rewrite tune_lgbm_log. unfold lgbm_log in *.
    erewrite study_of_log_raises; [reflexivity | exact Hin |].
    intros ps' e' Hin'. eapply trial_log_one_raise; eauto.
  - intros H. apply optimize_complete in H. destruct H as (trials & Ht & Hlen).
    exists trials. split; [exact Ht|]. split; [exact Hlen|].
    unfold V4Tuned.tune_xgb. now rewrite Ht.
  - intros H. apply optimize_complete in H. destruct H as (trials & Ht & Hlen).
    exists trials. split; [exact Ht|]. split; [exact Hlen|].
    unfold V4Tuned.tune_lgbm. now rewrite Ht.
Qed.
End TuningRuns.



(** C5, as the specification states it, fails: with three trials of which
    only the third throws in [fit], the run ends in that exception instead
    of returning the best of the first two trials. *)
Lemma trial_failure_counterexample :
  length (toy_xgb_log 0 3) = 3%nat /\
  (forall ps e, In (ps, Raise e) (toy_xgb_log 0 3) ->
     ps = third_xgb_config /\ e = LearnerError 202) /\
  toy_tuner_fit (V4Tuned.xgb_builder third_xgb_config) [] [] = Raise (LearnerError 202) /\
  toy_tune_xgb 0 3 = Raise (LearnerError 202) /\
  (forall best, toy_tune_xgb 0 3 <> Ok best) /\
  (exists best, toy_tune_xgb 0 2 = Ok best).
Proof.
  split; [vm_compute; reflexivity|].
  split.
  { intros ps e Hin. vm_compute in Hin.
    destruct Hin as [H|[H|[H|[]]]]; try discriminate.
    inversion H. split; reflexivity. }
  split; [reflexivity|]. split; [vm_compute; reflexivity|].
  split; [intros best H; vm_compute in H; discriminate|].
  eexists. vm_compute. reflexivity.
Qed.

Lemma failing_trial_aborts_tuning_witness :
  V4Tuned.score nat toy_tuner_fit toy_predict_proba toy_predict toy_roc_auc_score
    toy_skf_split "auc" (V4Tuned.xgb_builder third_xgb_config) history5_X history5_y
    history5 = Raise (LearnerError 202) /\
  toy_tune_xgb 0 3 = Raise (LearnerError 202).
Proof.
  destruct (failing_trial_aborts_tuning toy_tuner_fit toy_predict_proba toy_predict
              toy_roc_auc_score toy_skf_split toy_suggest 0 history5 history5_X
              history5_y 3 "auc") as (Hx & _).
  apply (Hx third_xgb_config (LearnerError 202)).
  vm_compute. right. right. left. reflexivity.
Defined.

(* ===================================================================== *)
(** ** The prediction script                                              *)
(* ===================================================================== *)

Lemma dict_get_Permutation {V : Type} (d d' : list (string * V)) (k : string) :
  List.NoDup (map fst d) -> Permutation d d' -> dict_get k d' = dict_get k d.
Proof.
  intros Hnd Hperm.
  assert (Hnd' : List.NoDup (map fst d')).
  { eapply Permutation_NoDup; [|exact Hnd]. now apply Permutation_map. }
  destruct (dict_get k d) as [v|] eqn:E.
  - apply dict_get_In in E. apply dict_get_NoDup_In; [exact Hnd'|].
    eapply Permutation_in; eauto.
  - destruct (dict_get k d') as [v'|] eqn:E'; [|reflexivity].
    apply dict_get_In in E'. apply Permutation_sym in Hperm.
    apply (Permutation_in _ Hperm) in E'.
    apply dict_get_NoDup_In in E'; [congruence | exact Hnd].
Qed.

Lemma feature_value_ext (r r' : list (string * Predict2026.value)) (f : string) :
  (forall k, dict_get k r' = dict_get k r) ->
  Predict2026.feature_value r' f = Predict2026.feature_value r f.
Proof.
  intros H. unfold Predict2026.feature_value, Predict2026.row_get. now rewrite !H.
Qed.

Lemma features_loop_ext (r r' : list (string * Predict2026.value)) (fs : list string)
    (d : list (string * Predict2026.value)) :
  (forall k, dict_get k r' = dict_get k r) ->
  Predict2026.features_loop r' fs d = Predict2026.features_loop r fs d.
Proof.
  intros H. revert d; induction fs as [|f fs IH]; intros d; simpl; [reflexivity|].
  rewrite (feature_value_ext r r' f H).
  destruct (Predict2026.feature_value r f); simpl; [apply IH | reflexivity].
Qed.

Lemma feature_value_raises (r : list (string * Predict2026.value)) (f : string) (e : exn) :
  Predict2026.feature_value r f = Raise e -> exists k, e = KeyError k.
Proof.
  unfold Predict2026.feature_value, Predict2026.row_get.
  repeat match goal with
         | |- context [String.eqb ?a ?b] => destruct (String.eqb a b)
         | |- context [dict_get ?k r] => destruct (dict_get k r)
         end; simpl; intros H; inversion H; eauto.
Qed.

Lemma features_loop_raises (r : list (string * Predict2026.value)) (fs : list string)
    (d : list (string * Predict2026.value)) (e : exn) :
  Predict2026.features_loop r fs d = Raise e -> exists k, e = KeyError k.
Proof.
  revert d; induction fs as [|f fs IH]; intros d; simpl; [discriminate|].
  destruct (Predict2026.feature_value r f) as [v|e'] eqn:E; simpl; [apply IH|].
  intros H. inversion H; subst. eapply feature_value_raises; eauto.
Qed.

Lemma features_loop_spec (r : list (string * Predict2026.value)) (fs : list string)
    (d0 d : list (string * Predict2026.value)) :
  Predict2026.features_loop r fs d0 = Ok d ->
  (forall f, ~ In f fs -> dict_get f d = dict_get f d0) /\
  (forall f, In f fs ->
     exists v, Predict2026.feature_value r f = Ok v /\ dict_get f d = Some v).
Proof.
  revert d0; induction fs as [|f0 fs IH]; intros d0; simpl.
  - intros H. inversion H; subst. split; [auto | intros f []].
  - intros H. bind_inv H as v0 Hv0. destruct (IH _ H) as [Hout Hin]. split.
    + intros f Hf. rewrite Hout by tauto. apply dict_get_set_ne. tauto.
    + intros f Hf. destruct (in_dec string_dec f fs) as [Hfs|Hfs]; [now apply Hin|].
      destruct Hf as [->|Hf]; [|contradiction].
      exists v0. split; [exact Hv0|]. rewrite Hout by exact Hfs. apply dict_get_set_eq.
Qed.

(** C7, as the specification states it, fails: loading the artifact and
    predicting on a row whose columns are in another order, one of them
    missing, raises nothing; the missing feature is read as 0. *)
Lemma schema_mismatch_counterexample :
  Predict2026.init unit unit toy_artifact = Ok toy_predictor /\
  Predict2026.input_vector unit unit toy_predictor toy_game_row =
    Ok [Predict2026.VNum (54 # 100); Predict2026.VNum (54 # 100); Predict2026.VNum 4;
        Predict2026.VNum 4; Predict2026.VNum 1; Predict2026.VNum 0] /\
  Predict2026.predict_game unit unit toy_transform toy_model_predict
    toy_model_predict_proba toy_predictor toy_game_row = Ok (1, (54 # 100)%Q) /\
  Predict2026.predict_game unit unit toy_transform toy_model_predict
    toy_model_predict_proba toy_predictor toy_game_row <> Raise SchemaMismatchError.
Proof.
  repeat split; try reflexivity. discriminate.
Qed.

(** C7, amended.  The predictor checks no schema.  It builds its input in
    the artifact's recorded feature order, one value per feature, looked up
    by name: the order of the columns of the game row does not matter, a
    feature that is not one of the five known names is read as 0, and the
    only exception the construction can raise is a KeyError. *)
Theorem predictor_checks_no_schema {model scaler : Type}
    (transform : scaler -> list Predict2026.value -> result row)
    (predict : model -> row -> result Z)
    (predict_proba : model -> row -> result Q)
    (self : Predict2026.GamePredictor model scaler)
    (game_row game_row' : list (string * Predict2026.value)) :
  List.NoDup (map fst game_row) ->
  Permutation game_row game_row' ->
  Predict2026.input_vector model scaler self game_row' =
    Predict2026.input_vector model scaler self game_row /\
  Predict2026.predict_game model scaler transform predict predict_proba self game_row' =
    Predict2026.predict_game model scaler transform predict predict_proba self game_row /\
  (forall X, Predict2026.input_vector model scaler self game_row = Ok X ->
     Forall2 (fun f v => Predict2026.feature_value game_row f = Ok v)
             (Predict2026.features model scaler self) X) /\
  (forall f, ~ In f known_features ->
     Predict2026.feature_value game_row f = Ok (Predict2026.VNum 0)) /\
  (forall e, Predict2026.input_vector model scaler self game_row = Raise e ->
     exists k, e = KeyError k).
Proof.
  intros Hnd Hperm.
  assert (Hext : forall k, dict_get k game_row' = dict_get k game_row).
  { intros k. now apply dict_get_Permutation. }
  assert (Hvec : Predict2026.input_vector model scaler self game_row' =
                 Predict2026.input_vector model scaler self game_row).
  { unfold Predict2026.input_vector, Predict2026.prepare_features_for_game.
    now rewrite (features_loop_ext game_row game_row'). }
  split; [exact Hvec|]. split; [|split; [|split]].
  - unfold Predict2026.predict_game. now rewrite Hvec.
  - unfold Predict2026.input_vector, Predict2026.prepare_features_for_game.
    intros X H. bind_inv H as d Hd. apply features_loop_spec in Hd.
    destruct Hd as [_ Hin]. apply mapM_Forall2 in H.
    assert (Hsub : forall f, In f (Predict2026.features model scaler self) ->
                    exists v, Predict2026.feature_value game_row f = Ok v /\
                              dict_get f d = Some v) by exact Hin.
    clear Hin. induction H as [|f v fs X Hf _ IH]; constructor.
    + destruct (Hsub f (or_introl eq_refl)) as (v' & Hv' & Hg).
      rewrite Hg in Hf. congruence.
    + apply IH. intros f' Hf'. apply Hsub. now right.
  - intros f Hf. unfold Predict2026.feature_value.
    repeat match goal with
           | |- context [String.eqb f ?b] =>
               let E := fresh "E" in
               destruct (String.eqb f b) eqn:E;
               [apply String.eqb_eq in E; subst f; exfalso; apply Hf;
                unfold known_features; simpl; tauto|]
           end.
    reflexivity.
  - unfold Predict2026.input_vector, Predict2026.prepare_features_for_game.
    intros e H.
    destruct (Predict2026.features_loop _ _ _) as [d|e'] eqn:E; simpl in H.
    + apply mapM_Raise in H. destruct H as (f & _ & Hf).
      destruct (dict_get f d); inversion Hf. eauto.
    + inversion H; subst. eapply features_loop_raises; eauto.
Qed.

Lemma predictor_checks_no_schema_witness :
  Predict2026.input_vector unit unit toy_predictor toy_game_row_reordered =
    Predict2026.input_vector unit unit toy_predictor toy_game_row /\
  Predict2026.predict_game unit unit toy_transform toy_model_predict
    toy_model_predict_proba toy_predictor toy_game_row_reordered =
    Predict2026.predict_game unit unit toy_transform toy_model_predict
      toy_model_predict_proba toy_predictor toy_game_row /\
  (forall X, Predict2026.input_vector unit unit toy_predictor toy_game_row = Ok X ->
     Forall2 (fun f v => Predict2026.feature_value toy_game_row f = Ok v)
             (Predict2026.features unit unit toy_predictor) X) /\
  (forall f, ~ In f known_features ->
     Predict2026.feature_value toy_game_row f = Ok (Predict2026.VNum 0)) /\
  (forall e, Predict2026.input_vector unit unit toy_predictor toy_game_row = Raise e ->
     exists k, e = KeyError k).
Proof.
  apply (predictor_checks_no_schema toy_transform toy_model_predict
           toy_model_predict_proba toy_predictor toy_game_row toy_game_row_reordered).
  - simpl. repeat constructor; simpl; intuition discriminate.
  - unfold toy_game_row, toy_game_row_reordered.
    eapply perm_trans; [apply Permutation_cons_append|]. simpl.
    eapply perm_trans; [apply Permutation_cons_append|]. simpl.
    apply Permutation_refl.
Defined.

(* ===================================================================== *)
(** ** Further properties of the fold generator                           *)
(* ===================================================================== *)

Lemma fancy_index_in_range {A : Type} (a : list A) (idx : list nat) :
  (forall i, In i idx -> (i < length a)%nat) ->
  exists r, fancy_index a idx = Ok r /\ length r = length idx.
Proof.
  unfold fancy_index. induction idx as [|i idx IH]; intros H; simpl.
  - exists []. auto.
  - destruct (lookup_lt_is_Some_2 a i (H i (or_introl eq_refl))) as [x Hx].
    destruct IH as (r & Hr & Hlen); [intros j Hj; apply H; now right|].
    rewrite Hx, Hr. simpl. exists (x :: r). simpl. auto.
Qed.

Lemma index_where_bound (mask : list bool) (i : nat) :
  In i (index_where mask) -> (i < length mask)%nat.
Proof.
  intros H. apply index_where_In in H. apply lookup_lt_is_Some. eauto.
Qed.

(** X1.  The index arrays of an emitted fold are usable as they are: no
    index occurs twice, the training and validation rows are disjoint, and
    every index is a row position of the frame, so that indexing any array
    with one entry per frame row cannot raise. *)
Theorem fold_indices_valid {A : Type} (df : DataFrame) (years_col : list (option Z))
    (folds : list V4Stacked.fold) (tr va : list nat) (y : Z) (X : list A) :
  V4Stacked.time_folds df = Some folds ->
  In (tr, va, y) folds ->
  year df = Some years_col ->
  (length years_col <= length X)%nat ->
  List.NoDup tr /\ List.NoDup va /\
  (forall i, In i tr -> ~ In i va) /\
  (forall i, In i tr \/ In i va -> (i < length years_col)%nat) /\
  exists X_tr X_va,
    fancy_index X tr = Ok X_tr /\ fancy_index X va = Ok X_va /\
    length X_tr = length tr /\ length X_va = length va.
Proof.
  intros Hf Hin Hy Hlen.
  destruct (fold_rows df folds tr va y Hf Hin) as (_ & Hva & Htr).
  apply time_folds_Some in Hf. destruct Hf as (col & Hy' & _ & ->).
  assert (col = years_col) by congruence. subst col.
  apply emit_folds_In in Hin. destruct Hin as (_ & -> & -> & _ & _).
  assert (Hb : forall i, In i (index_where (series_lt years_col y)) \/
                         In i (index_where (series_eq years_col y)) ->
                         (i < length years_col)%nat).
  { intros i [Hi|Hi]; apply index_where_bound in Hi;
      unfold series_lt, series_eq in Hi; now rewrite length_map in Hi. }
  split; [apply index_where_from_NoDup|]. split; [apply index_where_from_NoDup|].
  split.
  { intros i Hi Hi'. apply Htr in Hi. apply Hva in Hi'.
    destruct Hi as (yj & Hj & Hlt). rewrite Hi' in Hj. inversion Hj. lia. }
  split; [exact Hb|].
  destruct (fancy_index_in_range X (index_where (series_lt years_col y)))
    as (X_tr & H1 & H2); [intros i Hi; specialize (Hb i (or_introl Hi)); lia|].
  destruct (fancy_index_in_range X (index_where (series_eq years_col y)))
    as (X_va & H3 & H4); [intros i Hi; specialize (Hb i (or_intror Hi)); lia|].
  exists X_tr, X_va. auto.
Qed.

Lemma fold_indices_valid_witness :
  List.NoDup [0; 1; 2]%nat /\ List.NoDup [3; 6]%nat /\
  (forall i, In i [0; 1; 2]%nat -> ~ In i [3; 6]%nat) /\
  (forall i, In i [0; 1; 2]%nat \/ In i [3; 6]%nat -> (i < 7)%nat) /\
  exists X_tr X_va,
    fancy_index history5_y [0; 1; 2]%nat = Ok X_tr /\
    fancy_index history5_y [3; 6]%nat = Ok X_va /\
    length X_tr = 3%nat /\ length X_va = 2%nat.
Proof.
  apply (fold_indices_valid history5
           [Some 2015; Some 2016; Some 2017; Some 2018; None; Some 2019; Some 2018]
           history5_folds [0; 1; 2]%nat [3; 6]%nat 2018 history5_y).
  - reflexivity.
  - simpl. left. reflexivity.
  - reflexivity.
  - simpl. lia.
Defined.

Lemma emit_folds_all (years_col : list (option Z)) (ys : list Z) :
  (forall y, In y ys -> index_where (series_lt years_col y) <> [] /\
                        index_where (series_eq years_col y) <> []) ->
  V4Stacked.emit_folds years_col ys =
  map (fun y => (index_where (series_lt years_col y),
                 index_where (series_eq years_col y), y)) ys.
Proof.
  induction ys as [|y0 ys IH]; intros H; simpl; [reflexivity|].
  destruct (H y0 (or_introl eq_refl)) as [H1 H2].
  apply nonempty_ltb in H1, H2. rewrite H1, H2. simpl. f_equal.
  apply IH. intros y Hy. apply H. now right.
Qed.

(** In time-based mode every year from the fourth distinct one on gives a
    fold. *)
Lemma time_folds_closed_form (df : DataFrame) (years_col : list (option Z))
    (folds : list V4Stacked.fold) :
  V4Stacked.time_folds df = Some folds ->
  year df = Some years_col ->
  folds = map (fun y => (index_where (series_lt years_col y),
                         index_where (series_eq years_col y), y))
              (drop 3 (distinct_years df)).
Proof.
  intros Hf Hy. apply time_folds_Some in Hf. destruct Hf as (col & Hy' & _ & ->).
  assert (col = years_col) by congruence. subst col.
  apply emit_folds_all. intros y Hin. split; [now apply (train_rows_exist df)|].
  assert (Hin' : In y (distinct_years df)) by now apply In_drop in Hin.
  apply (distinct_years_In df years_col y Hy) in Hin'. destruct Hin' as [i Hi].
  apply series_eq_In in Hi. intros Hnil. rewrite Hnil in Hi. destruct Hi.
Qed.

Lemma sorted_neighbours (l1 l2 : list Z) (a b : Z) :
  StronglySorted Z.lt (l1 ++ a :: b :: l2) ->
  a < b /\ (forall x, In x l1 -> x < a) /\ (forall x, In x l2 -> b < x).
Proof.
  induction l1 as [|c l1 IH]; simpl; intros H.
  - inversion H as [|? ? Hs Hall]; subst. inversion Hs as [|? ? _ Hall']; subst.
    rewrite List.Forall_forall in Hall, Hall'.
    split; [apply Hall; now left|]. split; [tauto | exact Hall'].
  - inversion H as [|? ? Hs Hall]; subst.
    destruct (IH Hs) as (Hab & H1 & H2). rewrite List.Forall_forall in Hall.
    split; [exact Hab|]. split; [|exact H2].
    intros x [->|Hx]; [|now apply H1].
    apply Hall. apply in_or_app. right. now left.
Qed.

(** X2.  Expanding window.  The folds come in ascending order of their
    held-out year, and the training rows of a fold are exactly the training
    rows and the validation rows of the fold before it. *)
Theorem expanding_window (df : DataFrame) (folds pre post : list V4Stacked.fold)
    (f1 f2 : V4Stacked.fold) :
  V4Stacked.time_folds df = Some folds ->
  folds = pre ++ f1 :: f2 :: post ->
  f1.2 < f2.2 /\
  (forall i, In i f2.1.1 <-> In i f1.1.1 \/ In i f1.1.2).
Proof.
  intros Hf Hsplit.
  destruct (year df) as [years_col|] eqn:Hy.
  2:{ apply time_folds_Some in Hf. destruct Hf as (c & Hc & _). congruence. }
  pose proof (time_folds_closed_form df years_col folds Hf Hy) as Hform.
  rewrite Hsplit in Hform. symmetry in Hform.
  apply List.map_eq_app in Hform. destruct Hform as (ys1 & ys' & Hys & Hpre & Hrest).
  apply List.map_eq_cons in Hrest. destruct Hrest as (y1 & ys'' & -> & Hf1 & Hrest).
  apply List.map_eq_cons in Hrest. destruct Hrest as (y2 & ys2 & -> & Hf2 & Hpost).
  subst f1 f2. simpl.
  pose proof (distinct_years_ascending df) as Hs.
  rewrite <- (firstn_skipn 3 (distinct_years df)), Hys, app_assoc in Hs.
  apply sorted_neighbours in Hs. destruct Hs as (Hlt & Hbefore & Hafter).
  split; [exact Hlt|].
  intros i. rewrite !series_lt_In, series_eq_In. split.
  - intros (k & Hk & Hk2).
    assert (Hin : In k (distinct_years df)).
    { apply (distinct_years_In df years_col k Hy). eauto. }
    rewrite <- (firstn_skipn 3 (distinct_years df)), Hys, app_assoc in Hin.
    apply in_app_or in Hin. destruct Hin as [Hin|[->|[->|Hin]]].
    + left. exists k. split; [exact Hk|]. now apply Hbefore.
    + now right.
    + lia.
    + apply Hafter in Hin. lia.
  - intros [(k & Hk & Hk1)|Hk]; [exists k | exists y1]; split; auto; lia.
Qed.

Lemma expanding_window_witness :
  2018 < 2019 /\
  (forall i, In i [0; 1; 2; 3; 6]%nat <-> In i [0; 1; 2]%nat \/ In i [3; 6]%nat).
Proof.
  apply (expanding_window history5 history5_folds [] []
           ([0; 1; 2]%nat, [3; 6]%nat, 2018) ([0; 1; 2; 3; 6]%nat, [5]%nat, 2019)).
  - reflexivity.
  - reflexivity.
Defined.

(* ===================================================================== *)
(** ** Further properties of the out-of-fold predictor                    *)
(* ===================================================================== *)

Lemma assign_pairs_lookup (a a' : list (option Q)) (ivs : list (nat * Q)) :
  assign_pairs a ivs = Ok a' ->
  List.NoDup (map fst ivs) ->
  forall i v, In (i, v) ivs -> a' !! i = Some (Some v).
Proof.
  revert a; induction ivs as [|[j v0] ivs IH]; intros a; simpl; [intros _ _ i v []|].
  destruct (j <? length a)%nat eqn:E; [|discriminate].
  apply Nat.ltb_lt in E. intros H Hnd i v Hin.
  inversion Hnd as [|? ? Hnotin Hnd']; subst.
  destruct Hin as [Heq|Hin].
  - inversion Heq; subst i v. apply assign_pairs_frame in H. destruct H as [_ Hfr].
    rewrite (Hfr j Hnotin). now apply list_lookup_insert_eq.
  - now apply (IH _ H Hnd').
Qed.

Lemma assign_cells_hold (a a' : list (option Q)) (idx : list nat) (vals : list Q) :
  assign a idx vals = Ok a' -> List.NoDup idx -> cells_hold a' idx vals.
Proof.
  unfold assign. destruct (length idx =? length vals)%nat eqn:E; [|discriminate].
  apply Nat.eqb_eq in E. intros H Hnd. split; [lia|].
  intros k i Hk.
  destruct (lookup_lt_is_Some_2 vals k) as [p Hp].
  { rewrite <- E. apply lookup_lt_is_Some. eauto. }
  exists p. split; [exact Hp|].
  apply (assign_pairs_lookup _ _ _ H).
  - clear -E Hnd. revert vals E. induction Hnd as [|j idx Hnotin Hnd IH];
      intros [|v vals] E; simpl in *; try constructor; try discriminate.
    + intros Hin. apply Hnotin. apply in_map_iff in Hin.
      destruct Hin as ([j' v'] & Heq & Hin). simpl in Heq. subst j'.
      eapply in_combine_l; eauto.
    + apply IH. lia.
  - clear -Hk Hp. revert k vals Hk Hp.
    induction idx as [|j idx IH]; intros [|k] [|v vals] Hk Hp; simpl in *;
      try discriminate.
    + inversion Hk; inversion Hp; subst. now left.
    + right. eapply IH; eauto.
Qed.

Section OofCells.
Context {fitted : Type}.
Variable fit : learner -> matrix -> list Z -> result fitted.
Variable predict_proba : fitted -> matrix -> result (list Q).
Variable roc_auc_score : list Z -> list Q -> result (option Q).
Variable skf_split :
  nat -> bool -> Z -> matrix -> list Z -> result (list (list nat * list nat)).

Local Abbreviation oof_state := (V4Stacked.oof_state fitted).
Local Abbreviation oof_preds := (V4Stacked.oof_preds fitted).
Local Abbreviation models := (V4Stacked.models fitted).
Local Abbreviation spec := (V4Stacked.spec fitted).
Local Abbreviation model_step :=
  (V4Stacked.oof_model_step fitted fit predict_proba roc_auc_score).
Local Abbreviation model_loop :=
  (V4Stacked.oof_model_loop fitted fit predict_proba roc_auc_score).
Local Abbreviation fold_loop :=
  (V4Stacked.oof_fold_loop fitted fit predict_proba roc_auc_score).

(** One pass of the inner loop body, read backwards. *)
Lemma oof_model_step_inv X_tr y_tr X_va y_va val_idx (st st' : oof_state) name :
  model_step X_tr y_tr X_va y_va val_idx st name = Ok st' ->
  exists m f probs arr arr',
    dict_get name (models st) = Some m /\
    fit (spec m) X_tr y_tr = Ok f /\
    predict_proba f X_va = Ok probs /\
    dict_get name (oof_preds st) = Some arr /\
    assign arr val_idx probs = Ok arr' /\
    oof_preds st' = dict_set name arr' (oof_preds st) /\
    models st' = dict_set name {| V4Stacked.spec := spec m; V4Stacked.state := Some f |}
                          (models st).
Proof.
  unfold V4Stacked.oof_model_step.
  destruct (dict_get name (models st)) as [m|] eqn:Hm; [|discriminate].
  intros H. bind_inv H as m' Hfit. bind_inv H as probs Hp.
  destruct (dict_get name (oof_preds st)) as [arr|] eqn:Ha; [|discriminate].
  bind_inv H as arr' Hassign. bind_inv H as auc Hauc.
  inversion H; subst st'; clear H. simpl.
  unfold V4Stacked.model_fit in Hfit. bind_inv Hfit as f Hf.
  inversion Hfit; subst m'. simpl in Hp.
  exists m, f, probs, arr, arr'. repeat split; auto.
Qed.

Lemma oof_model_loop_cells X_tr y_tr X_va y_va val_idx names (st st' : oof_state) :
  model_loop X_tr y_tr X_va y_va val_idx st names = Ok st' ->
  List.NoDup names -> List.NoDup val_idx ->
  (forall n, ~ In n names ->
     dict_get n (oof_preds st') = dict_get n (oof_preds st) /\
     dict_get n (models st') = dict_get n (models st)) /\
  (forall n, In n names ->
     exists m f probs arr',
       dict_get n (models st) = Some m /\
       fit (spec m) X_tr y_tr = Ok f /\
       predict_proba f X_va = Ok probs /\
       dict_get n (oof_preds st') = Some arr' /\
       dict_get n (models st') =
         Some {| V4Stacked.spec := spec m; V4Stacked.state := Some f |} /\
       cells_hold arr' val_idx probs).
Proof.
  intros H Hnd Hva. revert st H.
  induction Hnd as [|name names Hnotin Hnd IH]; intros st; simpl.
  - intros H. inversion H; subst. split; [auto | intros n []].
  - intros H. bind_inv H as st1 Hstep. apply oof_model_step_inv in Hstep.
    destruct Hstep as (m & f & probs & arr & arr' & Hm & Hf & Hp & Ha & Has & Ho & Hms).
    destruct (IH _ H) as [Hout Hin]. split.
    + intros n Hn. destruct (Hout n) as [H1 H2]; [tauto|].
      rewrite H1, H2, Ho, Hms, !dict_get_set_ne by tauto. auto.
    + intros n [<-|Hn].
      * destruct (Hout name Hnotin) as [H1 H2].
        exists m, f, probs, arr'. rewrite H1, H2, Ho, Hms, !dict_get_set_eq.
        repeat split; auto; now apply (assign_cells_hold arr arr' val_idx probs).
      * assert (name <> n) by (intros ->; contradiction).
        destruct (Hin n Hn) as (m1 & f1 & probs1 & arr1 & Hm1 & Hrest).
        rewrite Hms, dict_get_set_ne in Hm1 by assumption.
        exists m1, f1, probs1, arr1. auto.
Qed.

Lemma oof_fold_loop_cells X y folds (st st' : oof_state) :
  fold_loop X y st folds = Ok st' ->
  List.NoDup (map fst (models st)) ->
  (forall f, In f folds -> List.NoDup f.1.2) ->
  StronglySorted disjoint_validation folds ->
  forall f n, In f folds -> In n (map fst (models st)) ->
    exists m probs arr,
      dict_get n (models st) = Some m /\
      fold_predictions fit predict_proba X y (spec m) f probs /\
      dict_get n (oof_preds st') = Some arr /\
      cells_hold arr f.1.2 probs.
Proof.
  revert st; induction folds as [|[[tr va] yr] folds IH]; intros st H Hnames Hva Hdis f n Hf Hn;
    [destruct Hf|].
  simpl in H. bind_inv H as X_tr HXtr. bind_inv H as y_tr Hytr.
  bind_inv H as X_va HXva. bind_inv H as y_va Hyva. bind_inv H as st1 Hloop.
  pose proof (oof_model_loop_frame _ _ _ _ _ _ _ _ _ _ _ Hloop) as [Hframe1 _].
  destruct Hframe1 as (Hk1 & Hkm1 & Hspec1 & _).
  apply oof_model_loop_cells in Hloop; [|exact Hnames | apply (Hva (tr, va, yr)); now left].
  destruct Hloop as [_ Hcells].
  pose proof (oof_fold_loop_frame _ _ _ _ _ _ _ _ H) as [Hframe _].
  destruct Hframe as (Hk & _ & _ & Hfr).
  inversion Hdis as [|? ? Hdis' Hall]; subst. rewrite List.Forall_forall in Hall.
  destruct Hf as [<-|Hf].
  - destruct (Hcells n Hn) as (m & mf & probs & arr1 & Hm & Hfit & Hp & Ha1 & _ & Hlen & Hhold).
    assert (Hsome : is_Some (dict_get n (oof_preds st'))).
    { apply dict_get_keys. rewrite Hk. apply dict_get_keys. eauto. }
    destruct Hsome as [arr Harr].
    destruct (Hfr n arr Harr) as (arr1' & Ha1' & _ & Hsame).
    assert (arr1' = arr1) by congruence. subst arr1'.
    exists m, probs, arr. repeat split; auto.
    + exists X_tr, y_tr, X_va, mf. auto.
    + intros k i Hki. destruct (Hhold k i Hki) as (p & Hpk & Hcell).
      exists p. split; [exact Hpk|]. rewrite Hsame; [exact Hcell|].
      intros (f' & Hf' & Hi'). apply (Hall f' Hf' i); [|exact Hi'].
      simpl. apply list_elem_of_In, list_elem_of_lookup. eauto.
  - destruct (IH st1 H) with (f := f) (n := n) as (m1 & probs & arr & Hm1 & Hpred & Harr & Hhold);
      auto.
    + now rewrite Hkm1.
    + intros f' Hf'. apply Hva. now right.
    + now rewrite Hkm1.
    + destruct (Hspec1 n m1 Hm1) as (m & Hm & Hsp).
      exists m, probs, arr. rewrite <- Hsp. auto.
Qed.

Lemma emit_folds_disjoint (years_col : list (option Z)) (ys : list Z) :
  List.NoDup ys ->
  StronglySorted disjoint_validation (map tag (V4Stacked.emit_folds years_col ys)).
Proof.
  induction 1 as [|y0 ys Hnotin Hnd IH]; simpl; [constructor|].
  destruct (_ && _); [|exact IH]. simpl. constructor; [exact IH|].
  apply List.Forall_forall. intros f Hf i Hi Hi'.
  apply in_map_iff in Hf. destruct Hf as ([[tr va] y] & <- & Hf).
  apply emit_folds_In in Hf. destruct Hf as (Hy & _ & -> & _ & _).
  simpl in *. apply series_eq_In in Hi, Hi'.
  assert (y0 = y) by congruence. subst y. contradiction.
Qed.

(** X3.  Out-of-fold provenance.  After a time-based pass, for every fold
    and every base model, the out-of-fold array of the model holds at the
    fold's validation rows the probabilities predicted by that model's
    learner fit on the fold's training rows only, one per validation row
    and in their order. *)
Theorem oof_cells_out_of_fold X y df base_models folds (st : oof_state) :
  V4Stacked.time_folds df = Some folds ->
  List.NoDup (map fst base_models) ->
  V4Stacked.get_oof_predictions fitted fit predict_proba roc_auc_score skf_split
    X y df base_models = Ok st ->
  forall tr va yr n, In (tr, va, yr) folds -> In n (map fst base_models) ->
    exists m probs arr,
      dict_get n base_models = Some m /\
      fold_predictions fit predict_proba X y (spec m) (tr, va, Some yr) probs /\
      dict_get n (oof_preds st) = Some arr /\
      cells_hold arr va probs.
Proof.
  intros Hf Hnames H tr va yr n Hin Hn.
  unfold V4Stacked.get_oof_predictions, V4Stacked.cv_folds in H.
  rewrite Hf in H. simpl in H.
  pose proof Hf as Hf'. apply time_folds_Some in Hf'.
  destruct Hf' as (years_col & Hy & _ & ->).
  pose proof (distinct_years_NoDup df) as Hnd.
  rewrite <- (firstn_skipn 3 (distinct_years df)) in Hnd.
  apply NoDup_app_parts in Hnd. destruct Hnd as [Hnd _].
  change (map (fun f : V4Stacked.fold => (f.1.1, f.1.2, Some f.2))) with (map tag) in H.
  eapply (oof_fold_loop_cells X y _ _ st H) with (f := tag (tr, va, yr)) (n := n); simpl; auto.
  - intros f Hfin. apply in_map_iff in Hfin. destruct Hfin as ([[tr' va'] y'] & <- & Hfin).
    apply emit_folds_In in Hfin. destruct Hfin as (_ & _ & -> & _ & _).
    simpl. apply index_where_from_NoDup.
  - now apply emit_folds_disjoint.
  - apply in_map_iff. now exists (tr, va, yr).
Qed.
End OofCells.

Lemma oof_cells_out_of_fold_witness :
  exists m probs arr,
    dict_get "xgb" (V4Stacked.build_base_models nat) = Some m /\
    fold_predictions toy_fit toy_predict_proba history5_X history5_y
      (V4Stacked.spec nat m) ([0; 1; 2]%nat, [3; 6]%nat, Some 2018) probs /\
    dict_get "xgb" (V4Stacked.oof_preds nat history5_oof) = Some arr /\
    cells_hold arr [3; 6]%nat probs.
Proof.
  apply (oof_cells_out_of_fold toy_fit toy_predict_proba toy_roc_auc_score toy_skf_split
           history5_X history5_y history5 (V4Stacked.build_base_models nat)
           history5_folds history5_oof).
  - reflexivity.
  - simpl. repeat constructor; simpl; intuition discriminate.
  - vm_compute. reflexivity.
  - simpl. left. reflexivity.
  - simpl. tauto.
Defined.

(* ===================================================================== *)
(** ** Further properties of the stacking path                            *)
(* ===================================================================== *)

Lemma filter_combine_length {A B : Type} (p : A -> bool) (l : list A) (ys : list B) :
  length l = length ys ->
  length (List.filter (fun ry => p ry.1) (combine l ys)) = length (List.filter p l).
Proof.
  revert ys; induction l as [|a l IH]; intros [|y ys] H; simpl in *; try discriminate; auto.
  destruct (p a); simpl; rewrite IH; auto.
Qed.

(** X4.  The meta-learner's training set is aligned: it has as many rows as
    labels, and each row has one cell per base model, none of them NaN. *)
Theorem meta_training_set_aligned (oof : list (string * list (option Q))) (y : list Z)
    (X_meta : matrix) (y_meta : list Z) :
  V4Stacked.meta_training_set oof y = Ok (X_meta, y_meta) ->
  length X_meta = length y_meta /\
  Forall (fun r : row => length r = length oof /\ Forall (fun c => is_Some c) r) X_meta.
Proof.
  intros H. apply meta_training_set_spec in H.
  destruct H as (M & Hlen & Hrows & -> & ->). split.
  - rewrite length_map. symmetry. now apply filter_combine_length.
  - apply List.Forall_forall. intros r Hr. apply filter_In in Hr. destruct Hr as [Hr Hfilled].
    apply list_elem_of_In, list_elem_of_lookup in Hr. destruct Hr as [i Hi].
    specialize (Hrows i r Hi). split; [|now apply filled_spec].
    apply Forall2_length in Hrows. rewrite <- Hrows, sorted_length, length_map. reflexivity.
Qed.

Lemma meta_training_set_aligned_witness :
  exists X_meta y_meta,
    V4Stacked.meta_training_set (V4Stacked.oof_preds nat history5_oof) history5_y
      = Ok (X_meta, y_meta) /\
    length X_meta = length y_meta /\
    Forall (fun r : row =>
              length r = length (V4Stacked.oof_preds nat history5_oof) /\
              Forall (fun c => is_Some c) r) X_meta.
Proof.
  destruct (V4Stacked.meta_training_set (V4Stacked.oof_preds nat history5_oof) history5_y)
    as [[X_meta y_meta]|e] eqn:E.
  - exists X_meta, y_meta. split; [reflexivity|].
    now apply (meta_training_set_aligned (V4Stacked.oof_preds nat history5_oof) history5_y).
  - exfalso. vm_compute in E. discriminate.
Defined.

Lemma filter_by_position {A B : Type} (p : A -> bool) (q : nat -> bool)
    (l : list A) (ys : list B) (k : nat) :
  length l = length ys ->
  (forall i r, l !! i = Some r -> p r = q (k + i)%nat) ->
  map snd (List.filter (fun ry => p ry.1) (combine l ys)) =
  map snd (List.filter (fun iy => q iy.1) (combine (seq k (length ys)) ys)) /\
  length (List.filter p l) =
  length (List.filter (fun iy => q iy.1) (combine (seq k (length ys)) ys)).
Proof.
  revert ys k; induction l as [|a l IH]; intros [|y ys] k Hlen Hpq; simpl in *;
    try discriminate; auto.
  assert (Ha : p a = q k).
  { rewrite (Hpq 0%nat a eq_refl). f_equal. lia. }
  destruct (IH ys (S k)) as [IH1 IH2]; [lia | |].
  { intros i r Hi. rewrite (Hpq (S i) r Hi). f_equal. lia. }
  rewrite Ha. destruct (q k); simpl; rewrite IH1, IH2; auto.
Qed.

Lemma validations_pos (folds : list V4Stacked.fold) (i : nat) :
  validations folds i <> 0%nat -> exists tr va yr, In (tr, va, yr) folds /\ In i va.
Proof.
  unfold validations. intros H.
  destruct (List.filter _ folds) as [|[[tr va] yr] l] eqn:E; [contradiction|].
  assert (Hin : In (tr, va, yr) (List.filter
            (fun f : V4Stacked.fold => existsb (Nat.eqb i) f.1.2) folds)).
  { rewrite E. now left. }
  apply filter_In in Hin. destruct Hin as [Hin Hex]. simpl in Hex.
  apply existsb_eqb_In in Hex. eauto.
Qed.

Section MetaRows.
Context {fitted : Type}.
Variable fit : learner -> matrix -> list Z -> result fitted.
Variable predict_proba : fitted -> matrix -> result (list Q).
Variable roc_auc_score : list Z -> list Q -> result (option Q).
Variable skf_split :
  nat -> bool -> Z -> matrix -> list Z -> result (list (list nat * list nat)).

(** After a time-based pass a validated row has a value in every
    out-of-fold array. *)
Lemma time_pass_validated_cells X y df base_models folds
    (st : V4Stacked.oof_state fitted) (i : nat) (n : string) (arr : list (option Q)) :
  V4Stacked.time_folds df = Some folds ->
  List.NoDup (map fst base_models) ->
  V4Stacked.get_oof_predictions fitted fit predict_proba roc_auc_score skf_split
    X y df base_models = Ok st ->
  validations folds i <> 0%nat ->
  In n (map fst base_models) ->
  dict_get n (V4Stacked.oof_preds fitted st) = Some arr ->
  exists p, arr !! i = Some (Some p).
Proof.
  intros Hf Hnames H Hval Hn Harr.
  apply validations_pos in Hval. destruct Hval as (tr & va & yr & Hin & Hi).
  unfold V4Stacked.get_oof_predictions, V4Stacked.cv_folds in H.
  rewrite Hf in H. simpl in H.
  pose proof Hf as Hf'. apply time_folds_Some in Hf'.
  destruct Hf' as (years_col & Hy & _ & ->).
  pose proof (distinct_years_NoDup df) as Hnd.
  rewrite <- (firstn_skipn 3 (distinct_years df)) in Hnd.
  apply NoDup_app_parts in Hnd. destruct Hnd as [Hnd _].
  change (map (fun f : V4Stacked.fold => (f.1.1, f.1.2, Some f.2))) with (map tag) in H.
  destruct (oof_fold_loop_cells fit predict_proba roc_auc_score X y _ _ st H)
    with (f := tag (tr, va, yr)) (n := n) as (m & probs & arr' & _ & _ & Harr' & _ & Hhold);
    simpl; auto.
  - intros f Hfin. apply in_map_iff in Hfin. destruct Hfin as ([[tr' va'] y'] & <- & Hfin).
    apply emit_folds_In in Hfin. destruct Hfin as (_ & _ & -> & _ & _).
    simpl. apply index_where_from_NoDup.
  - now apply emit_folds_disjoint.
  - apply in_map_iff. now exists (tr, va, yr).
  - simpl in Hhold. assert (arr' = arr) by congruence. subst arr'.
    apply list_elem_of_In, list_elem_of_lookup in Hi. destruct Hi as [k Hk].
    destruct (Hhold k i Hk) as (p & _ & Hp). eauto.
Qed.

(** X5.  In time-based mode the meta-learner is fit on exactly the rows
    that are validation rows of some fold: its labels are the labels of
    those rows, in row order, and it has one input row for each. *)
Theorem meta_labels_are_validated_rows X y df base_models folds
    (st : V4Stacked.oof_state fitted) (X_meta : matrix) (y_meta : list Z) :
  V4Stacked.time_folds df = Some folds ->
  List.NoDup (map fst base_models) ->
  base_models <> [] ->
  V4Stacked.get_oof_predictions fitted fit predict_proba roc_auc_score skf_split
    X y df base_models = Ok st ->
  V4Stacked.meta_training_set (V4Stacked.oof_preds fitted st) y = Ok (X_meta, y_meta) ->
  y_meta = validated_labels folds y /\
  length X_meta = length (validated_labels folds y).
Proof.
  intros Hf Hnames Hne Hoof Hset.
  destruct (get_oof_predictions_time fit predict_proba roc_auc_score skf_split
              X y df base_models folds st Hf Hoof) as (_ & Hkeys & Harr).
  apply meta_training_set_spec in Hset.
  destruct Hset as (M & Hlen & Hrows & -> & ->).
  rewrite Hkeys in Hrows.
  assert (Hpq : forall i r, M !! i = Some r ->
            filled r = negb (validations folds (0 + i) =? 0)%nat).
  { intros i r Hi. simpl. specialize (Hrows i r Hi). unfold oof_row in Hrows.
    destruct (validations folds i =? 0)%nat eqn:E; simpl.
    - apply Nat.eqb_eq in E.
      assert (Hne' : sorted String.leb (map fst base_models) <> []).
      { intros Hnil. apply (f_equal (@length string)) in Hnil.
        rewrite sorted_length, length_map in Hnil. destruct base_models; [congruence|].
        discriminate. }
      inversion Hrows as [|name c names r' (arr & Hget & Hc) _]; subst; [congruence|].
      destruct (Harr _ _ Hget) as [Hl Hnone].
      assert (Hi' : (i < length y)%nat).
      { rewrite <- Hl. apply lookup_lt_is_Some. eauto. }
      rewrite (Hnone i Hi' E) in Hc. inversion Hc; subst c. reflexivity.
    - apply Nat.eqb_neq in E. apply filled_spec.
      assert (Hsub : forall name, In name (sorted String.leb (map fst base_models)) ->
                       In name (map fst base_models)) by (intros name; apply sorted_In).
      revert Hsub Hrows. generalize (sorted String.leb (map fst base_models)).
      intros names Hsub Hrows. clear Hi. revert Hsub.
      induction Hrows as [|name c names r' (arr & Hget & Hc) _ IH]; intros Hsub;
        constructor.
      + destruct (time_pass_validated_cells X y df base_models folds st i name arr)
          as [p Hp]; auto.
        * apply Hsub. now left.
        * rewrite Hp in Hc. inversion Hc. eauto.
      + apply IH. intros name' Hn'. apply Hsub. now right. }
  destruct (filter_by_position filled
              (fun i => negb (validations folds i =? 0)%nat) M y 0%nat Hlen Hpq)
    as [H1 H2].
  unfold validated_labels. split; [exact H1|]. rewrite length_map. exact H2.
Qed.
End MetaRows.

Lemma meta_labels_are_validated_rows_witness :
  exists X_meta y_meta,
    V4Stacked.meta_training_set (V4Stacked.oof_preds nat history5_oof) history5_y
      = Ok (X_meta, y_meta) /\
    y_meta = validated_labels history5_folds history5_y /\
    length X_meta = length (validated_labels history5_folds history5_y).
Proof.
  destruct (V4Stacked.meta_training_set (V4Stacked.oof_preds nat history5_oof) history5_y)
    as [[X_meta y_meta]|e] eqn:E.
  - exists X_meta, y_meta. split; [reflexivity|].
    apply (meta_labels_are_validated_rows toy_fit toy_predict_proba toy_roc_auc_score
             toy_skf_split history5_X history5_y history5 (V4Stacked.build_base_models nat)
             history5_folds history5_oof X_meta y_meta).
    + reflexivity.
    + simpl. repeat constructor; simpl; intuition discriminate.
    + discriminate.
    + vm_compute. reflexivity.
    + exact E.
  - exfalso. vm_compute in E. discriminate.
Defined.

Example validated_labels_history5 : validated_labels history5_folds history5_y = [0; 1; 0].
Proof. reflexivity. Qed.

(* ===================================================================== *)
(** ** Rows without a year                                                *)
(* ===================================================================== *)



Section UnvalidatedRows.
Context {fitted : Type}.
Variable fit : learner -> matrix -> list Z -> result fitted.
Variable predict_proba : fitted -> matrix -> result (list Q).
Variable roc_auc_score : list Z -> list Q -> result (option Q).
Variable skf_split :
  nat -> bool -> Z -> matrix -> list Z -> result (list (list nat * list nat)).

End UnvalidatedRows.



Example validated_rows_history5 : validated_rows history5_folds 7 = [3; 5; 6]%nat.
Proof. reflexivity. Qed.

Section LastFold.
Context {fitted : Type}.
Variable fit : learner -> matrix -> list Z -> result fitted.
Variable predict_proba : fitted -> matrix -> result (list Q).
Variable roc_auc_score : list Z -> list Q -> result (option Q).
Variable skf_split :
  nat -> bool -> Z -> matrix -> list Z -> result (list (list nat * list nat)).

Local Abbreviation fold_loop :=
  (V4Stacked.oof_fold_loop fitted fit predict_proba roc_auc_score).

Lemma oof_fold_loop_app X y (l1 l2 : list (list nat * list nat * option Z))
    (st : V4Stacked.oof_state fitted) :
  fold_loop X y st (l1 ++ l2) = bind (fold_loop X y st l1) (fun st1 => fold_loop X y st1 l2).
Proof.
  revert st; induction l1 as [|[[tr va] yr] l1 IH]; intros st; simpl; [reflexivity|].
  destruct (fancy_index X tr); simpl; [|reflexivity].
  destruct (fancy_index y tr); simpl; [|reflexivity].
  destruct (fancy_index X va); simpl; [|reflexivity].
  destruct (fancy_index y va); simpl; [|reflexivity].
  destruct (V4Stacked.oof_model_loop _ _ _ _ _ _ _ _ _ _ _); simpl; [apply IH | reflexivity].
Qed.

(** X6.  The out-of-fold pass fits the model objects in place: when it
    returns, every base model is the one fit on the training rows of the
    last fold, with its description unchanged (and therefore not the model
    of the whole history). *)
Theorem oof_pass_leaves_last_fold_fit X y df base_models
    (pre : list V4Stacked.fold) (tr va : list nat) (yr : Z)
    (st : V4Stacked.oof_state fitted) (n : string) :
  V4Stacked.time_folds df = Some (pre ++ [(tr, va, yr)]) ->
  List.NoDup (map fst base_models) ->
  V4Stacked.get_oof_predictions fitted fit predict_proba roc_auc_score skf_split
    X y df base_models = Ok st ->
  In n (map fst base_models) ->
  exists m X_tr y_tr f,
    dict_get n base_models = Some m /\
    fancy_index X tr = Ok X_tr /\ fancy_index y tr = Ok y_tr /\
    fit (V4Stacked.spec fitted m) X_tr y_tr = Ok f /\
    dict_get n (V4Stacked.models fitted st) =
      Some {| V4Stacked.spec := V4Stacked.spec fitted m; V4Stacked.state := Some f |}.
Proof.
  intros Hf Hnames H Hn.
  pose proof Hf as Hva. apply time_folds_Some in Hva.
  destruct Hva as (years_col & _ & _ & Hemit).
  assert (Hvand : List.NoDup va).
  { assert (Hin : In (tr, va, yr) (pre ++ [(tr, va, yr)])).
    { apply in_or_app. right. now left. }
    rewrite Hemit in Hin. apply emit_folds_In in Hin.
    destruct Hin as (_ & _ & -> & _ & _). apply index_where_from_NoDup. }
  unfold V4Stacked.get_oof_predictions, V4Stacked.cv_folds in H.
  rewrite Hf in H. simpl in H. rewrite map_app, oof_fold_loop_app in H.
  bind_inv H as st1 Hpre.
  apply oof_fold_loop_frame in Hpre. destruct Hpre as [(_ & Hkm & Hspec & _) _].
  simpl in Hkm, Hspec. simpl in H.
  bind_inv H as X_tr HXtr. bind_inv H as y_tr Hytr. bind_inv H as X_va HXva.
  bind_inv H as y_va Hyva. bind_inv H as st2 Hloop. inversion H; subst st2; clear H.
  apply oof_model_loop_cells in Hloop; [|now rewrite Hkm | exact Hvand].
  destruct Hloop as [_ Hcells].
  destruct (Hcells n) as (m1 & f & probs & arr & Hm1 & Hfit & _ & _ & Hst & _);
    [now rewrite Hkm|].
  destruct (Hspec n m1 Hm1) as (m & Hm & Hsp).
  exists m, X_tr, y_tr, f. rewrite <- Hsp. auto.
Qed.
End LastFold.

Lemma oof_pass_leaves_last_fold_fit_witness :
  exists m X_tr y_tr f,
    dict_get "xgb" (V4Stacked.build_base_models nat) = Some m /\
    fancy_index history5_X [0; 1; 2; 3; 6]%nat = Ok X_tr /\
    fancy_index history5_y [0; 1; 2; 3; 6]%nat = Ok y_tr /\
    toy_fit (V4Stacked.spec nat m) X_tr y_tr = Ok f /\
    dict_get "xgb" (V4Stacked.models nat history5_oof) =
      Some {| V4Stacked.spec := V4Stacked.spec nat m; V4Stacked.state := Some f |}.
Proof.
  apply (oof_pass_leaves_last_fold_fit toy_fit toy_predict_proba toy_roc_auc_score
           toy_skf_split history5_X history5_y history5 (V4Stacked.build_base_models nat)
           [([0; 1; 2]%nat, [3; 6]%nat, 2018)] [0; 1; 2; 3; 6]%nat [5]%nat 2019
           history5_oof "xgb").
  - reflexivity.
  - simpl. repeat constructor; simpl; intuition discriminate.
  - vm_compute. reflexivity.
  - simpl. right. left. reflexivity.
Defined.

(* ===================================================================== *)
(** ** Further properties of the prediction script                        *)
(* ===================================================================== *)

Lemma mapM_total {A B : Type} (f : A -> result B) (xs : list A) :
  (forall x, In x xs -> exists y, f x = Ok y) ->
  exists ys, mapM f xs = Ok ys /\ length ys = length xs.
Proof.
  induction xs as [|a xs IH]; intros H; simpl.
  - exists []. auto.
  - destruct (H a (or_introl eq_refl)) as [y Hy].
    destruct IH as (ys & Hys & Hlen); [intros x Hx; apply H; now right|].
    rewrite Hy, Hys. simpl. exists (y :: ys). simpl. auto.
Qed.

Lemma feature_value_total (r : list (string * Predict2026.value)) (f : string) :
  (forall k, In k row_keys_read -> is_Some (dict_get k r)) ->
  exists v, Predict2026.feature_value r f = Ok v.
Proof.
  intros H. unfold Predict2026.feature_value, Predict2026.row_get.
  destruct (H "home_team_id") as [v1 E1]; [simpl; tauto|].
  destruct (H "away_team_id") as [v2 E2]; [simpl; tauto|].
  destruct (H "game_date") as [v3 E3]; [simpl; tauto|].
  destruct (H "month") as [v4 E4]; [simpl; tauto|].
  destruct (H "day_of_week") as [v5 E5]; [simpl; tauto|].
  rewrite E1, E2, E3, E4, E5. simpl.
  repeat match goal with
         | |- context [String.eqb f ?b] => destruct (String.eqb f b)
         end; eauto.
Qed.

Lemma features_loop_total (r : list (string * Predict2026.value)) (fs : list string)
    (d : list (string * Predict2026.value)) :
  (forall k, In k row_keys_read -> is_Some (dict_get k r)) ->
  exists d', Predict2026.features_loop r fs d = Ok d'.
Proof.
  intros H. revert d; induction fs as [|f fs IH]; intros d; simpl; [eauto|].
  destruct (feature_value_total r f H) as [v Hv]. rewrite Hv. simpl. apply IH.
Qed.

Lemma features_loop_fails (r : list (string * Predict2026.value)) (fs : list string)
    (d : list (string * Predict2026.value)) (f : string) (e : exn) :
  In f fs -> Predict2026.feature_value r f = Raise e ->
  exists e', Predict2026.features_loop r fs d = Raise e'.
Proof.
  revert d; induction fs as [|f0 fs IH]; intros d Hin Hf; [destruct Hin|]. simpl.
  destruct (Predict2026.feature_value r f0) as [v|e0] eqn:E; simpl; [|eauto].
  destruct Hin as [->|Hin]; [congruence|]. now apply IH.
Qed.

(** X7.  Building the input of a prediction succeeds, with one value per
    recorded feature, whenever the game row has the five columns the
    feature code reads; and it fails with a KeyError when the artifact
    records the feature 'month' or 'day_of_week' and the row lacks that
    column. *)
Theorem input_vector_needs_row_keys {model scaler : Type}
    (self : Predict2026.GamePredictor model scaler)
    (game_row : list (string * Predict2026.value)) :
  ((forall k, In k row_keys_read -> is_Some (dict_get k game_row)) ->
   exists X, Predict2026.input_vector model scaler self game_row = Ok X /\
             length X = length (Predict2026.features model scaler self)) /\
  (forall f, f = "month" \/ f = "day_of_week" ->
     In f (Predict2026.features model scaler self) ->
     dict_get f game_row = None ->
     exists k, Predict2026.input_vector model scaler self game_row = Raise (KeyError k)).
Proof.
  split.
  - intros H. unfold Predict2026.input_vector, Predict2026.prepare_features_for_game.
    destruct (features_loop_total game_row (Predict2026.features model scaler self) [] H)
      as [d Hd].
    rewrite Hd. simpl. apply mapM_total. intros f Hf.
    apply features_loop_spec in Hd. destruct Hd as [_ Hin].
    destruct (Hin f Hf) as (v & _ & Hv). rewrite Hv. eauto.
  - intros f Hf Hin Hnone.
    assert (Hfv : Predict2026.feature_value game_row f = Raise (KeyError f)).
    { unfold Predict2026.feature_value, Predict2026.row_get.
      destruct Hf as [-> | ->]; simpl; rewrite Hnone; reflexivity. }
    destruct (features_loop_fails game_row _ [] f _ Hin Hfv) as [e He].
    unfold Predict2026.input_vector, Predict2026.prepare_features_for_game.
    rewrite He. simpl.
    apply features_loop_raises in He. destruct He as [k ->]. eauto.
Qed.

Lemma input_vector_needs_row_keys_witness :
  (exists X, Predict2026.input_vector unit unit toy_predictor toy_game_row = Ok X /\
             length X = length (Predict2026.features unit unit toy_predictor)) /\
  (exists k, Predict2026.input_vector unit unit toy_predictor toy_game_row_no_month
             = Raise (KeyError k)).
Proof.
  destruct (input_vector_needs_row_keys toy_predictor toy_game_row) as [Hok _].
  destruct (input_vector_needs_row_keys toy_predictor toy_game_row_no_month) as [_ Hko].
  split.
  - apply Hok. intros k Hk. simpl in Hk.
    destruct Hk as [<-|[<-|[<-|[<-|[<-|[]]]]]]; vm_compute; eauto.
  - apply (Hko "month"); [now left | simpl; tauto | reflexivity].
Defined.

Lemma Forall2_In_r {A B : Type} (P : A -> B -> Prop) (xs : list A) (ys : list B) (y : B) :
  Forall2 P xs ys -> In y ys -> exists x, In x xs /\ P x y.
Proof.
  induction 1 as [|x y0 xs ys Hxy _ IH]; simpl; [tauto|].
  intros [<-|Hin]; [exists x; tauto|].
  destruct (IH Hin) as (x' & Hx' & HP). exists x'. tauto.
Qed.

Lemma py_max_cases (p : Q) :
  (1 # 2 <= Predict2026.py_max p (1 - p))%Q /\
  (Predict2026.py_max p (1 - p) = p /\ (1 - p <= p)%Q \/
   Predict2026.py_max p (1 - p) = (1 - p)%Q /\ (p < 1 - p)%Q).
Proof.
  unfold Predict2026.py_max, Qlt_bool.
  destruct (Qle_bool (1 - p) p) eqn:E; simpl.
  - apply Qle_bool_iff in E. split; [lra | left; split; [reflexivity | exact E]].
  - assert (~ (1 - p <= p)%Q) by (rewrite <- Qle_bool_iff; congruence).
    split; [lra | right; split; [reflexivity | lra]].
Qed.

Lemma mapM_first_raise {A B : Type} (f : A -> result B) (xs : list A) (e : exn) :
  mapM f xs = Raise e <->
  exists pre x post,
    xs = pre ++ x :: post /\ (forall x', In x' pre -> exists y, f x' = Ok y) /\
    f x = Raise e.
Proof.
  induction xs as [|a xs IH].
  - simpl. split; [discriminate|]. intros (pre & x & post & H & _). now destruct pre.
  - cbn [mapM]. destruct (f a) as [y|e0] eqn:Ha; cbn [bind].
    + assert (Hb : bind (mapM f xs) (fun ys => Ok (y :: ys)) = Raise e <->
                   mapM f xs = Raise e).
      { destruct (mapM f xs); simpl; split; congruence. }
      rewrite Hb, IH. split.
      * intros (pre & x & post & -> & Hpre & Hx).
        exists (a :: pre), x, post. split; [reflexivity|]. split; [|exact Hx].
        intros x' [<-|Hx']; eauto.
      * intros (pre & x & post & Hsplit & Hpre & Hx).
        destruct pre as [|a' pre]; simpl in Hsplit; inversion Hsplit; subst.
        -- congruence.
        -- exists pre, x, post. split; [reflexivity|]. split; [|exact Hx].
           intros x' Hx'. apply Hpre. now right.
    + split.
      * intros H. inversion H; subst e0. exists [], a, xs. simpl. tauto.
      * intros (pre & x & post & Hsplit & Hpre & Hx).
        destruct pre as [|a' pre]; simpl in Hsplit; inversion Hsplit; subst.
        -- congruence.
        -- destruct (Hpre a' (or_introl eq_refl)) as [y Hy]. congruence.
Qed.

(** X8.  [predict_all_games] returns one prediction per row of the frame,
    in row order; each carries the identifying cells of its row, the class
    and probability [predict_game] gives for that row, the complement of
    that probability as away probability, and as confidence the larger of
    the two, which is at least one half.  The call raises exactly when the
    prediction of some row raises, and then with the exception of the first
    such row: no row is skipped and nothing is returned for the others. *)
Theorem predict_all_games_rows {model scaler : Type}
    (transform : scaler -> list Predict2026.value -> result row)
    (predict : model -> row -> result Z)
    (predict_proba : model -> row -> result Q)
    (self : Predict2026.GamePredictor model scaler)
    (games_df : Predict2026.games_frame) :
  (forall preds,
     Predict2026.predict_all_games model scaler transform predict predict_proba self games_df
       = Ok preds ->
     Forall2 (fun game_row pr =>
                Predict2026.predict_game model scaler transform predict predict_proba
                  self game_row
                  = Ok (Predict2026.home_predicted pr, Predict2026.home_win_probability pr) /\
                Predict2026.row_get game_row "game_pk" = Ok (Predict2026.game_pk pr) /\
                Predict2026.row_get game_row "game_date" = Ok (Predict2026.game_date pr) /\
                Predict2026.row_get game_row "home_team_id"
                  = Ok (Predict2026.home_team_id pr) /\
                Predict2026.row_get game_row "away_team_id"
                  = Ok (Predict2026.away_team_id pr) /\
                Predict2026.row_get game_row "home_team_name"
                  = Ok (Predict2026.home_team_name pr) /\
                Predict2026.row_get game_row "away_team_name"
                  = Ok (Predict2026.away_team_name pr) /\
                Predict2026.away_win_probability pr
                  = (1 - Predict2026.home_win_probability pr)%Q /\
                (Predict2026.prediction_confidence pr = Predict2026.home_win_probability pr /\
                 (Predict2026.away_win_probability pr
                    <= Predict2026.home_win_probability pr)%Q \/
                 Predict2026.prediction_confidence pr = Predict2026.away_win_probability pr /\
                 (Predict2026.home_win_probability pr
                    < Predict2026.away_win_probability pr)%Q) /\
                (1 # 2 <= Predict2026.prediction_confidence pr)%Q /\
                Predict2026.pr_model_name pr = Predict2026.model_name model scaler self)
             (Predict2026.iterrows games_df) preds) /\
  (forall e,
     Predict2026.predict_all_games model scaler transform predict predict_proba self
       games_df = Raise e <->
     exists pre game_row post,
       Predict2026.iterrows games_df = pre ++ game_row :: post /\
       (forall r, In r pre ->
          exists pr, Predict2026.predict_row model scaler transform predict predict_proba
                       self r = Ok pr) /\
       Predict2026.predict_row model scaler transform predict predict_proba self game_row
         = Raise e).
Proof.
  split.
  - intros preds H. unfold Predict2026.predict_all_games in H.
    apply mapM_Forall2 in H. eapply Forall2_impl; [exact H|].
    intros game_row pr Hrow. simpl in Hrow. unfold Predict2026.predict_row in Hrow.
    bind_inv Hrow as pp Hpp. bind_inv Hrow as pk Hpk. bind_inv Hrow as date Hdate.
    bind_inv Hrow as home Hhome. bind_inv Hrow as away Haway.
    bind_inv Hrow as hn Hhn. bind_inv Hrow as an Han.
    inversion Hrow; subst pr; clear Hrow. simpl.
    destruct pp as [cls p]. simpl.
    destruct (py_max_cases p) as (H1 & H2).
    repeat (split; [assumption || reflexivity|]). reflexivity.
  - intros e. unfold Predict2026.predict_all_games. apply mapM_first_raise.
Qed.

Lemma predict_all_games_rows_witness :
  (exists preds,
     Predict2026.predict_all_games unit unit toy_transform toy_model_predict
       toy_model_predict_proba toy_predictor toy_games_frame = Ok preds /\
     length preds = 2%nat /\
     Forall (fun pr => Predict2026.prediction_confidence pr
                       = Predict2026.home_win_probability pr) preds) /\
  Predict2026.predict_all_games unit unit toy_transform toy_model_predict
    toy_model_predict_proba toy_predictor toy_games_frame_no_month
  = Raise (KeyError "month").
Proof.
  destruct (predict_all_games_rows toy_transform toy_model_predict toy_model_predict_proba
              toy_predictor toy_games_frame) as [Hok _].
  destruct (predict_all_games_rows toy_transform toy_model_predict toy_model_predict_proba
              toy_predictor toy_games_frame_no_month) as [_ Hko].
  split.
  - destruct (Predict2026.predict_all_games unit unit toy_transform toy_model_predict
                toy_model_predict_proba toy_predictor toy_games_frame) as [preds|e] eqn:E.
    + exists preds. split; [reflexivity|]. specialize (Hok preds eq_refl).
      split; [apply Forall2_length in Hok; rewrite <- Hok; reflexivity|].
      apply List.Forall_forall. intros pr Hpr.
      destruct (Forall2_In_r _ _ _ _ Hok Hpr)
        as (game_row & _ & Hgame & _ & _ & _ & _ & _ & _ & Haway & Hconf & _).
      destruct Hconf as [[Hc _]|[_ Hlt]]; [exact Hc|]. exfalso.
      rewrite Haway in Hlt.
      assert (Hp : Predict2026.home_win_probability pr = (54 # 100)%Q).
      { unfold Predict2026.predict_game in Hgame.
        destruct (Predict2026.input_vector unit unit toy_predictor game_row); simpl in Hgame;
          [|discriminate Hgame].
        inversion Hgame. reflexivity. }
      rewrite Hp in Hlt. vm_compute in Hlt. discriminate Hlt.
    + exfalso. vm_compute in E. discriminate E.
  - apply Hko. exists [], (combine (Predict2026.gf_columns toy_games_frame_no_month)
                             [Predict2026.VNum 746001; Predict2026.VStr "2026-04-01";
                              Predict2026.VNum 144; Predict2026.VNum 121;
                              Predict2026.VStr "Atlanta Braves";
                              Predict2026.VStr "New York Mets";
                              Predict2026.VStr "Truist Park"; Predict2026.VNum 4]).
    eexists. split; [reflexivity|]. split; [intros r []|]. reflexivity.
Defined.

(* ===================================================================== *)
(** ** A further property of the fold generator                           *)
(* ===================================================================== *)

(** X9.  In time-based mode no fold year is skipped: the folds are, in
    order, one for every distinct season from the fourth on, so there are
    at least two of them and three fewer than there are seasons. *)
Theorem one_fold_per_late_season (df : DataFrame) (folds : list V4Stacked.fold) :
  V4Stacked.time_folds df = Some folds ->
  map snd folds = drop 3 (distinct_years df) /\
  length folds = (length (distinct_years df) - 3)%nat /\
  (2 <= length folds)%nat.
Proof.
  intros Hf.
  destruct (year df) as [years_col|] eqn:Hy.
  2:{ apply time_folds_Some in Hf. destruct Hf as (c & Hc & _). congruence. }
  pose proof (time_folds_closed_form df years_col folds Hf Hy) as Hform.
  apply time_folds_Some in Hf. destruct Hf as (_ & _ & Hlen & _).
  assert (Hsnd : map snd folds = drop 3 (distinct_years df)).
  { rewrite Hform, map_map. simpl. apply map_id. }
  split; [exact Hsnd|].
  assert (Hl : length folds = (length (distinct_years df) - 3)%nat).
  { pose proof (f_equal (@length Z) Hsnd) as Hl.
    now rewrite List.length_map, List.length_skipn in Hl. }
  split; [exact Hl | lia].
Qed.

Lemma one_fold_per_late_season_witness :
  map snd history5_folds = drop 3 (distinct_years history5) /\
  length history5_folds = (length (distinct_years history5) - 3)%nat /\
  (2 <= length history5_folds)%nat.
Proof.
  apply (one_fold_per_late_season history5 history5_folds). reflexivity.
Defined.

(* ===================================================================== *)
(** ** Further properties of the hyperparameter tuner                     *)
(* ===================================================================== *)

Lemma best_trial_from_spec (best : V4Tuned.frozen_trial) (bv : Q)
    (rest : list V4Tuned.frozen_trial) :
  (V4Tuned.best_trial_from best bv rest = best \/
   In (V4Tuned.best_trial_from best bv rest) rest) /\
  (V4Tuned.value best = Some bv ->
   exists v, V4Tuned.value (V4Tuned.best_trial_from best bv rest) = Some v /\
             (bv <= v)%Q /\
             forall t v', In t rest -> V4Tuned.value t = Some v' -> (v' <= v)%Q).
Proof.
  revert best bv; induction rest as [|t rest IH]; intros best bv; simpl.
  - split; [now left|]. intros Hb. exists bv. split; [exact Hb|]. split; [lra | tauto].
  - destruct (V4Tuned.value t) as [v|] eqn:Ev.
    + unfold Qlt_bool. destruct (Qle_bool v bv) eqn:E; simpl.
      * apply Qle_bool_iff in E. destruct (IH best bv) as [Hin Hmax].
        split; [tauto|]. intros Hb. destruct (Hmax Hb) as (w & Hw & Hle & Hall).
        exists w. split; [exact Hw|]. split; [exact Hle|].
        intros t' v' [<-|Hin'] Hv'; [|eauto].
        rewrite Ev in Hv'. inversion Hv'; subst. lra.
      * assert (Hlt : ~ (v <= bv)%Q) by (rewrite <- Qle_bool_iff; congruence).
        destruct (IH t v) as [Hin Hmax].
        split; [destruct Hin as [->|Hin]; tauto|]. intros _.
        destruct (Hmax Ev) as (w & Hw & Hle & Hall).
        exists w. split; [exact Hw|]. split; [lra|].
        intros t' v' [<-|Hin'] Hv'; [|eauto].
        rewrite Ev in Hv'. inversion Hv'; subst. exact Hle.
    + destruct (IH best bv) as [Hin Hmax].
      split; [tauto|]. intros Hb. destruct (Hmax Hb) as (w & Hw & Hle & Hall).
      exists w. split; [exact Hw|]. split; [exact Hle|].
      intros t' v' [<-|Hin'] Hv'; [congruence | eauto].
Qed.

Lemma best_trial_spec (trials : list V4Tuned.frozen_trial) (t : V4Tuned.frozen_trial) :
  V4Tuned.best_trial trials = Ok t ->
  In t trials /\
  exists v, V4Tuned.value t = Some v /\
            forall t' v', In t' trials -> V4Tuned.value t' = Some v' -> (v' <= v)%Q.
Proof.
  induction trials as [|t0 trials IH]; simpl; [discriminate|].
  destruct (V4Tuned.value t0) as [v0|] eqn:E0.
  - intros H. inversion H; subst t; clear H.
    destruct (best_trial_from_spec t0 v0 trials) as [Hin Hmax].
    split; [destruct Hin as [Hin|Hin]; [left; now rewrite Hin | now right]|]. destruct (Hmax E0) as (w & Hw & Hle & Hall).
    exists w. split; [exact Hw|].
    intros t' v' [<-|Hin'] Hv'; [|eauto].
    rewrite E0 in Hv'. inversion Hv'; subst. exact Hle.
  - intros H. destruct (IH H) as (Hin & v & Hv & Hall).
    split; [now right|]. exists v. split; [exact Hv|].
    intros t' v' [<-|Hin'] Hv'; [congruence | eauto].
Qed.

Lemma best_trial_raises (trials : list V4Tuned.frozen_trial) (e : exn) :
  V4Tuned.best_trial trials = Raise e <->
  e = ValueError "No trials are completed yet." /\
  forall t, In t trials -> V4Tuned.value t = None.
Proof.
  induction trials as [|t0 trials IH]; simpl.
  - split; [intros H; inversion H; tauto | intros [-> _]; reflexivity].
  - destruct (V4Tuned.value t0) as [v0|] eqn:E0.
    + split; [discriminate|]. intros [_ H]. specialize (H t0 (or_introl eq_refl)). congruence.
    + rewrite IH. split; intros [He H]; (split; [exact He|]).
      * intros t [<-|Hin]; auto.
      * intros t Hin. apply H. now right.
Qed.

Lemma dict_set_fresh {V : Type} (k : string) (v : V) (d : list (string * V)) :
  ~ In k (map fst d) -> dict_set k v d = d ++ [(k, v)].
Proof.
  induction d as [|[k0 v0] d IH]; simpl; intros H; [reflexivity|].
  destruct (String.eqb k0 k) eqn:E.
  - apply String.eqb_eq in E. tauto.
  - rewrite IH; tauto.
Qed.

Lemma study_of_log_trials (finished trials : list V4Tuned.frozen_trial)
    (log : list (list (string * pvalue) * result (option Q))) :
  study_of_log finished log = Ok trials ->
  (forall t, In t trials ->
     In t finished \/ In (V4Tuned.params t, Ok (V4Tuned.value t)) log) /\
  (forall t, In t finished -> In t trials) /\
  (forall ps v, In (ps, Ok v) log ->
     In {| V4Tuned.params := ps; V4Tuned.value := v |} trials).
Proof.
  revert finished; induction log as [|[ps0 [v0|e0]] log IH]; intros finished; simpl.
  - intros H. inversion H; subst. repeat split; [tauto | tauto | intros ps v []].
  - intros H. destruct (IH _ H) as (H1 & H2 & H3). repeat split.
    + intros t Ht. destruct (H1 t Ht) as [Hin|Hin]; [|tauto].
      apply in_app_or in Hin. destruct Hin as [Hin|[<-|[]]]; [tauto|].
      right. left. reflexivity.
    + intros t Ht. apply H2. apply in_or_app. now left.
    + intros ps v [Heq|Hin]; [|now apply H3].
      inversion Heq; subst. apply H2. apply in_or_app. right. now left.
  - discriminate.
Qed.

Section TunerBest.
Context {sampler_state : Type}.
Variable suggest :
  sampler_state -> list V4Tuned.frozen_trial -> string -> V4Tuned.distribution ->
  pvalue * sampler_state.
Variable space : list (string * V4Tuned.distribution).
Variable objective : list (string * pvalue) -> result (option Q).

Lemma suggest_all_keys (st : sampler_state) (finished : list V4Tuned.frozen_trial) :
  map fst (V4Tuned.suggest_all sampler_state suggest space st finished).1 = map fst space.
Proof.
  revert st; induction space as [|[name d] sp IH]; intros st; simpl; [reflexivity|].
  destruct (suggest st finished name d) as [v st1]. specialize (IH st1).
  destruct (V4Tuned.suggest_all sampler_state suggest sp st1 finished) as [ps st2].
  simpl in *. now rewrite IH.
Qed.

Lemma trial_log_keys (n : nat) (st : sampler_state) (finished : list V4Tuned.frozen_trial)
    (ps : list (string * pvalue)) (r : result (option Q)) :
  In (ps, r) (trial_log suggest space objective n st finished) ->
  map fst ps = map fst space.
Proof.
  revert st finished; induction n as [|n IH]; intros st finished; simpl; [tauto|].
  pose proof (suggest_all_keys st finished) as Hk.
  destruct (V4Tuned.suggest_all sampler_state suggest space st finished) as [ps0 st'].
  simpl in Hk.
  destruct (objective ps0) as [v|e]; simpl.
  - intros [H|H]; [inversion H; subst; exact Hk | eapply IH; eauto].
  - intros [H|[]]. inversion H; subst; exact Hk.
Qed.

Lemma study_best (n : nat) (st : sampler_state) (best : list (string * pvalue)) :
  bind (study_of_log [] (trial_log suggest space objective n st [])) V4Tuned.best_params
    = Ok best ->
  (exists v, In (best, Ok (Some v)) (trial_log suggest space objective n st []) /\
     forall ps v', In (ps, Ok (Some v')) (trial_log suggest space objective n st []) ->
                   (v' <= v)%Q) /\
  map fst best = map fst space.
Proof.
  intros H. bind_inv H as trials Ht. unfold V4Tuned.best_params in H.
  bind_inv H as t Hbest. inversion H; subst best; clear H.
  destruct (study_of_log_trials _ _ _ Ht) as (H1 & _ & H3).
  destruct (best_trial_spec _ _ Hbest) as (Hin & v & Hv & Hmax).
  destruct (H1 t Hin) as [[]|Hlog]. rewrite Hv in Hlog.
  split; [|eapply trial_log_keys; exact Hlog].
  exists v. split; [exact Hlog|].
  intros ps v' Hin'. apply H3 in Hin'. eapply Hmax; [exact Hin' | reflexivity].
Qed.

Lemma study_no_value (n : nat) (st : sampler_state) :
  (forall ps r, In (ps, r) (trial_log suggest space objective n st []) -> r = Ok None) ->
  bind (study_of_log [] (trial_log suggest space objective n st [])) V4Tuned.best_params
    = Raise (ValueError "No trials are completed yet.").
Proof.
  intros Hall.
  destruct (study_of_log [] (trial_log suggest space objective n st [])) as [trials|e0]
    eqn:Ht; simpl.
  - unfold V4Tuned.best_params.
    destruct (V4Tuned.best_trial trials) as [t|e1] eqn:Hb; simpl.
    + exfalso. destruct (best_trial_spec _ _ Hb) as (Hin & v & Hv & _).
      destruct (study_of_log_trials _ _ _ Ht) as (H1 & _ & _).
      destruct (H1 t Hin) as [[]|Hlog]. apply Hall in Hlog. congruence.
    + apply best_trial_raises in Hb. destruct Hb as [-> _]. reflexivity.
  - exfalso.
    assert (Hex : exists ps, In (ps, Raise e0) (trial_log suggest space objective n st [])).
    { revert Ht. generalize (@nil V4Tuned.frozen_trial) at 1.
      induction (trial_log suggest space objective n st []) as [|[ps0 [v0|e1]] log IH];
        intros fin; simpl; [discriminate| |].
      - intros H. destruct (IH (fun ps r Hin => Hall ps r (or_intror Hin)) _ H) as [ps Hps].
        exists ps. now right.
      - intros H. inversion H; subst. exists ps0. now left. }
    destruct Hex as [ps Hps]. apply Hall in Hps. discriminate.
Qed.
End TunerBest.

Section TunedChoice.
Context {fitted sampler_state : Type}.
Variable fit : learner -> matrix -> list Z -> result fitted.
Variable predict_proba : fitted -> matrix -> result (list Q).
Variable predict : fitted -> matrix -> result (list Z).
Variable roc_auc_score : list Z -> list Q -> result (option Q).
Variable skf_split :
  nat -> bool -> Z -> matrix -> list Z -> result (list (list nat * list nat)).
Variable suggest :
  sampler_state -> list V4Tuned.frozen_trial -> string -> V4Tuned.distribution ->
  pvalue * sampler_state.

Local Abbreviation score :=
  (V4Tuned.score fitted fit predict_proba predict roc_auc_score skf_split).
Local Abbreviation tune_xgb :=
  (V4Tuned.tune_xgb fitted fit predict_proba predict roc_auc_score skf_split
     sampler_state suggest).
Local Abbreviation tune_lgbm :=
  (V4Tuned.tune_lgbm fitted fit predict_proba predict roc_auc_score skf_split
     sampler_state suggest).
Local Abbreviation xgb_log_of :=
  (xgb_log fit predict_proba predict roc_auc_score skf_split suggest).
Local Abbreviation lgbm_log_of :=
  (lgbm_log fit predict_proba predict roc_auc_score skf_split suggest).

(** X10.  What a tuning run returns was tried and is the best tried: the
    returned configuration is one of the run's trials, its cross-validated
    score is a number that no other trial of the run exceeds, it assigns
    exactly the parameters of the search space, in the order of the
    objective, and the learner that [main] builds from it for the final
    fit is the learner that trial cross-validated. *)
Theorem tuner_returns_best_tried (entropy : sampler_state) (df : DataFrame)
    (X : matrix) (y : list Z) (n_trials : nat) (metric : string) :
  (forall best, tune_xgb entropy df X y n_trials metric = Ok best ->
     (exists v,
        In (best, Ok (Some v)) (xgb_log_of entropy df X y n_trials metric) /\
        score metric (V4Tuned.xgb_builder best) X y df = Ok (Some v) /\
        forall ps v', In (ps, Ok (Some v')) (xgb_log_of entropy df X y n_trials metric) ->
                      (v' <= v)%Q) /\
     map fst best = map fst V4Tuned.xgb_space /\
     V4Tuned.final_xgb best = V4Tuned.xgb_builder best) /\
  (forall best, tune_lgbm entropy df X y n_trials metric = Ok best ->
     (exists v,
        In (best, Ok (Some v)) (lgbm_log_of entropy df X y n_trials metric) /\
        score metric (V4Tuned.lgbm_builder best) X y df = Ok (Some v) /\
        forall ps v', In (ps, Ok (Some v')) (lgbm_log_of entropy df X y n_trials metric) ->
                      (v' <= v)%Q) /\
     map fst best = map fst V4Tuned.lgbm_space /\
     V4Tuned.final_lgbm best = V4Tuned.lgbm_builder best).
Proof.
  split; intros best H.
  - rewrite tune_xgb_log in H. unfold xgb_log in *.
    apply study_best in H. destruct H as ((v & Hin & Hmax) & Hk).
    split; [|split; [exact Hk|]].
    + exists v. split; [exact Hin|]. split; [|exact Hmax].
      now apply trial_log_objective in Hin.
    + unfold V4Tuned.final_xgb, V4Tuned.xgb_builder. f_equal.
      rewrite (dict_set_fresh "eval_metric").
      2:{ rewrite Hk. simpl. intuition discriminate. }
      rewrite (dict_set_fresh "random_state").
      2:{ rewrite map_app, Hk. simpl. intuition discriminate. }
      now rewrite <- app_assoc.
  - rewrite tune_lgbm_log in H. unfold lgbm_log in *.
    apply study_best in H. destruct H as ((v & Hin & Hmax) & Hk).
    split; [|split; [exact Hk|]].
    + exists v. split; [exact Hin|]. split; [|exact Hmax].
      now apply trial_log_objective in Hin.
    + unfold V4Tuned.final_lgbm, V4Tuned.lgbm_builder. f_equal.
      rewrite (dict_set_fresh "random_state"); [reflexivity|].
      rewrite Hk. simpl. intuition discriminate.
Qed.
End TunedChoice.

Lemma tuner_returns_best_tried_witness :
  exists best,
    toy_tune_xgb 0 2 = Ok best /\
    map fst best = map fst V4Tuned.xgb_space /\
    V4Tuned.final_xgb best = V4Tuned.xgb_builder best.
Proof.
  destruct (tuner_returns_best_tried toy_tuner_fit toy_predict_proba toy_predict
              toy_roc_auc_score toy_skf_split toy_suggest 0 history5 history5_X
              history5_y 2 "auc") as [Hx _].
  destruct (toy_tune_xgb 0 2) as [best|e] eqn:E.
  - exists best. split; [reflexivity|]. apply (Hx best). exact E.
  - exfalso. vm_compute in E. discriminate.
Defined.

Lemma Qdiv_unit_interval (a b : Z) :
  0 <= a <= b -> 0 < b -> (0 <= inject_Z a / inject_Z b <= 1)%Q.
Proof.
  intros [Ha Hab] Hb.
  assert (Hb' : (0 < inject_Z b)%Q).
  { change (inject_Z 0 < inject_Z b)%Q. now rewrite <- Zlt_Qlt. }
  split.
  - apply Qle_shift_div_l; [exact Hb'|]. rewrite Qmult_0_l.
    change (inject_Z 0 <= inject_Z a)%Q. now rewrite <- Zle_Qle.
  - apply Qle_shift_div_r; [exact Hb'|]. rewrite Qmult_1_l.
    now rewrite <- Zle_Qle.
Qed.

Lemma tuned_accuracy_bounds (y preds : list Z) :
  y <> [] -> (0 <= V4Tuned.accuracy_score y preds <= 1)%Q.
Proof.
  intros Hy. unfold V4Tuned.accuracy_score. rewrite Qred_correct.
  apply Qdiv_unit_interval.
  - split; [lia|]. apply inj_le.
    etransitivity; [apply List.filter_length_le|].
    rewrite List.length_combine. lia.
  - destruct y; [congruence | simpl; lia].
Qed.

Lemma sum_bounds (xs : list Q) :
  (forall x, In x xs -> (0 <= x <= 1)%Q) ->
  (0 <= fold_right Qplus 0 xs <= inject_Z (Z.of_nat (length xs)))%Q.
Proof.
  induction xs as [|x xs IH]; intros H.
  - simpl. split; apply Qle_refl.
  - cbn [fold_right length]. rewrite Nat2Z.inj_succ, <- Z.add_1_r, inject_Z_plus.
    destruct (H x (or_introl eq_refl)) as [H0 H1].
    destruct IH as [I0 I1]; [intros z Hz; apply H; now right|].
    change (inject_Z 1) with 1%Q. split; lra.
Qed.

Lemma mean_bounds (xs : list Q) :
  xs <> [] -> (forall x, In x xs -> (0 <= x <= 1)%Q) ->
  exists v, V4Tuned.mean xs = Some v /\ (0 <= v <= 1)%Q.
Proof.
  intros Hne H. destruct xs as [|x xs]; [congruence|].
  unfold V4Tuned.mean. eexists. split; [reflexivity|].
  rewrite Qred_correct.
  destruct (sum_bounds (x :: xs) H) as [H0 H1].
  assert (Hn : (0 < inject_Z (Z.of_nat (length (x :: xs))))%Q).
  { change (inject_Z 0 < inject_Z (Z.of_nat (length (x :: xs))))%Q.
    rewrite <- Zlt_Qlt. simpl. lia. }
  split.
  - apply Qle_shift_div_l; [exact Hn|]. now rewrite Qmult_0_l.
  - apply Qle_shift_div_r; [exact Hn|]. now rewrite Qmult_1_l.
Qed.

Lemma fancy_index_length {A : Type} (a : list A) (idx : list nat) (r : list A) :
  fancy_index a idx = Ok r -> length r = length idx.
Proof.
  intros H. apply mapM_Forall2 in H. symmetry. eapply Forall2_length; eauto.
Qed.

Lemma tuned_time_folds_nonempty (df : DataFrame) (folds : list V4Tuned.fold) :
  V4Tuned.time_folds df = Some folds ->
  folds <> [] /\ forall f, In f folds -> f.1 <> [] /\ f.2 <> [].
Proof.
  rewrite tuned_time_folds. destruct (V4Stacked.time_folds df) as [fs|] eqn:Hf; [|discriminate].
  simpl. intros H. inversion H; subst folds; clear H.
  destruct (year df) as [years_col|] eqn:Hy.
  2:{ apply time_folds_Some in Hf. destruct Hf as (c & Hc & _). congruence. }
  pose proof (time_folds_closed_form df years_col fs Hf Hy) as Hform.
  apply time_folds_Some in Hf. destruct Hf as (c & Hc & Hlen & Hemit).
  assert (c = years_col) by congruence. subst c.
  split.
  - rewrite Hform. intros Hnil. apply (f_equal (@length _)) in Hnil.
    rewrite !List.length_map, List.length_skipn in Hnil. simpl in Hnil. lia.
  - intros f Hin. apply in_map_iff in Hin. destruct Hin as ([[tr va] y] & <- & Hin).
    rewrite Hemit in Hin. apply emit_folds_In in Hin. simpl. tauto.
Qed.

Lemma numbers_None (xs : list (option Q)) :
  V4Tuned.numbers xs = None <-> In None xs.
Proof.
  induction xs as [|[v|] xs IH]; simpl.
  - split; [discriminate | tauto].
  - destruct (V4Tuned.numbers xs) as [vs|].
    + split; [discriminate|]. intros [H|H]; [discriminate|]. now apply IH in H.
    + split; [intros _; right; now apply IH | reflexivity].
  - split; [now left | reflexivity].
Qed.

Lemma numbers_Some (xs : list (option Q)) (vs : list Q) :
  V4Tuned.numbers xs = Some vs -> xs = map Some vs.
Proof.
  revert vs; induction xs as [|[v|] xs IH]; intros vs; simpl.
  - intros H. now inversion H.
  - destruct (V4Tuned.numbers xs) as [vs'|]; [|discriminate].
    intros H. inversion H; subst. simpl. f_equal. now apply IH.
  - discriminate.
Qed.

Section ScoreRange.
Context {fitted : Type}.
Variable fit : learner -> matrix -> list Z -> result fitted.
Variable predict_proba : fitted -> matrix -> result (list Q).
Variable predict : fitted -> matrix -> result (list Z).
Variable roc_auc_score : list Z -> list Q -> result (option Q).
Variable skf_split :
  nat -> bool -> Z -> matrix -> list Z -> result (list (list nat * list nat)).

Local Abbreviation score :=
  (V4Tuned.score fitted fit predict_proba predict roc_auc_score skf_split).

(** X11.  The score of a trial in time-based mode.  With the accuracy
    metric the cross-validated score, when one is returned, is never NaN
    and lies between 0 and 1.  With the AUC metric it is NaN exactly when
    the AUC function returned NaN for one of the folds (as scikit-learn
    from 1.6 on does for a single-class validation fold), so such a trial
    has no value; otherwise it is a number, and it lies between 0 and 1
    when the fold AUCs do. *)
Theorem time_mode_score (metric : string) (builder : learner)
    (X : matrix) (y : list Z) (df : DataFrame) (folds : list V4Tuned.fold)
    (r : option Q) :
  V4Tuned.time_folds df = Some folds ->
  score metric builder X y df = Ok r ->
  (metric = "accuracy" -> exists v, r = Some v /\ (0 <= v <= 1)%Q) /\
  (metric <> "accuracy" ->
   exists aucs,
     Forall2 (fold_auc fit predict_proba roc_auc_score builder X y) folds aucs /\
     (r = None <-> In None aucs) /\
     (forall v, r = Some v ->
        (forall a, In (Some a) aucs -> (0 <= a <= 1)%Q) -> (0 <= v <= 1)%Q)).
Proof.
  intros Hf H.
  destruct (tuned_time_folds_nonempty df folds Hf) as [Hne Hfold].
  unfold V4Tuned.score in H.
  destruct (String.eqb metric "accuracy") eqn:Em.
  - apply String.eqb_eq in Em. split; [intros _ | intros Hm; contradiction].
    unfold V4Tuned.cv_score_accuracy, V4Tuned.cv_folds in H. rewrite Hf in H.
    simpl in H. bind_inv H as accs Haccs. inversion H; subst r; clear H.
    apply mapM_Forall2 in Haccs.
    destruct (mean_bounds accs) as (v & Hv & Hb); [| |eauto].
    + intros Hnil. subst accs. inversion Haccs. congruence.
    + intros a Ha. destruct (Forall2_In_r _ _ _ _ Haccs Ha) as (f & Hin & Hfa).
      simpl in Hfa.
      bind_inv Hfa as X_tr HX_tr. bind_inv Hfa as y_tr Hy_tr.
      bind_inv Hfa as model Hmodel. bind_inv Hfa as X_va HX_va.
      bind_inv Hfa as preds Hpreds. bind_inv Hfa as y_va Hy_va.
      inversion Hfa; subst a. apply tuned_accuracy_bounds.
      apply fancy_index_length in Hy_va. destruct (Hfold f Hin) as [_ Hva].
      intros Hnil. subst y_va. destruct (f.2); [congruence | discriminate].
  - apply String.eqb_neq in Em. split; [intros Hm; contradiction | intros _].
    unfold V4Tuned.cv_score_auc, V4Tuned.cv_folds in H. rewrite Hf in H.
    simpl in H. bind_inv H as aucs Haucs. inversion H; subst r; clear H.
    apply mapM_Forall2 in Haucs.
    exists aucs. split; [|split].
    + eapply Forall2_impl; [exact Haucs|]. intros f a Hfa. simpl in Hfa.
      bind_inv Hfa as X_tr HX_tr. bind_inv Hfa as y_tr Hy_tr.
      bind_inv Hfa as model Hmodel. bind_inv Hfa as X_va HX_va.
      bind_inv Hfa as probs Hprobs. bind_inv Hfa as y_va Hy_va.
      exists X_tr, y_tr, model, X_va, probs, y_va. auto 10.
    + unfold V4Tuned.mean_floats.
      destruct (V4Tuned.numbers aucs) as [vs|] eqn:En.
      * apply numbers_Some in En. subst aucs. split.
        -- intros Hmean. exfalso. destruct vs as [|v vs]; [|discriminate].
           inversion Haucs. congruence.
        -- intros Hin. apply in_map_iff in Hin. destruct Hin as (v & Hv & _).
           discriminate.
      * apply numbers_None in En. tauto.
    + intros v Hv Hrange. unfold V4Tuned.mean_floats in Hv.
      destruct (V4Tuned.numbers aucs) as [vs|] eqn:En; [|discriminate].
      apply numbers_Some in En. subst aucs.
      destruct (mean_bounds vs) as (v' & Hv' & Hb).
      * intros Hnil. subst vs. inversion Haucs. congruence.
      * intros a Ha. apply Hrange. now apply in_map.
      * congruence.
Qed.
End ScoreRange.

Lemma time_mode_score_witness :
  exists v,
    V4Tuned.score nat toy_tuner_fit toy_predict_proba toy_predict toy_roc_auc_score
      toy_skf_split "accuracy" V4Stacked.lgbm history5_X history5_y history5
      = Ok (Some v) /\
    (0 <= v <= 1)%Q.
Proof.
  destruct (V4Tuned.score nat toy_tuner_fit toy_predict_proba toy_predict
              toy_roc_auc_score toy_skf_split "accuracy" V4Stacked.lgbm history5_X
              history5_y history5) as [r|e] eqn:E.
  - destruct (time_mode_score toy_tuner_fit toy_predict_proba toy_predict
                toy_roc_auc_score toy_skf_split "accuracy" V4Stacked.lgbm history5_X
                history5_y history5 (map untag history5_folds) r) as [Hacc _].
    + reflexivity.
    + exact E.
    + destruct (Hacc eq_refl) as (v & -> & Hv). exists v. split; [reflexivity | exact Hv].
  - exfalso. vm_compute in E. discriminate.
Defined.

(** Both validation folds of [history5] are of one class: with the AUC of
    scikit-learn 1.6 the AUC score of any learner on it is NaN. *)
Example time_mode_auc_nan :
  V4Tuned.score nat toy_tuner_fit toy_predict_proba toy_predict nan_roc_auc_score
    toy_skf_split "auc" V4Stacked.lgbm history5_X history5_y history5 = Ok None.
Proof. reflexivity. Qed.

Lemma study_of_log_failed (finished : list V4Tuned.frozen_trial)
    (log : list (list (string * pvalue) * result (option Q))) (e : exn) :
  study_of_log finished log = Raise e -> exists ps, In (ps, Raise e) log.
Proof.
  revert finished; induction log as [|[ps0 [v0|e0]] log IH]; intros finished; simpl.
  - discriminate.
  - intros H. destruct (IH _ H) as [ps Hps]. exists ps. now right.
  - intros H. inversion H; subst. exists ps0. now left.
Qed.

Lemma study_of_log_finished (finished trials : list V4Tuned.frozen_trial)
    (log : list (list (string * pvalue) * result (option Q)))
    (ps : list (string * pvalue)) (e : exn) :
  study_of_log finished log = Ok trials -> ~ In (ps, Raise e) log.
Proof.
  revert finished; induction log as [|[ps0 [v0|e0]] log IH]; intros finished; simpl.
  - tauto.
  - intros H [Heq|Hin]; [discriminate | eapply IH; eauto].
  - discriminate.
Qed.

Section TunerFailures.
Context {sampler_state : Type}.
Variable suggest :
  sampler_state -> list V4Tuned.frozen_trial -> string -> V4Tuned.distribution ->
  pvalue * sampler_state.
Variable space : list (string * V4Tuned.distribution).
Variable objective : list (string * pvalue) -> result (option Q).

Lemma study_failure (n : nat) (st : sampler_state) (e : exn) :
  bind (study_of_log [] (trial_log suggest space objective n st [])) V4Tuned.best_params
    = Raise e <->
  (exists ps, In (ps, Raise e) (trial_log suggest space objective n st [])) \/
  (e = ValueError "No trials are completed yet." /\
   forall ps r, In (ps, r) (trial_log suggest space objective n st []) -> r = Ok None).
Proof.
  split.
  - destruct (study_of_log [] (trial_log suggest space objective n st [])) as [trials|e0]
      eqn:Ht; simpl.
    + unfold V4Tuned.best_params.
      destruct (V4Tuned.best_trial trials) as [t|e1] eqn:Hb; simpl; [discriminate|].
      intros H. inversion H; subst e1; clear H.
      apply best_trial_raises in Hb. destruct Hb as [-> Hnone].
      right. split; [reflexivity|]. intros ps [v|e'] Hin.
      * destruct (study_of_log_trials _ _ _ Ht) as (_ & _ & H3).
        apply H3, Hnone in Hin. simpl in Hin. now subst v.
      * exfalso. eapply study_of_log_finished; eauto.
    + intros H. inversion H; subst e0. left. eapply study_of_log_failed; eauto.
  - intros [[ps Hin]|[-> Hall]].
    + erewrite study_of_log_raises; [reflexivity | exact Hin |].
      intros ps' e' Hin'. eapply trial_log_one_raise; eauto.
    + now apply study_no_value.
Qed.
End TunerFailures.

Section TunedFailures.
Context {fitted sampler_state : Type}.
Variable fit : learner -> matrix -> list Z -> result fitted.
Variable predict_proba : fitted -> matrix -> result (list Q).
Variable predict : fitted -> matrix -> result (list Z).
Variable roc_auc_score : list Z -> list Q -> result (option Q).
Variable skf_split :
  nat -> bool -> Z -> matrix -> list Z -> result (list (list nat * list nat)).
Variable suggest :
  sampler_state -> list V4Tuned.frozen_trial -> string -> V4Tuned.distribution ->
  pvalue * sampler_state.

Local Abbreviation tune_xgb :=
  (V4Tuned.tune_xgb fitted fit predict_proba predict roc_auc_score skf_split
     sampler_state suggest).
Local Abbreviation tune_lgbm :=
  (V4Tuned.tune_lgbm fitted fit predict_proba predict roc_auc_score skf_split
     sampler_state suggest).
Local Abbreviation xgb_log_of :=
  (xgb_log fit predict_proba predict roc_auc_score skf_split suggest).
Local Abbreviation lgbm_log_of :=
  (lgbm_log fit predict_proba predict roc_auc_score skf_split suggest).
Local Abbreviation main :=
  (V4Tuned.main fitted fit predict_proba predict roc_auc_score skf_split
     sampler_state suggest).
Local Abbreviation evaluate_on_holdout :=
  (V4Tuned.evaluate_on_holdout fitted predict_proba roc_auc_score).

(** X12.  The failures of a tuning run are of two kinds only: the
    exception of the trial that raised, or, when no trial has a score (the
    trial budget is zero, or every score is NaN), the ValueError of
    [study.best_params]. *)
Theorem tuner_failures (entropy : sampler_state) (df : DataFrame)
    (X : matrix) (y : list Z) (n_trials : nat) (metric : string) (e : exn) :
  (tune_xgb entropy df X y n_trials metric = Raise e <->
   (exists ps, In (ps, Raise e) (xgb_log_of entropy df X y n_trials metric)) \/
   (e = ValueError "No trials are completed yet." /\
    forall ps r, In (ps, r) (xgb_log_of entropy df X y n_trials metric) -> r = Ok None)) /\
  (tune_lgbm entropy df X y n_trials metric = Raise e <->
   (exists ps, In (ps, Raise e) (lgbm_log_of entropy df X y n_trials metric)) \/
   (e = ValueError "No trials are completed yet." /\
    forall ps r, In (ps, r) (lgbm_log_of entropy df X y n_trials metric) -> r = Ok None)).
Proof.
  split.
  - rewrite tune_xgb_log. unfold xgb_log. apply study_failure.
  - rewrite tune_lgbm_log. unfold lgbm_log. apply study_failure.
Qed.

(** X13.  The artifact of [main] carries XGBoost exactly when both holdout
    AUCs are numbers and that of XGBoost is at least that of LightGBM; in
    every other case, in particular when one of the two AUCs is NaN, it
    carries LightGBM.  Both candidates are the AUC-tuned configurations
    refit on the whole history, the recorded metrics are those of the
    chosen candidate on the holdout, so when both AUCs are numbers the
    recorded AUC is at least either of them, and the feature list and fill
    table are the loader's.  The recorded model is one of these two
    candidates, whatever the accuracy-tuned models score. *)
Theorem main_selects_by_holdout_auc (e1 e2 e3 e4 : sampler_state)
    (train val_df : DataFrame) (art : V4Tuned.tuned_artifact fitted) :
  main e1 e2 e3 e4 train val_df = Ok art ->
  exists d xgb_model lgbm_model xgb_m lgbm_m,
    V4Tuned.prepare_data train val_df = Ok d /\
    tune_xgb e1 (V4Tuned.train_df d) (V4Tuned.X_train d) (V4Tuned.y_train d) 25 "auc"
      = Ok (V4Tuned.ta_xgb_params fitted art) /\
    tune_lgbm e2 (V4Tuned.train_df d) (V4Tuned.X_train d) (V4Tuned.y_train d) 25 "auc"
      = Ok (V4Tuned.ta_lgbm_params fitted art) /\
    fit (V4Tuned.final_xgb (V4Tuned.ta_xgb_params fitted art))
        (V4Tuned.X_train d) (V4Tuned.y_train d) = Ok xgb_model /\
    fit (V4Tuned.final_lgbm (V4Tuned.ta_lgbm_params fitted art))
        (V4Tuned.X_train d) (V4Tuned.y_train d) = Ok lgbm_model /\
    evaluate_on_holdout xgb_model (V4Tuned.X_val d) (V4Tuned.y_val d) = Ok xgb_m /\
    evaluate_on_holdout lgbm_model (V4Tuned.X_val d) (V4Tuned.y_val d) = Ok lgbm_m /\
    ((exists x l, xgb_m.2 = Some x /\ lgbm_m.2 = Some l /\ (l <= x)%Q) /\
     V4Tuned.ta_model_type fitted art = "xgb" /\
     V4Tuned.ta_model fitted art = xgb_model /\ V4Tuned.ta_metrics fitted art = xgb_m \/
     (xgb_m.2 = None \/ lgbm_m.2 = None \/
      exists x l, xgb_m.2 = Some x /\ lgbm_m.2 = Some l /\ (x < l)%Q) /\
     V4Tuned.ta_model_type fitted art = "lgbm" /\
     V4Tuned.ta_model fitted art = lgbm_model /\ V4Tuned.ta_metrics fitted art = lgbm_m) /\
    (forall x l, xgb_m.2 = Some x -> lgbm_m.2 = Some l ->
       exists a, (V4Tuned.ta_metrics fitted art).2 = Some a /\ (x <= a)%Q /\ (l <= a)%Q) /\
    V4Tuned.ta_feature_cols fitted art = V4Tuned.feature_cols d /\
    V4Tuned.ta_fill_values fitted art = V4Tuned.fill_values d.
Proof.
  intros H. unfold V4Tuned.main in H.
  bind_inv H as d Hd. bind_inv H as bx Hbx. bind_inv H as bl Hbl.
  bind_inv H as mx Hmx. bind_inv H as ml Hml.
  bind_inv H as xm Hxm. bind_inv H as lm Hlm.
  cbv zeta in H.
  bind_inv H as bxa Hbxa. bind_inv H as bla Hbla.
  bind_inv H as mxa Hmxa. bind_inv H as mla Hmla.
  bind_inv H as xma Hxma. bind_inv H as lma Hlma.
  inversion H; subst art; clear H. simpl.
  exists d, mx, ml, xm, lm. repeat (split; [assumption|]).
  split; [|split; [|split; reflexivity]].
  - unfold V4Tuned.float_ge.
    destruct (xm.2) as [x|] eqn:Ex; [|right; simpl; tauto].
    destruct (lm.2) as [l|] eqn:El; [|right; simpl; tauto].
    destruct (Qle_bool l x) eqn:E; simpl.
    + apply Qle_bool_iff in E. left. split; [exists x, l; tauto | tauto].
    + assert (Hlt : ~ (l <= x)%Q) by (rewrite <- Qle_bool_iff; congruence).
      right. split; [|tauto]. right. right. exists x, l.
      split; [reflexivity|]. split; [reflexivity | lra].
  - intros x l Hx Hl. unfold V4Tuned.float_ge. rewrite Hx, Hl.
    destruct (Qle_bool l x) eqn:E; simpl.
    + apply Qle_bool_iff in E. exists x. split; [exact Hx|]. split; [lra | exact E].
    + assert (Hlt : ~ (l <= x)%Q) by (rewrite <- Qle_bool_iff; congruence).
      exists l. split; [exact Hl|]. split; lra.
Qed.

(** X14.  Nothing is saved unless the secondary, accuracy-optimised search
    succeeds as well: when one of its two tuning runs raises, [main] raises
    and returns no artifact, whatever the AUC search had found. *)
Theorem accuracy_search_failure_aborts_main (e1 e2 e3 e4 : sampler_state)
    (train val_df : DataFrame) (d : V4Tuned.prepared) (e : exn) :
  V4Tuned.prepare_data train val_df = Ok d ->
  tune_xgb e3 (V4Tuned.train_df d) (V4Tuned.X_train d) (V4Tuned.y_train d) 20 "accuracy"
    = Raise e \/
  tune_lgbm e4 (V4Tuned.train_df d) (V4Tuned.X_train d) (V4Tuned.y_train d) 20 "accuracy"
    = Raise e ->
  exists e', main e1 e2 e3 e4 train val_df = Raise e'.
Proof.
  intros Hd Hacc. unfold V4Tuned.main. rewrite Hd. cbn [bind].
  repeat match goal with
         | |- exists e', Raise _ = Raise e' => eexists; reflexivity
         | |- context [bind ?r _] =>
             let E := fresh "E" in
             destruct r eqn:E; cbn [bind]; cbv zeta
         end.
  exfalso. destruct Hacc; congruence.
Qed.
End TunedFailures.

Lemma tuner_failures_witness :
  V4Tuned.tune_xgb nat toy_fit toy_predict_proba toy_predict toy_roc_auc_score
    toy_skf_split Z toy_suggest 0 bare_history [[]; []; []] [1; 0; 1] 2 "auc"
  = Raise (ValueError "No trials are completed yet.").
Proof.
  destruct (tuner_failures toy_fit toy_predict_proba toy_predict toy_roc_auc_score
              toy_skf_split toy_suggest 0 bare_history [[]; []; []] [1; 0; 1] 2 "auc"
              (ValueError "No trials are completed yet.")) as [[_ Hx] _].
  apply Hx. right. split; [reflexivity|].
  intros ps r Hin. vm_compute in Hin.
  destruct Hin as [H|[H|[]]]; inversion H; reflexivity.
Defined.

Lemma main_selects_by_holdout_auc_witness :
  exists art,
    V4Tuned.main nat toy_fit toy_predict_proba toy_predict toy_roc_auc_score
      toy_skf_split Z toy_suggest 0 1 2 3 history5 future1 = Ok art /\
    V4Tuned.ta_model_type nat art = "xgb" /\
    V4Tuned.ta_feature_cols nat art = ["home_elo"; "away_elo"].
Proof.
  destruct (V4Tuned.main nat toy_fit toy_predict_proba toy_predict toy_roc_auc_score
              toy_skf_split Z toy_suggest 0 1 2 3 history5 future1) as [art|e] eqn:E.
  - exists art. split; [reflexivity|].
    destruct (main_selects_by_holdout_auc toy_fit toy_predict_proba toy_predict
                toy_roc_auc_score toy_skf_split toy_suggest 0 1 2 3 history5 future1 art E)
      as (d & mx & ml & xm & lm & Hd & _ & _ & Hmx & Hml & Hxm & Hlm & Hsel & _ & Hfc & _).
    split.
    + destruct Hsel as [(_ & Ht & _)|(Hno & _)]; [exact Ht|].
      exfalso. vm_compute in Hxm, Hlm. inversion Hxm; subst xm. inversion Hlm; subst lm.
      simpl in Hno. destruct Hno as [Hno|[Hno|(x & l & Hx & Hl & Hlt)]];
        [discriminate Hno | discriminate Hno |].
      inversion Hx; subst x. inversion Hl; subst l. vm_compute in Hlt.
      discriminate Hlt.
    + rewrite Hfc. vm_compute in Hd. inversion Hd. reflexivity.
  - exfalso. vm_compute in E. discriminate.
Defined.

(** On a holdout of one class, with the AUC of scikit-learn 1.6, both
    holdout AUCs are NaN and the artifact carries LightGBM with AUC NaN. *)
Example main_records_lgbm_on_nan :
  exists art,
    V4Tuned.main nat toy_fit toy_predict_proba toy_predict nan_roc_auc_score
      toy_skf_split Z toy_suggest 0 1 2 3 history7 future_one_class = Ok art /\
    V4Tuned.ta_model_type nat art = "lgbm" /\
    (V4Tuned.ta_metrics nat art).2 = None.
Proof.
  destruct (V4Tuned.main nat toy_fit toy_predict_proba toy_predict nan_roc_auc_score
      toy_skf_split Z toy_suggest 0 1 2 3 history7 future_one_class) as [art|e] eqn:E.
  - exists art. split; [reflexivity|]. vm_compute in E. inversion E. split; reflexivity.
  - exfalso. vm_compute in E. discriminate E.
Qed.


Lemma accuracy_search_failure_aborts_main_witness :
  (exists best,
     V4Tuned.tune_xgb nat toy_fit toy_predict_proba toy_predict_unavailable
       toy_roc_auc_score toy_skf_split Z toy_suggest 0
       (V4Tuned.train_df history5_prepared)
       (V4Tuned.X_train history5_prepared) (V4Tuned.y_train history5_prepared) 25 "auc"
     = Ok best) /\
  exists e',
    V4Tuned.main nat toy_fit toy_predict_proba toy_predict_unavailable toy_roc_auc_score
      toy_skf_split Z toy_suggest 0 1 0 1 history5 future1 = Raise e'.
Proof.
  split; [eexists; vm_compute; reflexivity|].
  apply (accuracy_search_failure_aborts_main toy_fit toy_predict_proba
           toy_predict_unavailable toy_roc_auc_score toy_skf_split toy_suggest 0 1 0 1
           history5 future1 history5_prepared (LearnerError 1)).
  - vm_compute. reflexivity.
  - left. vm_compute. reflexivity.
Defined.

(* ===================================================================== *)
(** ** Further properties of the loader                                   *)
(* ===================================================================== *)

Lemma median_observed (cells : list (option Q)) :
  dropna cells <> [] -> is_Some (median cells).
Proof.
  intros Hne. unfold median.
  set (vs := sorted Qle_bool (dropna cells)).
  assert (Hlen : (0 < length vs)%nat).
  { unfold vs. rewrite sorted_length. destruct (dropna cells); [congruence | simpl; lia]. }
  assert (H2 : (length vs / 2 < length vs)%nat) by (apply Nat.div_lt; lia).
  destruct (Nat.odd (length vs)) eqn:Eo.
  - now apply lookup_lt_is_Some_2.
  - destruct (lookup_lt_is_Some_2 vs (length vs / 2 - 1)) as [a Ha]; [lia|].
    destruct (lookup_lt_is_Some_2 vs (length vs / 2)) as [b Hb]; [lia|].
    rewrite Ha, Hb. eauto.
Qed.

Lemma median_unobserved (cells : list (option Q)) :
  dropna cells = [] -> median cells = None.
Proof. intros H. unfold median. rewrite H. reflexivity. Qed.

Lemma numeric_cols_get (cs : list (string * column)) (c : string) :
  List.NoDup (map fst cs) -> In c (numeric_cols cs) ->
  exists cells, dict_get c cs = Some (NumCol cells).
Proof.
  intros Hnd Hin. unfold numeric_cols in Hin. apply in_map_iff in Hin.
  destruct Hin as ([c' col] & Heq & Hin). simpl in Heq. subst c'.
  apply filter_In in Hin. destruct Hin as [Hin Hnum].
  destruct col as [cells|?]; [|discriminate].
  exists cells. now apply dict_get_NoDup_In.
Qed.

Lemma select_cols_get (cs : list (string * column)) (c : string) :
  List.NoDup (map fst cs) -> In c (select_cols cs) ->
  exists cells, dict_get c cs = Some (NumCol cells).
Proof.
  intros Hnd Hin. unfold select_cols in Hin. apply filter_In in Hin.
  apply numeric_cols_get; tauto.
Qed.

Lemma values_float_rows (n : nat) (cs : list (string * column)) (names : list string)
    (M : matrix) :
  values_float n cs names = Ok M ->
  exists columns,
    Forall2 (fun name cells => dict_get name cs = Some (NumCol cells)) names columns /\
    M = map (fun i => map (fun cells => default None (cells !! i)) columns) (seq 0 n).
Proof.
  unfold values_float. intros H. bind_inv H as columns Hc. inversion H; subst M; clear H.
  exists columns. split; [|reflexivity].
  apply mapM_Forall2 in Hc. eapply Forall2_impl; [exact Hc|].
  intros name cells Hn. simpl in Hn.
  destruct (dict_get name cs) as [[cells'|?]|]; inversion Hn. reflexivity.
Qed.

(** X15.  What the loader returns is a pair of rectangular matrices, one
    row per frame row and one column per selected feature; when the frames
    are well formed (every column has one cell per row) and every selected
    column has at least one observed value in the history, neither matrix
    contains a NaN. *)
Theorem loader_matrices_complete (train val_df : DataFrame) (d : V4Tuned.prepared) :
  List.NoDup (map fst (cols train)) ->
  (forall c cells, dict_get c (cols train) = Some (NumCol cells) ->
     length cells = nrows train) ->
  (forall c cells, dict_get c (cols val_df) = Some (NumCol cells) ->
     length cells = nrows val_df) ->
  (forall c cells, In c (select_cols (cols train)) ->
     dict_get c (cols train) = Some (NumCol cells) ->
     exists i v, cells !! i = Some (Some v)) ->
  V4Tuned.prepare_data train val_df = Ok d ->
  length (V4Tuned.X_train d) = nrows train /\
  length (V4Tuned.X_val d) = nrows val_df /\
  forall r, In r (V4Tuned.X_train d) \/ In r (V4Tuned.X_val d) ->
            length r = length (V4Tuned.feature_cols d) /\ filled r = true.
Proof.
  intros Hnd Hwt Hwv Hobs H. unfold V4Tuned.prepare_data in H.
  bind_inv H as st Hloop. bind_inv H as Xt HXt. bind_inv H as yt Hyt.
  bind_inv H as Xv HXv. bind_inv H as yv Hyv. inversion H; subst d; clear H. simpl.
  pose proof (select_cols_NoDup _ Hnd) as Hnd'.
  destruct (impute_loop_spec _ _ _ Hnd' Hloop) as [_ Hin]. simpl in Hin.
  split; [now apply values_float_length in HXt|].
  split; [now apply values_float_length in HXv|].
  apply values_float_rows in HXt, HXv.
  destruct HXt as (tcols & Ht2 & ->). destruct HXv as (vcols & Hv2 & ->).
  intros r [Hr|Hr]; apply in_map_iff in Hr; destruct Hr as (i & <- & Hi);
    apply in_seq in Hi; (split; [rewrite List.length_map; symmetry;
                                 eapply Forall2_length; eassumption|]);
    apply filled_spec; apply Forall_map; apply List.Forall_forall; intros cells' Hc'.
  - destruct (Forall2_In_r _ _ _ _ Ht2 Hc') as (c & Hc & Hget).
    destruct (Hin c Hc) as (cells & vcol & H1 & H2 & H3 & H4 & H5).
    rewrite H3 in Hget. inversion Hget; subst cells'.
    destruct (Hobs c cells Hc H1) as (k & v & Hk).
    destruct (median_observed cells) as [m Hm].
    { intros Hnil. assert (Hv : In v (dropna cells)) by (apply dropna_In; eauto).
      rewrite Hnil in Hv. destruct Hv. }
    specialize (Hwt c cells H1).
    destruct (lookup_lt_is_Some_2 cells i) as [x Hx]; [lia|].
    unfold fillna. rewrite lookup_map, Hx. simpl. rewrite Hm. destruct x; simpl; eauto.
  - destruct (Forall2_In_r _ _ _ _ Hv2 Hc') as (c & Hc & Hget).
    destruct (Hin c Hc) as (cells & vcol & H1 & H2 & H3 & H4 & H5).
    rewrite H4 in Hget. destruct vcol as [vcells|?]; simpl in Hget; [|discriminate].
    inversion Hget; subst cells'.
    destruct (Hobs c cells Hc H1) as (k & v & Hk).
    destruct (median_observed cells) as [m Hm].
    { intros Hnil. assert (Hv : In v (dropna cells)) by (apply dropna_In; eauto).
      rewrite Hnil in Hv. destruct Hv. }
    specialize (Hwv c vcells H2).
    destruct (lookup_lt_is_Some_2 vcells i) as [x Hx]; [lia|].
    unfold fillna. rewrite lookup_map, Hx. simpl. rewrite Hm. destruct x; simpl; eauto.
Qed.

(** X16.  A selected feature column without any observed value in the
    history is not repaired: its fill value is NaN, its column of the
    history matrix is NaN throughout, and a cell of it that is missing in
    the future frame is NaN in the holdout matrix. *)
Theorem unobserved_feature_stays_missing (train val_df : DataFrame)
    (d : V4Tuned.prepared) (c : string) (cells : list (option Q)) (j : nat) :
  List.NoDup (map fst (cols train)) ->
  V4Tuned.prepare_data train val_df = Ok d ->
  V4Tuned.feature_cols d !! j = Some c ->
  dict_get c (cols train) = Some (NumCol cells) ->
  (forall i v, cells !! i <> Some (Some v)) ->
  V4Tuned.fill_values d !! c = Some None /\
  (forall r, In r (V4Tuned.X_train d) -> r !! j = Some None) /\
  (forall vcells i r,
     dict_get c (cols val_df) = Some (NumCol vcells) -> vcells !! i = Some None ->
     V4Tuned.X_val d !! i = Some r -> r !! j = Some None).
Proof.
  intros Hnd H Hj Hc Hnone. unfold V4Tuned.prepare_data in H.
  bind_inv H as st Hloop. bind_inv H as Xt HXt. bind_inv H as yt Hyt.
  bind_inv H as Xv HXv. bind_inv H as yv Hyv. inversion H; subst d; clear H.
  simpl in *.
  pose proof (select_cols_NoDup _ Hnd) as Hnd'.
  destruct (impute_loop_spec _ _ _ Hnd' Hloop) as [_ Hin]. simpl in Hin.
  assert (Hcin : In c (select_cols (cols train))).
  { apply list_elem_of_In. eapply list_elem_of_lookup_2; eauto. }
  destruct (Hin c Hcin) as (cells0 & vcol & H1 & H2 & H3 & H4 & H5).
  assert (cells0 = cells) by congruence. subst cells0.
  assert (Hmed : median cells = None).
  { apply median_unobserved. destruct (dropna cells) as [|v l] eqn:E; [reflexivity|].
    assert (Hv : In v (dropna cells)) by (rewrite E; now left).
    apply dropna_In in Hv. destruct Hv as [i Hi]. now apply Hnone in Hi. }
  rewrite Hmed in *.
  split; [exact H5|].
  apply values_float_rows in HXt, HXv.
  destruct HXt as (tcols & Ht2 & ->). destruct HXv as (vcols & Hv2 & ->).
  split.
  - intros r Hr. apply in_map_iff in Hr. destruct Hr as (i & <- & _).
    destruct (Forall2_lookup_l _ _ _ _ _ Ht2 Hj) as (cells' & Hl & Hget).
    rewrite H3 in Hget. inversion Hget; subst cells'.
    rewrite lookup_map, Hl. simpl. f_equal.
    unfold fillna. rewrite lookup_map.
    destruct (cells !! i) as [[v|]|] eqn:E; simpl; try reflexivity.
    now apply Hnone in E.
  - intros vcells i r Hv Hi Hr.
    assert (vcol = NumCol vcells) by congruence. subst vcol. simpl in H4.
    rewrite lookup_map in Hr.
    destruct (seq 0 (nrows val_df) !! i) as [i'|] eqn:Es; [|discriminate].
    apply lookup_seq in Es. destruct Es as [-> _]. simpl in Hr.
    inversion Hr; subst r; clear Hr.
    destruct (Forall2_lookup_l _ _ _ _ _ Hv2 Hj) as (cells' & Hl & Hget).
    rewrite H4 in Hget. inversion Hget; subst cells'.
    rewrite lookup_map, Hl. simpl. f_equal.
    unfold fillna. rewrite lookup_map, Hi. reflexivity.
Qed.

Lemma impute_loop_missing (columns : list string) (st : imputed) (c : string) :
  List.NoDup columns ->
  (forall c', In c' columns -> exists cells, dict_get c' (im_train st) = Some (NumCol cells)) ->
  List.find (fun c' => match dict_get c' (im_val st) with None => true | Some _ => false end)
            columns = Some c ->
  impute_loop st columns = Raise (KeyError c).
Proof.
  intros Hnd. revert st. induction Hnd as [|c0 columns Hnotin Hnd IH]; intros st Hnum Hc.
  - discriminate.
  - simpl in *. destruct (Hnum c0 (or_introl eq_refl)) as [cells Hcells].
    unfold impute_col. rewrite Hcells.
    destruct (dict_get c0 (im_val st)) as [vcol|] eqn:Ev.
    + simpl.
      assert (Hne : forall c', In c' columns -> c0 <> c') by (intros c' H' ->; contradiction).
      apply IH; simpl.
      * intros c' Hc'. rewrite dict_get_set_ne by (now apply Hne). apply Hnum. now right.
      * rewrite <- Hc. clear Hc IH Hnd Hnum. induction columns as [|c1 columns IH]; simpl;
          [reflexivity|].
        rewrite dict_get_set_ne by (apply Hne; now left).
        destruct (dict_get c1 (im_val st)); [|reflexivity].
        apply IH; [intros H; apply Hnotin; now right | intros c' H; apply Hne; now right].
    + simpl. now inversion Hc.
Qed.

(** X17.  The loader takes its feature list from the history frame alone:
    a selected feature column that the future frame lacks is not dropped;
    [select_features] and [prepare_data] raise the KeyError of the first
    such column, in the order of the history frame's columns. *)
Theorem loader_missing_future_column (self : V4Stacked.trainer) (train val_df : DataFrame)
    (c : string) :
  List.NoDup (map fst (cols train)) ->
  List.find (fun c' => match dict_get c' (cols val_df) with None => true | Some _ => false end)
            (select_cols (cols train)) = Some c ->
  V4Stacked.select_features self train val_df = Raise (KeyError c) /\
  V4Tuned.prepare_data train val_df = Raise (KeyError c).
Proof.
  intros Hnd Hc.
  pose proof (select_cols_NoDup _ Hnd) as Hnd'.
  assert (Hloop : forall fill,
            impute_loop {| im_fill := fill; im_train := cols train;
                           im_val := cols val_df |} (select_cols (cols train))
            = Raise (KeyError c)).
  { intros fill. apply impute_loop_missing; simpl; auto.
    intros c' Hc'. now apply select_cols_get. }
  split.
  - unfold V4Stacked.select_features. rewrite Hloop. reflexivity.
  - unfold V4Tuned.prepare_data. rewrite Hloop. reflexivity.
Qed.

Lemma loader_matrices_complete_witness :
  length (V4Tuned.X_train history5_prepared) = nrows history5 /\
  length (V4Tuned.X_val history5_prepared) = nrows future1 /\
  forall r, In r (V4Tuned.X_train history5_prepared) \/
            In r (V4Tuned.X_val history5_prepared) ->
            length r = length (V4Tuned.feature_cols history5_prepared) /\ filled r = true.
Proof.
  apply (loader_matrices_complete history5 future1 history5_prepared).
  - vm_compute. repeat constructor; simpl; intuition discriminate.
  - intros c cells H. apply dict_get_In in H. simpl in H.
    repeat destruct H as [H|H]; inversion H; reflexivity.
  - intros c cells H. apply dict_get_In in H. simpl in H.
    repeat destruct H as [H|H]; inversion H; reflexivity.
  - intros c cells Hin H. vm_compute in Hin.
    destruct Hin as [<-|[<-|[]]]; vm_compute in H; inversion H;
      exists 0%nat; eexists; reflexivity.
  - vm_compute. reflexivity.
Defined.

Lemma unobserved_feature_stays_missing_witness :
  exists d,
    V4Tuned.prepare_data unobserved_history unobserved_future = Ok d /\
    V4Tuned.fill_values d !! "park_factor" = Some None /\
    (forall r, In r (V4Tuned.X_train d) -> r !! 1%nat = Some None).
Proof.
  destruct (V4Tuned.prepare_data unobserved_history unobserved_future) as [d|e] eqn:E.
  - exists d. split; [reflexivity|].
    destruct (unobserved_feature_stays_missing unobserved_history unobserved_future d
                "park_factor" [None; None] 1%nat) as (H1 & H2 & _).
    + vm_compute. repeat constructor; simpl; intuition discriminate.
    + exact E.
    + vm_compute in E. inversion E. reflexivity.
    + reflexivity.
    + intros [|[|i]] v H; discriminate.
    + split; assumption.
  - exfalso. vm_compute in E. discriminate.
Defined.

Lemma loader_missing_future_column_witness :
  V4Stacked.select_features V4Stacked.init history5 future_without_away_elo
    = Raise (KeyError "away_elo") /\
  V4Tuned.prepare_data history5 future_without_away_elo = Raise (KeyError "away_elo").
Proof.
  apply (loader_missing_future_column V4Stacked.init history5 future_without_away_elo
           "away_elo").
  - vm_compute. repeat constructor; simpl; intuition discriminate.
  - reflexivity.
Defined.

(* ===================================================================== *)
(** ** A further property of the training run                             *)
(* ===================================================================== *)



(* ===================================================================== *)
(** ** A further property of the prediction script                        *)
(* ===================================================================== *)

Lemma feature_value_calendar_only (r r' : list (string * Predict2026.value)) (f : string) :
  dict_get "month" r = dict_get "month" r' ->
  dict_get "day_of_week" r = dict_get "day_of_week" r' ->
  (forall k, In k ["home_team_id"; "away_team_id"; "game_date"] ->
     is_Some (dict_get k r) /\ is_Some (dict_get k r')) ->
  Predict2026.feature_value r f = Predict2026.feature_value r' f.
Proof.
  intros Hm Hd Hk. unfold Predict2026.feature_value, Predict2026.row_get.
  destruct (Hk "home_team_id") as [[h Hh] [h' Hh']]; [simpl; tauto|].
  destruct (Hk "away_team_id") as [[a Ha] [a' Ha']]; [simpl; tauto|].
  destruct (Hk "game_date") as [[g Hg] [g' Hg']]; [simpl; tauto|].
  rewrite Hh, Hh', Ha, Ha', Hg, Hg', Hm, Hd. reflexivity.
Qed.

(** X19.  A prediction does not look at the teams: the recent-form features
    are the constant 0.54 whoever plays, so two game rows that have their
    team and date columns and agree on the month and on the day of the
    week get the same input vector, hence the same predicted class and
    home-win probability. *)
Theorem prediction_ignores_teams {model scaler : Type}
    (transform : scaler -> list Predict2026.value -> result row)
    (predict : model -> row -> result Z)
    (predict_proba : model -> row -> result Q)
    (self : Predict2026.GamePredictor model scaler)
    (r r' : list (string * Predict2026.value)) :
  dict_get "month" r = dict_get "month" r' ->
  dict_get "day_of_week" r = dict_get "day_of_week" r' ->
  (forall k, In k ["home_team_id"; "away_team_id"; "game_date"] ->
     is_Some (dict_get k r) /\ is_Some (dict_get k r')) ->
  Predict2026.input_vector model scaler self r = Predict2026.input_vector model scaler self r' /\
  Predict2026.predict_game model scaler transform predict predict_proba self r =
  Predict2026.predict_game model scaler transform predict predict_proba self r'.
Proof.
  intros Hm Hd Hk.
  assert (Hloop : forall fs d,
            Predict2026.features_loop r fs d = Predict2026.features_loop r' fs d).
  { induction fs as [|f fs IH]; intros d; simpl; [reflexivity|].
    rewrite (feature_value_calendar_only r r' f Hm Hd Hk).
    destruct (Predict2026.feature_value r' f); simpl; [apply IH | reflexivity]. }
  assert (Hvec : Predict2026.input_vector model scaler self r =
                 Predict2026.input_vector model scaler self r').
  { unfold Predict2026.input_vector, Predict2026.prepare_features_for_game.
    now rewrite Hloop. }
  split; [exact Hvec|].
  unfold Predict2026.predict_game. now rewrite Hvec.
Qed.

Lemma prediction_ignores_teams_witness :
  Predict2026.input_vector unit unit toy_predictor toy_game_row =
  Predict2026.input_vector unit unit toy_predictor toy_game_row_swapped /\
  Predict2026.predict_game unit unit toy_transform toy_model_predict
    toy_model_predict_proba toy_predictor toy_game_row =
  Predict2026.predict_game unit unit toy_transform toy_model_predict
    toy_model_predict_proba toy_predictor toy_game_row_swapped.
Proof.
  apply (prediction_ignores_teams toy_transform toy_model_predict toy_model_predict_proba
           toy_predictor toy_game_row toy_game_row_swapped).
  - reflexivity.
  - reflexivity.
  - intros k Hk. simpl in Hk.
    destruct Hk as [<-|[<-|[<-|[]]]]; split; vm_compute; eauto.
Defined.
